(** * polymarket-trader: the order-sizing and diagnosis logic of
      [scripts/poly_wrapper.py]

    A shallow embedding of the command bodies [cmd_buy], [cmd_buy_max] and
    [cmd_diagnose] and of the helpers they use ([_best_order],
    [_best_bid_ask], [_max_allowance], [_get_balance_allowance]).

    Python's [float] is IEEE binary64, so numbers are Rocq's primitive
    [float]s: products, quotients and comparisons are the hardware ones.
    The exchange client is an external collaborator: its methods are the
    fields of a record of state-passing functions over an abstract server
    state, and every call, and every line printed, is recorded in a trace.
    A command is modelled from the line after [get_client] has returned
    the client, with the strings [argparse] hands it as its arguments. *)

From Stdlib Require Import Floats ZArith QArith Qround Qabs Lqa List Bool String Lia.

Set Warnings "-inexact-float".
Import ListNotations.

Set Implicit Arguments.

(** ** Python values *)

(** A [str] as far as this program looks at it: it tests strings for
    emptiness and hands them to [float()].  [Numeral f] is a string that
    [float()] converts to [f], [NonNumeric] a non-empty string it rejects. *)
Inductive text : Type :=
| Numeral (f : float)
| NonNumeric
| EmptyStr.

(** The JSON scalars found in order books and balance payloads. *)
Inductive pyval : Type :=
| PNone
| PStr (t : text)
| PNum (f : float).

(** The messages of the exceptions the script raises itself, with the
    numbers their f-strings interpolate. *)
Inductive message : Type :=
| NoAsksAvailable                          (* "No asks available for this token." *)
| MaxUsdMustBePositive                     (* "max_usd must be > 0." *)
| MaxUsdTooLow (min_cost price : float)    (* "max_usd too low for min order size. min_cost=$.. at price .." *)
| NotionalBelowMinimum (notional : float)  (* "Marketable buy notional ($..) below $1 minimum." *)
| InsufficientBalanceAllowance             (* "insufficient balance/allowance (balance or allowance is 0)" *)
| CouldNotConvert                          (* float() on a string that is no numeral *)
| EmptySequence.                           (* min() or max() of an empty sequence *)

Inductive exn : Type :=
| ValueError (m : message)
| TypeError
| ZeroDivisionError
| ClientError (s : string).

Inductive result (A : Type) : Type :=
| Ok (a : A)
| Raise (e : exn).
Arguments Ok {A} a.
Arguments Raise {A} e.

Definition rbind {A B} (r : result A) (k : A -> result B) : result B :=
  match r with
  | Ok a => k a
  | Raise e => Raise e
  end.

Declare Scope result_scope.
Delimit Scope result_scope with result.
Notation "'let?' x ':=' r 'in' k" := (rbind r (fun x => k))
  (at level 10, x pattern, r at level 100, k at level 200) : result_scope.
Local Open Scope result_scope.
Local Open Scope float_scope.

(** [bool(x)] *)
Definition truthy (v : pyval) : bool :=
  match v with
  | PNone => false
  | PStr EmptyStr => false
  | PStr _ => true
  | PNum f => negb (f =? 0)
  end.

(** [float(x)] *)
Definition py_float (v : pyval) : result float :=
  match v with
  | PNone => Raise TypeError
  | PStr (Numeral f) => Ok f
  | PStr _ => Raise (ValueError CouldNotConvert)
  | PNum f => Ok f
  end.

(** [x or 0] *)
Definition or_zero (v : pyval) : pyval :=
  if truthy v then v else PNum 0.

(** [a / b] on floats: Python raises where IEEE returns an infinity or NaN. *)
Definition py_div (a b : float) : result float :=
  if b =? 0 then Raise ZeroDivisionError else Ok (a / b).

(** ** The order book *)

Module OrderSummary.
Record t : Type := mk { price : pyval; size : pyval }.
End OrderSummary.

Module OrderBook.
Record t : Type := mk {
  bids : list OrderSummary.t;
  asks : list OrderSummary.t;
  min_order_size : pyval;
  tick_size : pyval;
  last_trade_price : pyval
}.
End OrderBook.

(** ** [min(iterable, key=...)] and [max(iterable, key=...)]

    CPython keeps the first item and replaces it only by an item whose key
    compares strictly better ([<] for [min], [>] for [max]); a key function
    that raises ends the call. *)
Section MinMax.
Context {A : Type}.
Variable better : float -> float -> bool.
Variable key : A -> result float.

Fixpoint min_max_loop (best : A) (best_key : float) (l : list A) : result A :=
  match l with
  | [] => Ok best
  | x :: l' =>
      let? k := key x in
      if better k best_key then min_max_loop x k l'
      else min_max_loop best best_key l'
  end.

Definition min_max (l : list A) : result A :=
  match l with
  | [] => Raise (ValueError EmptySequence)
  | x :: l' => let? k := key x in min_max_loop x k l'
  end.
End MinMax.

Definition py_min {A} (key : A -> result float) (l : list A) : result A :=
  min_max (fun k best => k <? best) key l.

Definition py_max {A} (key : A -> result float) (l : list A) : result A :=
  min_max (fun k best => best <? k) key l.

(** [lambda x: float(x.price)] *)
Definition price_key (x : OrderSummary.t) : result float :=
  py_float (OrderSummary.price x).

Definition _best_order (orders : list OrderSummary.t)
    (best_fn : (OrderSummary.t -> result float) -> list OrderSummary.t -> result OrderSummary.t)
    : result (option OrderSummary.t) :=
  match orders with
  | [] => Ok None
  | _ => let? x := best_fn price_key orders in Ok (Some x)
  end.

Definition _best_bid_ask (book : OrderBook.t)
    : result (option OrderSummary.t * option OrderSummary.t) :=
  let? best_bid := _best_order (OrderBook.bids book) py_max in
  let? best_ask := _best_order (OrderBook.asks book) py_min in
  Ok (best_bid, best_ask).

(** ** [round(x, 6)]

    CPython prints the exact binary value of [x] with six digits after the
    point, correctly rounded with ties to even, and reads the decimal
    string back as the nearest double; zeros, infinities and NaN are
    returned as they are, and the sign is kept. *)

(** The exact value of a finite, non-zero double, sign apart. *)
Definition magnitude (m : positive) (e : Z) : Q :=
  (inject_Z (Zpos m) * Qpower 2 e)%Q.

(** The nearest integer, ties to the even one. *)
Definition round_half_even (q : Q) : Z :=
  let n := Qfloor q in
  match Qcompare (q - inject_Z n) (1 # 2) with
  | Lt => n
  | Gt => (n + 1)%Z
  | Eq => if Z.even n then n else (n + 1)%Z
  end.

Definition million : positive := 1000000.

(** The double nearest to [n / 10^6], with sign [s]. *)
Definition of_millionths (s : bool) (n : Z) : float :=
  match n with
  | Zpos p =>
      SF2Prim (SFdiv prec emax (S754_finite s p 0) (S754_finite false million 0))
  | _ => SF2Prim (S754_zero s)
  end.

(** Six decimal places, the integer number of millionths chosen by [pick]. *)
Definition to_six_places (pick : Q -> Z) (x : float) : float :=
  match Prim2SF x with
  | S754_finite s m e =>
      of_millionths s (pick (magnitude m e * inject_Z (Zpos million))%Q)
  | _ => x
  end.

Definition py_round6 (x : float) : float := to_six_places round_half_even x.

(** ** Sizing an order under a budget: lines 317-346 of [cmd_buy_max] *)

Module BuyMaxArgs.
(** [--price] is [None] when the option is not given. *)
Record t : Type := mk { token_id : string; max_usd : text; price : option text }.
End BuyMaxArgs.

(** [float(args.price) if args.price else None] *)
Definition limit_price (p : option text) : result (option float) :=
  match p with
  | Some t =>
      if truthy (PStr t) then let? f := py_float (PStr t) in Ok (Some f)
      else Ok None
  | None => Ok None
  end.

(** [if price is None: ...] *)
Definition effective_price (limit : option float) (best_ask : option OrderSummary.t)
    : result float :=
  match limit with
  | Some p => Ok p
  | None =>
      match best_ask with
      | None => Raise (ValueError NoAsksAvailable)
      | Some a => py_float (OrderSummary.price a)
      end
  end.

(** [if min_size > 0 and size < min_size: ...] *)
Definition apply_min_size (cap price min_size size : float) : result float :=
  if (0 <? min_size) && (size <? min_size) then
    let min_cost := min_size * price in
    if min_cost <=? cap then Ok min_size
    else Raise (ValueError (MaxUsdTooLow min_cost price))
  else Ok size.

(** [bool(best_ask) and price >= float(best_ask.price)] *)
Definition is_marketable (best_ask : option OrderSummary.t) (price : float)
    : result bool :=
  match best_ask with
  | None => Ok false
  | Some a => let? ask := py_float (OrderSummary.price a) in Ok (ask <=? price)
  end.

(** Lines 316-338: the price, the size the budget buys at that price,
    raised to the minimum order size where the budget covers it, and the
    best ask the later steps compare with. *)
Definition budget_size (book : OrderBook.t) (args : BuyMaxArgs.t)
    : result (float * float * option OrderSummary.t) :=
  let? quotes := _best_bid_ask book in
  let best_ask := snd quotes in
  let? limit := limit_price (BuyMaxArgs.price args) in
  let? price := effective_price limit best_ask in
  let? cap := py_float (PStr (BuyMaxArgs.max_usd args)) in
  if cap <=? 0 then Raise (ValueError MaxUsdMustBePositive)
  else
    let? min_size := py_float (or_zero (OrderBook.min_order_size book)) in
    let? size := py_div cap price in
    let? size := apply_min_size cap price min_size size in
    Ok (price, size, best_ask).

(** Lines 340-346 after them: the price, the size before rounding, and
    whether the order crosses the book. *)
Definition buy_max_sizing (book : OrderBook.t) (args : BuyMaxArgs.t)
    : result (float * float * bool) :=
  let? sized := budget_size book args in
  let '(price, size, best_ask) := sized in
  let? marketable := is_marketable best_ask price in
  let notional := price * size in
  if marketable && (notional <? 1)
  then Raise (ValueError (NotionalBelowMinimum notional))
  else Ok (price, size, marketable).

Module SizedOrder.
Record t : Type := mk { price : float; size : float; isMarketable : bool }.
End SizedOrder.

(** The spec's [sizeByBudget]: the sizing above followed by line 362,
    [size = round(size, 6)]; the preflight between them reads neither. *)
Definition sizeByBudget (book : OrderBook.t) (args : BuyMaxArgs.t)
    : result SizedOrder.t :=
  let? r := buy_max_sizing book args in
  let '(price, size, marketable) := r in
  Ok (SizedOrder.mk price (py_round6 size) marketable).

(** ** The exchange client and the trace of a command *)

Inductive Side : Type := BUY | SELL.
Inductive OrderType : Type := GTC.
Inductive AssetType : Type := COLLATERAL | CONDITIONAL.

Module OrderArgs.
Record t : Type := mk { price : float; size : float; side : Side; token_id : string }.
End OrderArgs.

Module BalanceAllowanceParams.
Record t : Type := mk {
  asset_type : option AssetType;
  token_id : option string;
  signature_type : Z
}.
(** [BalanceAllowanceParams()] *)
Definition default : t := mk None None (-1).
End BalanceAllowanceParams.

Module BalanceAllowance.
(** The payload of a balance query.  [balance = None] is a payload
    without that key; [allowances = None] one where the key is absent or
    null, which [bal.get("allowances")] does not tell apart. *)
Record t : Type := mk {
  balance : option pyval;
  allowances : option (list (string * pyval))
}.
End BalanceAllowance.

Module Builder.
Record t : Type := mk { funder : option string; sig_type : Z }.
End Builder.

Module BuyArgs.
Record t : Type := mk { token_id : string; size : text; price : text }.
End BuyArgs.

Module DiagnoseArgs.
(** [--onchain] and [--fix] *)
Record t : Type := mk { onchain : bool; fix_ : bool }.
End DiagnoseArgs.

Module Who.
Record t : Type := mk {
  address : string;
  funder : option string;
  signature_type : option Z;
  host : string;
  chain_id : option Z;
  collateral : string;
  exchange : string
}.
End Who.

(** An on-chain allowance, or the text ["error: ..."] of a failed lookup. *)
Inductive onchain_value : Type :=
| OnInt (n : Z)
| OnError (e : exn).

(** The values stored in the report of [cmd_diagnose]. *)
Inductive report_value : Type :=
| RWho (w : Who.t)
| RBalance (b : BalanceAllowance.t)
| ROnchain (d : list (string * onchain_value))
| RStrings (l : list string).

(** A [dict] with string keys, in insertion order. *)
Definition dict (V : Type) : Type := list (string * V).

Fixpoint dict_get {V} (k : string) (d : dict V) : option V :=
  match d with
  | [] => None
  | (k', v) :: d' => if String.eqb k k' then Some v else dict_get k d'
  end.

(** [k in d] *)
Definition dict_mem {V} (k : string) (d : dict V) : bool :=
  match dict_get k d with Some _ => true | None => false end.

(** [d[k] = v] *)
Fixpoint dict_set {V} (k : string) (v : V) (d : dict V) : dict V :=
  match d with
  | [] => [(k, v)]
  | (k', v') :: d' =>
      if String.eqb k k' then (k, v) :: d' else (k', v') :: dict_set k v d'
  end.

Definition dict_keys {V} (d : dict V) : list string := map fst d.
Definition dict_values {V} (d : dict V) : list V := map snd d.

Definition report : Type := dict report_value.

Section Commands.
(** What lies behind the client: the exchange's ledger and the network. *)
Variable state : Type.
Variables signed_order response : Type.

Record ClobClient : Type := {
  get_order_book : string -> state -> result OrderBook.t * state;
  get_balance_allowance :
    BalanceAllowanceParams.t -> state -> result BalanceAllowance.t * state;
  update_balance_allowance :
    BalanceAllowanceParams.t -> state -> result response * state;
  create_order : OrderArgs.t -> state -> result signed_order * state;
  post_order : signed_order -> OrderType -> state -> result response * state;
  get_address : state -> result string * state;
  get_collateral_address : state -> result string * state;
  get_exchange_address : state -> result string * state;
  builder : option Builder.t;
  host : string;
  chain_id : option Z;
  (** the JSON-RPC endpoint behind [_rpc_allowance]:
      url, owner, spender and token *)
  eth_allowance : string -> string -> string -> string -> state -> result Z * state
}.

(** What a command prints on standard output. *)
Inductive output : Type :=
| OutResponse (r : response)
| OutReport (d : report).

(** The lines a command prints on standard error. *)
Inductive stderr_line : Type :=
| PreflightWarning (e : exn)      (* "Warning: could not preflight balance/allowance: .." *)
| ErrorPlacingBuy (e : exn)       (* "Error placing buy order: .." *)
| ErrorPlacingBuyMax (e : exn)    (* "Error placing buy-max order: .." *)
| ErrorRunningDiagnose (e : exn). (* "Error running diagnose: .." *)

(** The client calls a command makes and the lines it prints, in order. *)
Inductive event : Type :=
| CallGetOrderBook (token_id : string)
| CallGetBalanceAllowance (p : BalanceAllowanceParams.t)
| CallUpdateBalanceAllowance (p : BalanceAllowanceParams.t)
| CallCreateOrder (a : OrderArgs.t)
| CallPostOrder (o : signed_order) (ty : OrderType)
| CallGetAddress
| CallGetCollateralAddress
| CallGetExchangeAddress
| CallEthAllowance (rpc_url owner spender token : string)
| Stdout (o : output)
| Stderr (l : stderr_line).

(** A command: from the state before to a value or an exception, the
    state after, and the trace. *)
Definition M (A : Type) : Type := state -> result A * state * list event.

Definition ret {A} (a : A) : M A := fun s => (Ok a, s, []).

Definition bind {A B} (m : M A) (k : A -> M B) : M B :=
  fun s =>
    match m s with
    | (Ok a, s', t) => let '(r, s'', t') := k a s' in (r, s'', t ++ t')
    | (Raise e, s', t) => (Raise e, s', t)
    end.

Definition lift {A} (r : result A) : M A := fun s => (r, s, []).

(** A call of the client, recorded before it returns or raises. *)
Definition call {A} (ev : event) (op : state -> result A * state) : M A :=
  fun s => let '(r, s') := op s in (r, s', [ev]).

Definition emit (ev : event) : M unit := fun s => (Ok tt, s, [ev]).

(** [try: m except Exception as e: h e] *)
Definition try_except {A} (m : M A) (h : exn -> M A) : M A :=
  fun s =>
    match m s with
    | (Ok a, s', t) => (Ok a, s', t)
    | (Raise e, s', t) => let '(r, s'', t') := h e s' in (r, s'', t ++ t')
    end.

Definition trace {A} (m : M A) (s : state) : list event := snd (m s).

Notation "x <- m ;; k" := (bind m (fun x => k))
  (at level 61, m at next level, right associativity).
Notation "m ;;; k" := (bind m (fun _ => k))
  (at level 61, right associativity).

Variable client : ClobClient.

(** [bool(s)] on a [str] kept as text *)
Definition nonempty (s : string) : bool :=
  match s with EmptyString => false | _ => true end.

Definition _get_balance_allowance (token_id : option string)
    : M BalanceAllowance.t :=
  let params := BalanceAllowanceParams.mk (Some COLLATERAL) None (-1) in
  let params :=
    match token_id with
    | Some t =>
        if nonempty t
        then BalanceAllowanceParams.mk (Some COLLATERAL) (Some t) (-1)
        else params
    | None => params
    end in
  call (CallGetBalanceAllowance params) (get_balance_allowance client params).

(** [max(float(v) for v in ...)], after the first item *)
Fixpoint max_float_loop (best : float) (l : list pyval) : result float :=
  match l with
  | [] => Ok best
  | v :: l' =>
      let? f := py_float v in
      if best <? f then max_float_loop f l' else max_float_loop best l'
  end.

Definition _max_allowance (allowances : option (dict pyval)) : result float :=
  match allowances with
  | None => Ok 0
  | Some d =>
      match dict_values d with
      | [] => Ok 0
      | v :: l => let? f := py_float v in max_float_loop f l
      end
  end.

(** [bal.get("balance", 0)] *)
Definition get_balance (bal : BalanceAllowance.t) : pyval :=
  match BalanceAllowance.balance bal with
  | Some v => v
  | None => PNum 0
  end.

(** Lines 225-230 and 350-355: the checks made on the fetched payload. *)
Definition preflight_check (bal : BalanceAllowance.t) : result unit :=
  let? balance := py_float (get_balance bal) in
  let? max_allow := _max_allowance (BalanceAllowance.allowances bal) in
  if (balance <=? 0) || (max_allow <=? 0)
  then Raise (ValueError InsufficientBalanceAllowance)
  else Ok tt.

(** Lines 223-235 of [cmd_buy], and the same statements at 348-360 of
    [cmd_buy_max]: a [try] whose handler only prints. *)
Definition preflight : M unit :=
  try_except
    (bal <- _get_balance_allowance None ;;
     lift (preflight_check bal))
    (fun e => emit (Stderr (PreflightWarning e))).

(** [create_order], [post_order] and the printing of the response. *)
Definition place_order (order_args : OrderArgs.t) : M unit :=
  signed_order <- call (CallCreateOrder order_args) (create_order client order_args) ;;
  resp <- call (CallPostOrder signed_order GTC) (post_order client signed_order GTC) ;;
  emit (Stdout (OutResponse resp)).

Definition cmd_buy (args : BuyArgs.t) : M unit :=
  try_except
    (price <- lift (py_float (PStr (BuyArgs.price args))) ;;
     size <- lift (py_float (PStr (BuyArgs.size args))) ;;
     let notional := price * size in
     preflight ;;;
     place_order (OrderArgs.mk price size BUY (BuyArgs.token_id args)))
    (fun e => emit (Stderr (ErrorPlacingBuy e))).

Definition cmd_buy_max (args : BuyMaxArgs.t) : M unit :=
  try_except
    (book <- call (CallGetOrderBook (BuyMaxArgs.token_id args))
                  (get_order_book client (BuyMaxArgs.token_id args)) ;;
     sized <- lift (buy_max_sizing book args) ;;
     let '(price, size, _) := sized in
     preflight ;;;
     let size := py_round6 size in
     place_order (OrderArgs.mk price size BUY (BuyMaxArgs.token_id args)))
    (fun e => emit (Stderr (ErrorPlacingBuyMax e))).

(** *** [cmd_diagnose] *)

(** The environment variable read by [os.getenv("POLYMARKET_RPC", ...)]. *)
Variable POLYMARKET_RPC : option string.

(** Lines 438-446: the [who] dictionary, its entries evaluated in order. *)
Definition whoami : M Who.t :=
  address <- call CallGetAddress (get_address client) ;;
  let funder :=
    match builder client with Some b => Builder.funder b | None => None end in
  let signature_type :=
    match builder client with Some b => Some (Builder.sig_type b) | None => None end in
  collateral <- call CallGetCollateralAddress (get_collateral_address client) ;;
  exchange <- call CallGetExchangeAddress (get_exchange_address client) ;;
  ret (Who.mk address funder signature_type (host client) (chain_id client)
              collateral exchange).

(** Lines 447-451: the refresh attempted under [--fix]; whatever it
    raises is dropped. *)
Definition refresh_attempt (args : DiagnoseArgs.t) : M unit :=
  if DiagnoseArgs.fix_ args then
    try_except
      (call (CallUpdateBalanceAllowance BalanceAllowanceParams.default)
            (update_balance_allowance client BalanceAllowanceParams.default) ;;;
       ret tt)
      (fun _ => ret tt)
  else ret tt.

(** [_rpc_allowance(rpc_url, owner, spender, token)] *)
Definition _rpc_allowance (rpc_url owner spender token : string) : M Z :=
  call (CallEthAllowance rpc_url owner spender token)
       (eth_allowance client rpc_url owner spender token).

(** Lines 461-465: one lookup per spender, a failure kept as text. *)
Fixpoint onchain_lookups (rpc_url owner token : string) (spenders : list string)
    (onchain : dict onchain_value) : M (dict onchain_value) :=
  match spenders with
  | [] => ret onchain
  | spender :: rest =>
      v <- try_except
             (n <- _rpc_allowance rpc_url owner spender token ;; ret (OnInt n))
             (fun e => ret (OnError e)) ;;
      onchain_lookups rpc_url owner token rest (dict_set spender v onchain)
  end.

(** [[v for v in ... if isinstance(v, int)]] *)
Fixpoint int_values (l : list onchain_value) : list Z :=
  match l with
  | [] => []
  | OnInt n :: l' => n :: int_values l'
  | OnError _ :: l' => int_values l'
  end.

(** [max(on_vals)] of a non-empty list of integers *)
Definition max_int (n : Z) (l : list Z) : Z := fold_left Z.max l n.

Definition rec_fund : string :=
  ("Fund the proxy wallet (funder) with USDC on Polygon.")%string.
Definition step_fund : string :=
  ("Fund USDC to the proxy wallet address shown in whoami.funder.")%string.
Definition rec_approve (exchange : string) : string :=
  ("Approve USDC to CLOB Exchange in UI (spender " ++ exchange ++ ").")%string.
Definition step_approve (exchange : string) : string :=
  ("Open Polymarket, click Buy, approve USDC (spender " ++ exchange ++ ").")%string.
Definition rec_refresh : string :=
  ("Onchain allowance exists but API shows 0: run refresh-balance.")%string.
Definition step_refresh : string :=
  ("Run: uv run --with py-clob-client scripts/poly_wrapper.py refresh-balance --asset-type collateral")%string.

(** Lines 469-493: the recommendations and the steps, as two lists. *)
Definition recommendations (args : DiagnoseArgs.t) (who : Who.t)
    (balance max_allow : float) (diag : report) : list string * list string :=
  let recs := [] in
  let steps := [] in
  let '(recs, steps) :=
    if balance <=? 0 then (recs ++ [rec_fund], steps ++ [step_fund])
    else (recs, steps) in
  let '(recs, steps) :=
    if max_allow <=? 0
    then (recs ++ [rec_approve (Who.exchange who)],
          steps ++ [step_approve (Who.exchange who)])
    else (recs, steps) in
  if DiagnoseArgs.onchain args && dict_mem "onchain_allowances"%string diag then
    let on_vals :=
      match dict_get "onchain_allowances"%string diag with
      | Some (ROnchain d) => int_values (dict_values d)
      | _ => []
      end in
    match on_vals with
    | n :: l =>
        if (max_allow <=? 0) && (0 <? max_int n l)%Z
        then (recs ++ [rec_refresh], steps ++ [step_refresh])
        else (recs, steps)
    | [] => (recs, steps)
    end
  else (recs, steps).

(** Lines 452-497: from the balance query to the printed report. *)
Definition diagnose_report (args : DiagnoseArgs.t) (who : Who.t) : M unit :=
  bal <- _get_balance_allowance None ;;
  let diag : report := [("whoami"%string, RWho who); ("balance_allowance"%string, RBalance bal)] in
  diag <-
    (if DiagnoseArgs.onchain args then
       let rpc_url :=
         match POLYMARKET_RPC with
         | Some u => u
         | None => "https://polygon-rpc.com"%string
         end in
       let owner :=
         match Who.funder who with
         | Some f => if nonempty f then f else Who.address who
         | None => Who.address who
         end in
       let token := Who.collateral who in
       let spenders :=
         match BalanceAllowance.allowances bal with
         | Some (e :: d) => dict_keys (e :: d)
         | _ => [Who.exchange who]
         end in
       looked_up <- onchain_lookups rpc_url owner token spenders [] ;;
       ret (dict_set "onchain_allowances"%string (ROnchain looked_up) diag)
     else ret diag) ;;
  diag <-
    (if DiagnoseArgs.fix_ args then
       balance <- lift (py_float (or_zero (get_balance bal))) ;;
       max_allow <- lift (_max_allowance (BalanceAllowance.allowances bal)) ;;
       let '(recs, steps) := recommendations args who balance max_allow diag in
       ret (dict_set "next_steps"%string (RStrings steps)
              (dict_set "recommendations"%string (RStrings recs) diag))
     else ret diag) ;;
  emit (Stdout (OutReport diag)).

Definition cmd_diagnose (args : DiagnoseArgs.t) : M unit :=
  try_except
    (who <- whoami ;;
     refresh_attempt args ;;;
     diagnose_report args who)
    (fun e => emit (Stderr (ErrorRunningDiagnose e))).
End Commands.

Arguments CallGetOrderBook {signed_order response} token_id.
Arguments CallGetBalanceAllowance {signed_order response} p.
Arguments CallUpdateBalanceAllowance {signed_order response} p.
Arguments CallCreateOrder {signed_order response} a.
Arguments CallPostOrder {signed_order response} o ty.
Arguments CallGetAddress {signed_order response}.
Arguments CallGetCollateralAddress {signed_order response}.
Arguments CallGetExchangeAddress {signed_order response}.
Arguments CallEthAllowance {signed_order response} rpc_url owner spender token.
Arguments Stdout {signed_order response} o.
Arguments Stderr {signed_order response} l.
Arguments OutResponse {response} r.
Arguments OutReport {response} d.
Arguments ret {state signed_order response A} a _.
Arguments lift {state signed_order response A} r _.

(** * The other commands

    [cmd_sell], [cmd_cancel], [cmd_quote], [cmd_balance],
    [cmd_refresh_balance], [cmd_whoami] and [cmd_markets], with the
    calls, the lines and the exits they add to those above. *)

From Stdlib Require Import Ascii.

(** ** Text

    The [str] methods the script uses.  A string is the sequence of its
    code points, here those below 256. *)

Definition char_in_range (lo hi : nat) (c : ascii) : bool :=
  (lo <=? nat_of_ascii c)%nat && (nat_of_ascii c <=? hi)%nat.

(** [c.lower()]: the letters A to Z, and the accented capitals from
    192 to 222 but for the multiplication sign at 215 *)
Definition lower_char (c : ascii) : ascii :=
  if char_in_range 65 90 c || char_in_range 192 214 c || char_in_range 216 222 c
  then ascii_of_nat (nat_of_ascii c + 32)
  else c.

(** [s.lower()] *)
Fixpoint lower (s : string) : string :=
  match s with
  | EmptyString => EmptyString
  | String c s' => String (lower_char c) (lower s')
  end.

(** ** JSON values with their text, as [json.loads] builds them *)

Set Warnings "-register-all".

Inductive json : Type :=
| JNull
| JBool (b : bool)
| JNum (f : float)
| JStr (s : string)
| JList (l : list json)
| JDict (d : list (string * json)).

(** [bool(x)] *)
Definition json_truthy (j : json) : bool :=
  match j with
  | JNull => false
  | JBool b => b
  | JNum f => negb (f =? 0)
  | JStr s => match s with EmptyString => false | _ => true end
  | JList l => match l with [] => false | _ => true end
  | JDict d => match d with [] => false | _ => true end
  end.

(** [d.get(k)] *)
Definition json_get (k : string) (d : dict json) : json :=
  match dict_get k d with
  | Some v => v
  | None => JNull
  end.

(** A page of simplified markets: the list under "data", when the key
    is there, and the other keys. *)
Module Page.
Record t : Type := mk { data : option (list (dict json)); rest : dict json }.
End Page.

(** ** Failures that [except Exception] does and does not catch *)

Inductive failure : Type :=
| Exception (e : exn)
| ValueErrorText (msg : string)
| SystemExit (code : Z).

Inductive outcome (A : Type) : Type :=
| Done (a : A)
| Failed (f : failure).
Arguments Done {A} a.
Arguments Failed {A} f.

Definition of_result {A} (r : result A) : outcome A :=
  match r with
  | Ok a => Done a
  | Raise e => Failed (Exception e)
  end.

Module Quote.
Record t : Type := mk {
  token_id : string;
  best_bid : option (float * float);
  best_ask : option (float * float);
  min_order_size : float;
  tick_size : pyval;
  last_trade_price : pyval
}.
End Quote.

Module CancelArgs.
Record t : Type := mk { order_id : option string; all : bool }.
End CancelArgs.

Module BalanceArgs.
Record t : Type := mk {
  asset_type : option string;
  token_id : option string;
  signature_type : option Z
}.
End BalanceArgs.

Module MarketsArgs.
Record t : Type := mk {
  id : option string;
  cursor : option string;
  sampling : bool;
  accepting_only : bool;
  limit : option Z;
  with_title : bool
}.
End MarketsArgs.

(** [bool(s)] on an optional [str] argument *)
Definition given (s : option string) : bool :=
  match s with
  | Some (String _ _) => true
  | _ => false
  end.

(** [l[:n]] *)
Definition slice_to {A} (n : Z) (l : list A) : list A :=
  if (0 <=? n)%Z then firstn (Z.to_nat n) l
  else firstn (List.length l - Z.to_nat (- n)) l.

(** Lines 379-390 of [cmd_balance], and the same statements at 400-411 of
    [cmd_refresh_balance]. *)
Definition balance_params (args : BalanceArgs.t) : outcome BalanceAllowanceParams.t :=
  let asset :=
    match BalanceArgs.asset_type args with
    | Some t =>
        if given (Some t) then
          if String.eqb (lower t) "collateral" then Done (Some COLLATERAL)
          else if String.eqb (lower t) "conditional" then Done (Some CONDITIONAL)
          else Failed (ValueErrorText "asset_type must be collateral or conditional")
        else Done None
    | None => Done None
    end in
  match asset with
  | Failed f => Failed f
  | Done asset_type =>
      let token_id :=
        if given (BalanceArgs.token_id args) then BalanceArgs.token_id args else None in
      let signature_type :=
        match BalanceArgs.signature_type args with
        | Some n => n
        | None => (-1)%Z
        end in
      Done (BalanceAllowanceParams.mk asset_type token_id signature_type)
  end.

(** Lines 290-307 of [cmd_quote]: the payload, its entries in order. *)
Definition quote_side (best : option OrderSummary.t) : result (option (float * float)) :=
  match best with
  | None => Ok None
  | Some o =>
      let? price := py_float (OrderSummary.price o) in
      let? size := py_float (OrderSummary.size o) in
      Ok (Some (price, size))
  end.

Definition quote_payload (token_id : string) (book : OrderBook.t) : result Quote.t :=
  let? quotes := _best_bid_ask book in
  let? best_bid := quote_side (fst quotes) in
  let? best_ask := quote_side (snd quotes) in
  let? min_order_size := py_float (or_zero (OrderBook.min_order_size book)) in
  Ok (Quote.mk token_id best_bid best_ask min_order_size
        (OrderBook.tick_size book) (OrderBook.last_trade_price book)).

(** [detail.get("question") or detail.get("name") or detail.get("title")] *)
Definition market_title (detail : dict json) : json :=
  if json_truthy (json_get "question" detail) then json_get "question" detail
  else if json_truthy (json_get "name" detail) then json_get "name" detail
  else json_get "title" detail.

Section MoreCommands.
Variable state : Type.
Variables signed_order response : Type.

(** The client methods the commands above do not call. *)
Record MarketClient : Type := {
  clob : ClobClient state signed_order response;
  cancel : string -> state -> result response * state;
  cancel_all : state -> result response * state;
  get_market : json -> state -> result (dict json) * state;
  (** [None] is the call without [next_cursor] *)
  get_simplified_markets : option string -> state -> result Page.t * state;
  get_sampling_simplified_markets : string -> state -> result Page.t * state
}.

Inductive printed : Type :=
| OutMarket (m : dict json)
| OutPage (p : Page.t)
| OutQuote (q : Quote.t)
| OutIdentity (w : Who.t)
| OutBalance (b : BalanceAllowance.t)
| OutRefreshed (r : response)
| OutCancelled (r : response).

Inductive error_line : Type :=
| ErrorFetchingMarkets (f : failure)   (* "Error fetching markets: .." *)
| ErrorPlacingSell (f : failure)       (* "Error placing sell order: .." *)
| ErrorCanceling (f : failure)         (* "Error canceling order: .." *)
| EitherAllOrOrderId                   (* "Error: use either --all or --order-id, not both." *)
| ProvideOrderIdOrAll                  (* "Error: provide --order-id or use --all." *)
| ErrorFetchingQuote (f : failure)     (* "Error fetching quote: .." *)
| ErrorFetchingBalance (f : failure)   (* "Error fetching balance/allowance: .." *)
| ErrorRefreshingBalance (f : failure) (* "Error refreshing balance/allowance: .." *)
| ErrorFetchingIdentity (f : failure). (* "Error fetching identity: .." *)

Inductive action : Type :=
| Earlier (ev : event signed_order response)
| CallCancel (order_id : string)
| CallCancelAll
| CallGetMarket (id : json)
| CallGetSimplifiedMarkets (next_cursor : option string)
| CallGetSamplingSimplifiedMarkets (next_cursor : string)
| Print (o : printed)
| PrintError (l : error_line).

(** A command that may also leave through [sys.exit]. *)
Definition X (A : Type) : Type := state -> outcome A * state * list action.

Definition xret {A} (a : A) : X A := fun s => (Done a, s, []).

Definition xbind {A B} (m : X A) (k : A -> X B) : X B :=
  fun s =>
    match m s with
    | (Done a, s', t) => let '(r, s'', t') := k a s' in (r, s'', t ++ t')
    | (Failed f, s', t) => (Failed f, s', t)
    end.

Definition xlift {A} (r : outcome A) : X A := fun s => (r, s, []).

Definition xcall {A} (ev : action) (op : state -> result A * state) : X A :=
  fun s => let '(r, s') := op s in (of_result r, s', [ev]).

Definition xemit (ev : action) : X unit := fun s => (Done tt, s, [ev]).

(** [sys.exit(code)] *)
Definition sys_exit {A} (code : Z) : X A := xlift (Failed (SystemExit code)).

(** A command of the first part run here: its events are kept as they
    are, its exception becomes a failure. *)
Definition earlier {A} (m : M state signed_order response A) : X A :=
  fun s => let '(r, s', t) := m s in (of_result r, s', map Earlier t).

(** [try: m except Exception as e: h e]: [SystemExit] is no [Exception]. *)
Definition except_Exception {A} (m : X A) (h : failure -> X A) : X A :=
  fun s =>
    match m s with
    | (Done a, s', t) => (Done a, s', t)
    | (Failed (SystemExit code), s', t) => (Failed (SystemExit code), s', t)
    | (Failed f, s', t) => let '(r, s'', t') := h f s' in (r, s'', t ++ t')
    end.

Definition actions {A} (m : X A) (s : state) : list action := snd (m s).

Notation "x <- m ;; k" := (xbind m (fun x => k))
  (at level 61, m at next level, right associativity).
Notation "m ;;; k" := (xbind m (fun _ => k))
  (at level 61, right associativity).

Variable client : MarketClient.

Definition cmd_sell (args : BuyArgs.t) : X unit :=
  except_Exception
    (price <- xlift (of_result (py_float (PStr (BuyArgs.price args)))) ;;
     size <- xlift (of_result (py_float (PStr (BuyArgs.size args)))) ;;
     earlier (place_order (clob client)
                (OrderArgs.mk price size SELL (BuyArgs.token_id args))))
    (fun f => xemit (PrintError (ErrorPlacingSell f))).

Definition cmd_cancel (args : CancelArgs.t) : X unit :=
  except_Exception
    ((if CancelArgs.all args && given (CancelArgs.order_id args)
      then xemit (PrintError EitherAllOrOrderId) ;;; sys_exit 1
      else xret tt) ;;;
     (if negb (CancelArgs.all args) && negb (given (CancelArgs.order_id args))
      then xemit (PrintError ProvideOrderIdOrAll) ;;; sys_exit 1
      else xret tt) ;;;
     resp <- (if CancelArgs.all args
              then xcall CallCancelAll (cancel_all client)
              else
                match CancelArgs.order_id args with
                | Some order_id => xcall (CallCancel order_id) (cancel client order_id)
                | None => xlift (Failed (Exception TypeError)) (* left above *)
                end) ;;
     xemit (Print (OutCancelled resp)))
    (fun f => xemit (PrintError (ErrorCanceling f))).

Definition cmd_quote (token_id : string) : X unit :=
  except_Exception
    (book <- earlier (call (CallGetOrderBook token_id)
                           (get_order_book (clob client) token_id)) ;;
     payload <- xlift (of_result (quote_payload token_id book)) ;;
     xemit (Print (OutQuote payload)))
    (fun f => xemit (PrintError (ErrorFetchingQuote f))).

Definition cmd_balance (args : BalanceArgs.t) : X unit :=
  except_Exception
    (params <- xlift (balance_params args) ;;
     resp <- earlier (call (CallGetBalanceAllowance params)
                           (get_balance_allowance (clob client) params)) ;;
     xemit (Print (OutBalance resp)))
    (fun f => xemit (PrintError (ErrorFetchingBalance f))).

Definition cmd_refresh_balance (args : BalanceArgs.t) : X unit :=
  except_Exception
    (params <- xlift (balance_params args) ;;
     resp <- earlier (call (CallUpdateBalanceAllowance params)
                           (update_balance_allowance (clob client) params)) ;;
     xemit (Print (OutRefreshed resp)))
    (fun f => xemit (PrintError (ErrorRefreshingBalance f))).

Definition cmd_whoami : X unit :=
  except_Exception
    (payload <- earlier (whoami (clob client)) ;;
     xemit (Print (OutIdentity payload)))
    (fun f => xemit (PrintError (ErrorFetchingIdentity f))).

(** Lines 187-199 of [cmd_markets]: a title for every market that has a
    condition id, [None] where the lookup fails. *)
Fixpoint add_titles (markets : list (dict json)) : X (list (dict json)) :=
  match markets with
  | [] => xret []
  | m :: rest =>
      let condition_id := json_get "condition_id" m in
      m' <- (if json_truthy condition_id then
               except_Exception
                 (detail <- xcall (CallGetMarket condition_id)
                                  (get_market client condition_id) ;;
                  xret (dict_set "title" (market_title detail) m))
                 (fun _ => xret (dict_set "title" JNull m))
             else xret m) ;;
      rest' <- add_titles rest ;;
      xret (m' :: rest')
  end.

Definition cmd_markets (args : MarketsArgs.t) : X unit :=
  except_Exception
    (match MarketsArgs.id args with
     | Some (String c id') =>
         market <- xcall (CallGetMarket (JStr (String c id')))
                         (get_market client (JStr (String c id'))) ;;
         xemit (Print (OutMarket market))
     | _ =>
         let limit :=
           match MarketsArgs.limit args with
           | None => if MarketsArgs.with_title args then Some 20%Z else None
           | Some n => Some n
           end in
         resp <-
           (if MarketsArgs.sampling args then
              let next_cursor :=
                match MarketsArgs.cursor args with
                | Some (String c k) => String c k
                | _ => "MA=="%string
                end in
              xcall (CallGetSamplingSimplifiedMarkets next_cursor)
                    (get_sampling_simplified_markets client next_cursor)
            else
              match MarketsArgs.cursor args with
              | Some (String c k) =>
                  xcall (CallGetSimplifiedMarkets (Some (String c k)))
                        (get_simplified_markets client (Some (String c k)))
              | _ =>
                  xcall (CallGetSimplifiedMarkets None)
                        (get_simplified_markets client None)
              end) ;;
         let data_or_empty (p : Page.t) : list (dict json) :=
           match Page.data p with Some l => l | None => [] end in
         let resp :=
           if MarketsArgs.accepting_only args then
             Page.mk
               (Some (filter (fun m => json_truthy (json_get "accepting_orders" m))
                             (data_or_empty resp)))
               (Page.rest resp)
           else resp in
         let resp :=
           match limit with
           | Some n =>
               if (n =? 0)%Z then resp
               else Page.mk (Some (slice_to n (data_or_empty resp))) (Page.rest resp)
           | None => resp
           end in
         resp <-
           (if MarketsArgs.with_title args then
              match Page.data resp with
              | Some l => titled <- add_titles l ;; xret (Page.mk (Some titled) (Page.rest resp))
              | None => xret resp
              end
            else xret resp) ;;
         xemit (Print (OutPage resp))
     end)
    (fun f => xemit (PrintError (ErrorFetchingMarkets f))).
End MoreCommands.

Arguments Earlier {signed_order response} ev.
Arguments CallCancel {signed_order response} order_id.
Arguments CallCancelAll {signed_order response}.
Arguments CallGetMarket {signed_order response} id.
Arguments CallGetSimplifiedMarkets {signed_order response} next_cursor.
Arguments CallGetSamplingSimplifiedMarkets {signed_order response} next_cursor.
Arguments Print {signed_order response} o.
Arguments PrintError {signed_order response} l.
Arguments OutMarket {response} m.
Arguments OutPage {response} p.
Arguments OutQuote {response} q.
Arguments OutIdentity {response} w.
Arguments OutBalance {response} b.
Arguments OutRefreshed {response} r.
Arguments OutCancelled {response} r.
Arguments xret {state signed_order response A} a _.
Arguments xlift {state signed_order response A} r _.
Arguments sys_exit {state signed_order response A} code _.

(** * Configuration

    [_load_env_file], [_env_int] and [get_client], with the call data of
    [_rpc_allowance]. *)

(** ** More text *)

(** [c.isspace()] *)
Definition is_space (c : ascii) : bool :=
  char_in_range 9 13 c || char_in_range 28 32 c ||
  (nat_of_ascii c =? 133)%nat || (nat_of_ascii c =? 160)%nat.

(** The double and the single quote, the characters that line 33 strips *)
Definition is_quote (c : ascii) : bool :=
  (nat_of_ascii c =? 34)%nat || (nat_of_ascii c =? 39)%nat.

(** [s.lstrip(chars)] and [s.rstrip(chars)], the characters given by a test *)
Fixpoint lstrip (chars : ascii -> bool) (s : string) : string :=
  match s with
  | EmptyString => EmptyString
  | String c s' => if chars c then lstrip chars s' else s
  end.

Fixpoint rstrip (chars : ascii -> bool) (s : string) : string :=
  match s with
  | EmptyString => EmptyString
  | String c s' =>
      match rstrip chars s' with
      | EmptyString => if chars c then EmptyString else String c EmptyString
      | String c' r => String c (String c' r)
      end
  end.

(** [s.strip()] is [strip_chars is_space s] *)
Definition strip_chars (chars : ascii -> bool) (s : string) : string :=
  rstrip chars (lstrip chars s).

Definition strip : string -> string := strip_chars is_space.

(** [s.startswith(prefix)] *)
Definition startswith (prefix s : string) : bool := String.prefix prefix s.

(** [s[n:]] *)
Fixpoint drop (n : nat) (s : string) : string :=
  match n, s with
  | O, _ => s
  | S _, EmptyString => EmptyString
  | S n', String _ s' => drop n' s'
  end.

(** [c in s] *)
Fixpoint contains (c : ascii) (s : string) : bool :=
  match s with
  | EmptyString => false
  | String c' s' => Ascii.eqb c c' || contains c s'
  end.

(** [s.split(sep, 1)] where [sep in s]; [None] where it is not *)
Fixpoint split_once (sep : ascii) (s : string) : option (string * string) :=
  match s with
  | EmptyString => None
  | String c s' =>
      if Ascii.eqb c sep then Some (EmptyString, s')
      else match split_once sep s' with
           | Some (before, after) => Some (String c before, after)
           | None => None
           end
  end.

(** [s.replace("0x", "")] *)
Fixpoint remove_0x (s : string) : string :=
  match s with
  | EmptyString => EmptyString
  | String c s' =>
      match s' with
      | String d s'' =>
          if Ascii.eqb c "0" && Ascii.eqb d "x" then remove_0x s''
          else String c (remove_0x s')
      | EmptyString => String c EmptyString
      end
  end.

Fixpoint replicate (n : nat) (c : ascii) : string :=
  match n with
  | O => EmptyString
  | S n' => String c (replicate n' c)
  end.

(** [s.rjust(width, fill)] *)
Definition rjust (width : nat) (fill : ascii) (s : string) : string :=
  (replicate (width - String.length s) fill ++ s)%string.

(** ** The call data of [_rpc_allowance], lines 122-127 *)

Definition selector : string := "0xdd62ed3e".

Definition _pad (addr : string) : string :=
  rjust 64 "0" (remove_0x (lower addr)).

Definition call_data (owner spender : string) : string :=
  (selector ++ _pad owner ++ _pad spender)%string.

(** ** [_load_env_file] *)

(** Lines 24-34: what one line of the file assigns, if anything. *)
Definition assignment (line : string) : option (string * string) :=
  match split_once "=" line with
  | None => None
  | Some (key, value) =>
      let key := strip key in
      let value := strip (strip_chars is_quote (strip value)) in
      if given (Some key) && given (Some value) then Some (key, value) else None
  end.

Definition env_assignment (raw : string) : option (string * string) :=
  let line := strip raw in
  if negb (given (Some line)) || startswith "#" line then None
  else
    let line := if startswith "export " line then strip (drop 7 line) else line in
    assignment line.

(** Line 36, [os.environ[key] = value], raises [ValueError] on a null
    character; line 38 then ends the loading without a word. *)
Definition has_null (s : string) : bool := contains "000" s.

Fixpoint load_lines (lines : list string) (environ : dict string) : dict string :=
  match lines with
  | [] => environ
  | raw :: rest =>
      match env_assignment raw with
      | None => load_lines rest environ
      | Some (key, value) =>
          if has_null key || has_null value then environ
          else load_lines rest (dict_set key value environ)
      end
  end.

Section Configuration.
(** [os.path.expanduser("~/.polymarket.env")] *)
Variable home_env_file : string.
(** The lines a file yields before it ends or fails; [None] where there
    is no file at the path, or none that opens. *)
Variable files : string -> option (list string).
(** [int(val)]; [None] where it raises [ValueError] *)
Variable int : string -> option Z.

Definition env_file_path (environ : dict string) : string :=
  match dict_get "POLYMARKET_ENV_FILE" environ with
  | Some (String c path) => String c path
  | _ => home_env_file
  end.

(** The environment [_load_env_file] leaves. *)
Definition _load_env_file (environ : dict string) : dict string :=
  match files (env_file_path environ) with
  | None => environ
  | Some lines => load_lines lines environ
  end.

Definition _env_int (name : string) (environ : dict string) : outcome (option Z) :=
  match dict_get name environ with
  | None => Done None
  | Some EmptyString => Done None
  | Some val =>
      match int val with
      | Some n => Done (Some n)
      | None => Failed (ValueErrorText (name ++ " must be an integer"))
      end
  end.

(** ** [get_client] *)

Variables state signed_order response creds : Type.

(** The library calls of [get_client]: [ClobClient(host, ...)] with the
    keywords given, and the two calls for the API credentials. *)
Record Library : Type := {
  new_client : string -> option string -> option Z -> option Z -> option string ->
               state -> result (MarketClient state signed_order response) * state;
  create_or_derive_api_creds :
    MarketClient state signed_order response -> state -> result creds * state;
  set_api_creds :
    MarketClient state signed_order response -> creds -> state -> result unit * state
}.

Variable library : Library.

Inductive init_line : Type :=
| KeyNotSet                            (* "Error: POLYMARKET_KEY environment variable not set." *)
| SignerMismatch                       (* "Error: POLYMARKET_SIGNER does not match .." *)
| ExpectedGot (expected got : string)  (* "Expected: ..  Got: .." *)
| ErrorInitializingClient (f : failure). (* "Error initializing client: .." *)

Inductive init_event : Type :=
| NewClient (host : string) (key : option string) (chain_id signature_type : option Z)
            (funder : option string)
| CreateOrDeriveApiCreds
| SetApiCreds
| GetAddress
| InitError (l : init_line).

Definition Init (A : Type) : Type := state -> outcome A * state * list init_event.

Definition iret {A} (a : A) : Init A := fun s => (Done a, s, []).

Definition ibind {A B} (m : Init A) (k : A -> Init B) : Init B :=
  fun s =>
    match m s with
    | (Done a, s', t) => let '(r, s'', t') := k a s' in (r, s'', t ++ t')
    | (Failed f, s', t) => (Failed f, s', t)
    end.

Definition ilift {A} (r : outcome A) : Init A := fun s => (r, s, []).

Definition icall {A} (ev : init_event) (op : state -> result A * state) : Init A :=
  fun s => let '(r, s') := op s in (of_result r, s', [ev]).

Definition iprint (l : init_line) : Init unit := fun s => (Done tt, s, [InitError l]).

Definition iexit {A} (code : Z) : Init A := ilift (Failed (SystemExit code)).

Definition itry {A} (m : Init A) (h : failure -> Init A) : Init A :=
  fun s =>
    match m s with
    | (Done a, s', t) => (Done a, s', t)
    | (Failed (SystemExit code), s', t) => (Failed (SystemExit code), s', t)
    | (Failed f, s', t) => let '(r, s'', t') := h f s' in (r, s'', t ++ t')
    end.

Notation "x <- m ;; k" := (ibind m (fun x => k))
  (at level 61, m at next level, right associativity).
Notation "m ;;; k" := (ibind m (fun _ => k))
  (at level 61, right associativity).

Definition default_host : string := "https://clob.polymarket.com".

(** [_env_int("POLYMARKET_CHAIN_ID") or 137] *)
Definition chain_id_or_polygon (chain : option Z) : Z :=
  match chain with
  | Some n => if (n =? 0)%Z then 137%Z else n
  | None => 137%Z
  end.

(** Lines 79-89: the check of the signer, once the client is there. *)
Definition check_signer (client : MarketClient state signed_order response)
    (expected_signer : option string) : Init unit :=
  match expected_signer with
  | Some (String c e) =>
      address <- icall GetAddress (get_address (clob client)) ;;
      if negb (String.eqb (lower address) (lower (String c e))) then
        iprint SignerMismatch ;;;
        got <- icall GetAddress (get_address (clob client)) ;;
        iprint (ExpectedGot (String c e) got) ;;;
        iexit 1
      else iret tt
  | _ => iret tt
  end.

(** [get_client(require_auth)] in the environment that [_load_env_file]
    leaves. *)
Definition get_client (require_auth : bool) (environ : dict string)
    : Init (MarketClient state signed_order response) :=
  let environ := _load_env_file environ in
  let host :=
    match dict_get "POLYMARKET_HOST" environ with
    | Some h => h
    | None => default_host
    end in
  chain <- ilift (_env_int "POLYMARKET_CHAIN_ID" environ) ;;
  let chain_id := chain_id_or_polygon chain in
  signature_type <- ilift (_env_int "POLYMARKET_SIG_TYPE" environ) ;;
  let funder := dict_get "POLYMARKET_FUNDER" environ in
  let expected_signer := dict_get "POLYMARKET_SIGNER" environ in
  if negb require_auth then
    icall (NewClient host None None None None)
          (new_client library host None None None None)
  else
    match dict_get "POLYMARKET_KEY" environ with
    | Some (String c k) =>
        let key := Some (String c k) in
        itry
          (client <- icall (NewClient host key (Some chain_id) signature_type funder)
                           (new_client library host key (Some chain_id) signature_type funder) ;;
           api_creds <- icall CreateOrDeriveApiCreds
                              (create_or_derive_api_creds library client) ;;
           icall SetApiCreds (set_api_creds library client api_creds) ;;;
           check_signer client expected_signer ;;;
           iret client)
          (fun f => iprint (ErrorInitializingClient f) ;;; iexit 1)
    | _ => iprint KeyNotSet ;;; iexit 1
    end.

Definition init_events {A} (m : Init A) (s : state) : list init_event := snd (m s).
End Configuration.

(** * Statements *)

(** ** Well-formed snapshots

    The spec's data model gives every level a decimal price: [float()]
    accepts it and the result is a number, not NaN. *)
Definition decimal_price (x : OrderSummary.t) : bool :=
  match price_key x with
  | Ok f => negb (is_nan f)
  | Raise _ => false
  end.

Definition decimal_prices (l : list OrderSummary.t) : bool := forallb decimal_price l.

(** [r] is what a side's best level may be: nothing for an empty side,
    otherwise a level of [l] whose price is [le]-related to every price. *)
Definition best_among (le : float -> float -> bool) (l : list OrderSummary.t)
    (r : option OrderSummary.t) : Prop :=
  match r with
  | None => l = []
  | Some b =>
      In b l /\
      exists kb, price_key b = Ok kb /\
        forall x k, In x l -> price_key x = Ok k -> le kb k = true
  end.

(** [b] stands in [l] after levels that are all strictly worse ([lt]) and
    before levels that are no better ([le]): the first of the best. *)
Definition first_best (lt le : float -> float -> bool) (l : list OrderSummary.t)
    (b : OrderSummary.t) : Prop :=
  exists pre post kb,
    l = pre ++ b :: post /\
    price_key b = Ok kb /\
    (forall x k, In x pre -> price_key x = Ok k -> lt kb k = true) /\
    (forall x k, In x post -> price_key x = Ok k -> le kb k = true).

(** [a <= b] and [a >= b], [a < b] and [a > b] on floats *)
Definition fle (a b : float) : bool := (a <=? b)%float.
Definition fge (a b : float) : bool := (b <=? a)%float.
Definition flt (a b : float) : bool := (a <? b)%float.
Definition fgt (a b : float) : bool := (b <? a)%float.

(** ** Sample data *)

Definition level (price size : float) : OrderSummary.t :=
  OrderSummary.mk (PStr (Numeral price)) (PStr (Numeral size)).

(** Two bids at 0.52 and two asks at 0.53, told apart by their sizes. *)
Definition sample_book : OrderBook.t :=
  OrderBook.mk
    [level 0.50 10; level 0.52 20; level 0.51 30; level 0.52 40]
    [level 0.55 10; level 0.53 20; level 0.54 30; level 0.53 40]
    (PStr (Numeral 5)) (PStr (Numeral 0.01)) PNone.

(** One ask at 0.038 and a minimum order size of 15. *)
Definition thin_book : OrderBook.t :=
  OrderBook.mk [] [level 0.038 100]
    (PStr (Numeral 15)) (PStr (Numeral 0.001)) PNone.

(** No liquidity on either side. *)
Definition empty_book : OrderBook.t :=
  OrderBook.mk [] [] (PStr (Numeral 5)) (PStr (Numeral 0.01)) PNone.

(** [buy-max TOKEN max_usd] and [buy-max TOKEN max_usd --price p] *)
Definition at_best_ask (max_usd : float) : BuyMaxArgs.t :=
  BuyMaxArgs.mk "TOKEN" (Numeral max_usd) None.
Definition at_limit (max_usd p : float) : BuyMaxArgs.t :=
  BuyMaxArgs.mk "TOKEN" (Numeral max_usd) (Some (Numeral p)).

(** A book with one ask at 0.5 and no minimum order size. *)
Definition half_book : OrderBook.t :=
  OrderBook.mk [] [level 0.5 100] (PStr (Numeral 0)) (PStr (Numeral 0.01)) PNone.

(** Six decimal places by truncation, as the spec words line 362. *)
Definition truncate6 (x : float) : float := to_six_places Qfloor x.

(** ** Statements about the commands *)

(** [BalanceAllowanceParams(asset_type=AssetType.COLLATERAL)] *)
Definition collateral_params : BalanceAllowanceParams.t :=
  BalanceAllowanceParams.mk (Some COLLATERAL) None (-1).

(** What the body of the preflight [try] does with the answer of the
    balance query: the exception it ends with, if any. *)
Definition preflight_outcome (answer : result BalanceAllowance.t) : result unit :=
  let? bal := answer in preflight_check bal.

(** The reports a trace prints on standard output. *)
Definition printed_reports {signed_order response}
    (t : list (event signed_order response)) : list report :=
  flat_map (fun ev => match ev with
                      | Stdout (OutReport d) => [d]
                      | _ => []
                      end) t.

(** The list under ["recommendations"] in each printed report. *)
Definition recommended {signed_order response}
    (t : list (event signed_order response)) : list (list string) :=
  flat_map (fun d => match dict_get "recommendations" d with
                     | Some (RStrings l) => [l]
                     | _ => []
                     end) (printed_reports t).

(** The report before anything is added to it. *)
Definition base_report (who : Who.t) (bal : BalanceAllowance.t) : report :=
  [("whoami"%string, RWho who); ("balance_allowance"%string, RBalance bal)].

(** Lines 456-459: the endpoint, the owner and the spenders of the
    on-chain lookups. *)
Definition lookup_rpc_url (rpc : option string) : string :=
  match rpc with
  | Some u => u
  | None => "https://polygon-rpc.com"%string
  end.

Definition lookup_owner (who : Who.t) : string :=
  match Who.funder who with
  | Some f => if nonempty f then f else Who.address who
  | None => Who.address who
  end.

Definition lookup_spenders (who : Who.t) (bal : BalanceAllowance.t) : list string :=
  match BalanceAllowance.allowances bal with
  | Some (e :: d) => dict_keys (e :: d)
  | _ => [Who.exchange who]
  end.

(** The lists under ["recommendations"] and ["next_steps"] that a
    balance and a largest allowance call for, in the words of lines
    473-493: funding when the balance is [<= 0], the approval when the
    largest allowance is [<= 0], and after them the refresh when on-chain
    data was asked for and is in the report, the largest allowance is
    [<= 0] and some on-chain allowance is positive. *)
Definition positive_onchain (diag : report) : bool :=
  match dict_get "onchain_allowances" diag with
  | Some (ROnchain d) => existsb (fun n => (0 <? n)%Z) (int_values (dict_values d))
  | _ => false
  end.

Definition advice (args : DiagnoseArgs.t) (who : Who.t) (balance max_allow : float)
    (diag : report) : list (string * string) :=
  (if balance <=? 0 then [(rec_fund, step_fund)] else [])
  ++ (if max_allow <=? 0
      then [(rec_approve (Who.exchange who), step_approve (Who.exchange who))]
      else [])
  ++ (if DiagnoseArgs.onchain args && (max_allow <=? 0) && positive_onchain diag
      then [(rec_refresh, step_refresh)]
      else []).

(** The end of [cmd_diagnose] once [who] is known and the refresh has
    been attempted: lines 452-497 under the command's handler. *)
Definition report_or_error {state signed_order response}
    (client : ClobClient state signed_order response) (rpc : option string)
    (args : DiagnoseArgs.t) (who : Who.t) : M state signed_order response unit :=
  try_except (diagnose_report client rpc args who)
    (fun e => emit (Stderr (ErrorRunningDiagnose e))).

(** ** A sample exchange

    Its state is the cache of the off-chain ledger: whether it has been
    refreshed since the approval was made on chain.  Orders are signed by
    wrapping them and every post is accepted. *)
Definition funded (allowance : float) : BalanceAllowance.t :=
  BalanceAllowance.mk (Some (PStr (Numeral 25000000)))
    (Some [("0xExchange"%string, PStr (Numeral allowance))]).

Definition unfunded : BalanceAllowance.t :=
  BalanceAllowance.mk (Some (PStr (Numeral 0))) (Some []).

(** [stale] is served until a refresh succeeds, [fresh] afterwards;
    [refresh_works] tells whether the refresh call returns or raises. *)
Definition sample_client (refresh_works : bool) (stale fresh : BalanceAllowance.t)
    : ClobClient bool OrderArgs.t string :=
  Build_ClobClient
    (fun (_ : string) (s : bool) => (Ok sample_book, s))
    (fun (_ : BalanceAllowanceParams.t) (s : bool) =>
       (Ok (if s then fresh else stale), s))
    (fun (_ : BalanceAllowanceParams.t) (s : bool) =>
       if refresh_works then (Ok "refreshed"%string, true)
       else (Raise (ClientError "503"), s))
    (fun (a : OrderArgs.t) (s : bool) => (Ok a, s))
    (fun (_ : OrderArgs.t) (_ : OrderType) (s : bool) => (Ok "posted"%string, s))
    (fun s : bool => (Ok "0xSigner"%string, s))
    (fun s : bool => (Ok "0xCollateral"%string, s))
    (fun s : bool => (Ok "0xExchange"%string, s))
    (Some (Builder.mk (Some "0xFunder"%string) 2))
    "https://clob.polymarket.com"
    (Some 137%Z)
    (fun (_ _ _ _ : string) (s : bool) => (Ok 1000000%Z, s)).

Definition sample_who : Who.t :=
  Who.mk "0xSigner" (Some "0xFunder"%string) (Some 2%Z)
    "https://clob.polymarket.com" (Some 137%Z) "0xCollateral" "0xExchange".

(** [diagnose], [diagnose --fix] *)
Definition plain_diagnose : DiagnoseArgs.t := DiagnoseArgs.mk false false.
Definition diagnose_fix : DiagnoseArgs.t := DiagnoseArgs.mk false true.

(** An account whose approval is on chain but not yet in the exchange's
    cache: the allowance reads 0 until a refresh succeeds. *)
Definition approved_client (refresh_works : bool) : ClobClient bool OrderArgs.t string :=
  sample_client refresh_works (funded 0) (funded 1000000).

(** ** Further statements *)

(** Every allowance is a number: [float()] accepts it and the result is
    not NaN. *)
Definition numeric_allowances (d : dict pyval) : bool :=
  forallb (fun kv => match py_float (snd kv) with
                     | Ok f => negb (is_nan f)
                     | Raise _ => false
                     end) d.

(** The kinds of events counted in a trace. *)
Definition is_create {signed_order response} (ev : event signed_order response) : bool :=
  match ev with CallCreateOrder _ => true | _ => false end.

Definition is_post {signed_order response} (ev : event signed_order response) : bool :=
  match ev with CallPostOrder _ _ => true | _ => false end.

Definition is_update {signed_order response} (ev : event signed_order response) : bool :=
  match ev with CallUpdateBalanceAllowance _ => true | _ => false end.

Definition is_stdout {signed_order response} (ev : event signed_order response) : bool :=
  match ev with Stdout _ => true | _ => false end.

Definition count {A} (p : A -> bool) (l : list A) : nat := List.length (filter p l).

(** The outcome of each spender's own lookup, in order: the integer the
    call returned or the exception it raised, each call made in the
    state the previous one left. *)
Fixpoint lookup_outcomes {state signed_order response}
    (client : ClobClient state signed_order response)
    (rpc_url owner token : string) (spenders : list string) (s : state)
    : dict onchain_value * state :=
  match spenders with
  | [] => ([], s)
  | spender :: rest =>
      let '(r, s1) := eth_allowance client rpc_url owner spender token s in
      let v := match r with Ok n => OnInt n | Raise e => OnError e end in
      let '(d, s2) := lookup_outcomes client rpc_url owner token rest s1 in
      ((spender, v) :: d, s2)
  end.

(** An endpoint that fails for one spender only. *)
Definition flaky_client : ClobClient bool OrderArgs.t string :=
  Build_ClobClient
    (fun (_ : string) (s : bool) => (Ok sample_book, s))
    (fun (_ : BalanceAllowanceParams.t) (s : bool) => (Ok unfunded, s))
    (fun (_ : BalanceAllowanceParams.t) (s : bool) => (Ok "refreshed"%string, s))
    (fun (a : OrderArgs.t) (s : bool) => (Ok a, s))
    (fun (_ : OrderArgs.t) (_ : OrderType) (s : bool) => (Ok "posted"%string, s))
    (fun s : bool => (Ok "0xSigner"%string, s))
    (fun s : bool => (Ok "0xCollateral"%string, s))
    (fun s : bool => (Ok "0xExchange"%string, s))
    None
    "https://clob.polymarket.com"
    (Some 137%Z)
    (fun (_ _ spender _ : string) (s : bool) =>
       if String.eqb spender "0xB" then (Raise (ClientError "timed out"), s)
       else (Ok 7%Z, s)).

(** A client for the other commands, around a sample exchange. *)
Definition sample_market_client (clob : ClobClient bool OrderArgs.t string)
    : MarketClient bool OrderArgs.t string :=
  Build_MarketClient clob
    (fun (_ : string) (s : bool) => (Ok "cancelled"%string, s))
    (fun s : bool => (Raise (ClientError "502"), s))
    (fun (id : json) (s : bool) =>
       match id with
       | JStr "c2" => (Raise (ClientError "404"), s)
       | _ => (Ok [("question"%string, JStr "Will it rain?")], s)
       end)
    (fun (_ : option string) (s : bool) =>
       (Ok (Page.mk
              (Some [[("condition_id"%string, JStr "c1");
                      ("accepting_orders"%string, JBool true)];
                     [("condition_id"%string, JStr "c2");
                      ("accepting_orders"%string, JBool true)];
                     [("condition_id"%string, JStr "c3");
                      ("accepting_orders"%string, JBool false)];
                     [("accepting_orders"%string, JBool true)]])
              [("next_cursor"%string, JStr "LTE=")]), s))
    (fun (_ : string) (s : bool) => (Ok (Page.mk None []), s)).

Definition sample_markets : MarketClient bool OrderArgs.t string :=
  sample_market_client (sample_client false unfunded unfunded).

(** *** [markets] without [--id] *)

(** The limit in force: [--limit], or 20 under [--with-title] alone. *)
Definition effective_limit (args : MarketsArgs.t) : option Z :=
  match MarketsArgs.limit args with
  | None => if MarketsArgs.with_title args then Some 20%Z else None
  | Some n => Some n
  end.

(** [resp.get("data", [])] *)
Definition data_or_empty (p : Page.t) : list (dict json) :=
  match Page.data p with
  | Some l => l
  | None => []
  end.

Definition accepting (m : dict json) : bool :=
  json_truthy (json_get "accepting_orders" m).

(** Lines 178-185: the page after [--accepting-only] and the limit. *)
Definition selected_page (args : MarketsArgs.t) (resp : Page.t) : Page.t :=
  let resp :=
    if MarketsArgs.accepting_only args
    then Page.mk (Some (filter accepting (data_or_empty resp))) (Page.rest resp)
    else resp in
  match effective_limit args with
  | Some n =>
      if (n =? 0)%Z then resp
      else Page.mk (Some (slice_to n (data_or_empty resp))) (Page.rest resp)
  | None => resp
  end.

(** Lines 169-177: the call that lists the markets. *)
Definition list_markets {state signed_order response}
    (client : MarketClient state signed_order response) (args : MarketsArgs.t)
    : X state signed_order response Page.t :=
  if MarketsArgs.sampling args then
    let next_cursor :=
      match MarketsArgs.cursor args with
      | Some (String c k) => String c k
      | _ => "MA=="%string
      end in
    xcall (CallGetSamplingSimplifiedMarkets next_cursor)
          (get_sampling_simplified_markets client next_cursor)
  else
    match MarketsArgs.cursor args with
    | Some (String c k) =>
        xcall (CallGetSimplifiedMarkets (Some (String c k)))
              (get_simplified_markets client (Some (String c k)))
    | _ =>
        xcall (CallGetSimplifiedMarkets None) (get_simplified_markets client None)
    end.

(** The pages a run prints, and its market lookups. *)
Definition printed_pages {signed_order response}
    (t : list (action signed_order response)) : list Page.t :=
  flat_map (fun a => match a with
                     | Print (OutPage p) => [p]
                     | _ => []
                     end) t.

Definition is_get_market {signed_order response}
    (a : action signed_order response) : bool :=
  match a with CallGetMarket _ => true | _ => false end.

(** What the title loop does to one market. *)
Definition titled (m m' : dict json) : Prop :=
  if json_truthy (json_get "condition_id" m)
  then exists title, m' = dict_set "title" title m
  else m' = m.

Definition is_print_error {signed_order response}
    (a : action signed_order response) : bool :=
  match a with PrintError _ => true | _ => false end.

(** The calls that list markets. *)
Definition is_listing {signed_order response}
    (a : action signed_order response) : bool :=
  match a with
  | CallGetSimplifiedMarkets _ | CallGetSamplingSimplifiedMarkets _ => true
  | _ => false
  end.

(** [markets --accepting-only --with-title], with or without [--limit]
    and what it prints against the sample exchange under [--limit 2]. *)
Definition accepting_titled (limit : option Z) : MarketsArgs.t :=
  MarketsArgs.mk None None false true limit true.

Definition two_titled_markets : Page.t :=
  Page.mk
    (Some [[("condition_id"%string, JStr "c1");
            ("accepting_orders"%string, JBool true);
            ("title"%string, JStr "Will it rain?")];
           [("condition_id"%string, JStr "c2");
            ("accepting_orders"%string, JBool true);
            ("title"%string, JNull)]])
    [("next_cursor"%string, JStr "LTE=")].

Definition three_titled_markets : Page.t :=
  Page.mk
    (Some [[("condition_id"%string, JStr "c1");
            ("accepting_orders"%string, JBool true);
            ("title"%string, JStr "Will it rain?")];
           [("condition_id"%string, JStr "c2");
            ("accepting_orders"%string, JBool true);
            ("title"%string, JNull)];
           [("accepting_orders"%string, JBool true)]])
    [("next_cursor"%string, JStr "LTE=")].

(** The title a lookup gives: that of the details it returns, and null
    where it raises. *)
Definition title_of (r : result (dict json)) : json :=
  match r with
  | Ok detail => market_title detail
  | Raise _ => JNull
  end.

(** [after] is [before] with the titles looked up from state [s]: market
    by market, each market with a condition id given the title of its
    own lookup, made in the state the lookups before it left, and each
    market without one left as it is. *)
Fixpoint titles_looked_up {state signed_order response}
    (client : MarketClient state signed_order response) (s : state)
    (before after : list (dict json)) : Prop :=
  match before, after with
  | [], [] => True
  | m :: before', m' :: after' =>
      if json_truthy (json_get "condition_id" m)
      then m' = dict_set "title"
                  (title_of (fst (get_market client (json_get "condition_id" m) s))) m /\
           titles_looked_up client
             (snd (get_market client (json_get "condition_id" m) s)) before' after'
      else m' = m /\ titles_looked_up client s before' after'
  | _, _ => False
  end.

(** ** Configuration *)

(** A hexadecimal digit, in either case. *)
Definition is_hex (c : ascii) : bool :=
  char_in_range 48 57 c || char_in_range 65 70 c || char_in_range 97 102 c.

Fixpoint all_chars (p : ascii -> bool) (s : string) : bool :=
  match s with
  | EmptyString => true
  | String c s' => p c && all_chars p s'
  end.

(** A line whose assignment, if it makes one, the environment takes. *)
Definition clean (raw : string) : bool :=
  match env_assignment raw with
  | Some (key, value) => negb (has_null key || has_null value)
  | None => true
  end.

(** What the last of the lines to assign [key] gives it. *)
Fixpoint last_assigned (key : string) (lines : list string) : option string :=
  match lines with
  | [] => None
  | raw :: rest =>
      match last_assigned key rest with
      | Some value => Some value
      | None =>
          match env_assignment raw with
          | Some (key', value) => if String.eqb key key' then Some value else None
          | None => None
          end
      end
  end.

(** The variables that only a client with a key is built from. *)
Definition key_setting (name : string) : bool :=
  String.eqb name "POLYMARKET_KEY" || String.eqb name "POLYMARKET_FUNDER" ||
  String.eqb name "POLYMARKET_SIGNER".

(** A home directory with an environment file, and a library that hands
    back the sample exchange. *)
Definition line_feed : string := String "010" EmptyString.

Definition sample_home_env_file : string := "/home/trader/.polymarket.env".

Definition sample_env_lines : list string :=
  ["# account" ++ line_feed;
   "export POLYMARKET_KEY='0xabc'" ++ line_feed;
   "POLYMARKET_SIGNER = 0xSIGNER" ++ line_feed;
   line_feed;
   "POLYMARKET_CHAIN_ID=0" ++ line_feed;
   "POLYMARKET_KEY=0xdef" ++ line_feed]%string.

Definition sample_files (path : string) : option (list string) :=
  if String.eqb path sample_home_env_file then Some sample_env_lines else None.

(** [int] on the numbers of the samples. *)
Definition sample_int (val : string) : option Z :=
  if String.eqb val "0" then Some 0%Z
  else if String.eqb val "2" then Some 2%Z
  else if String.eqb val "137" then Some 137%Z
  else if String.eqb val "80002" then Some 80002%Z
  else None.

Definition sample_library : Library bool OrderArgs.t string unit :=
  Build_Library
    (fun (_ : string) (_ : option string) (_ _ : option Z) (_ : option string) (s : bool) =>
       (Ok sample_markets, s))
    (fun (_ : MarketClient bool OrderArgs.t string) (s : bool) => (Ok tt, s))
    (fun (_ : MarketClient bool OrderArgs.t string) (_ : unit) (s : bool) => (Ok tt, s)).

Definition sample_get_client (require_auth : bool) (environ : dict string)
    : Init bool (MarketClient bool OrderArgs.t string) :=
  get_client sample_home_env_file sample_files sample_int sample_library
    require_auth environ.

Definition is_init_error (ev : init_event) : bool :=
  match ev with InitError _ => true | _ => false end.

(** The chain ids of the clients a run builds. *)
Definition chain_ids (t : list init_event) : list (option Z) :=
  flat_map (fun ev => match ev with
                      | NewClient _ _ chain_id _ _ => [chain_id]
                      | _ => []
                      end) t.

(** * Proofs *)

(** ** The order of binary64 numbers

    [FloatAxioms] specifies the primitive comparisons by [SFcompare] on
    [spec_float]; the order facts are proved there by cases. *)

Ltac sf_cases :=
  repeat match goal with
  | |- context [Pos.compare_cont Eq ?a ?b] =>
      change (Pos.compare_cont Eq a b) with (Pos.compare a b)
  | H : context [Pos.compare_cont Eq ?a ?b] |- _ =>
      change (Pos.compare_cont Eq a b) with (Pos.compare a b) in H
  end;
  repeat match goal with
  | H : context [Z.compare ?a ?b] |- _ =>
      destruct (Z.compare_spec a b); simpl in H; try discriminate H
  | |- context [Z.compare ?a ?b] =>
      destruct (Z.compare_spec a b); simpl
  | H : context [Pos.compare ?a ?b] |- _ =>
      destruct (Pos.compare_spec a b); simpl in H; try discriminate H
  | |- context [Pos.compare ?a ?b] =>
      destruct (Pos.compare_spec a b); simpl
  end;
  try reflexivity; try discriminate; try lia.

Ltac sf_destruct3 a b c :=
  destruct a as [[|]|[|]| |[|] ? ?], b as [[|]|[|]| |[|] ? ?], c as [[|]|[|]| |[|] ? ?];
  try discriminate; try reflexivity.

Lemma SFleb_trans a b c :
  SFleb a b = true -> SFleb b c = true -> SFleb a c = true.
Proof.
  unfold SFleb, SFcompare. sf_destruct3 a b c; intros H1 H2; sf_cases.
Qed.

Lemma SFltb_leb_trans a b c :
  SFltb a b = true -> SFleb b c = true -> SFltb a c = true.
Proof.
  unfold SFltb, SFleb, SFcompare. sf_destruct3 a b c; intros H1 H2; sf_cases.
Qed.

Lemma SFleb_ltb_trans a b c :
  SFleb a b = true -> SFltb b c = true -> SFltb a c = true.
Proof.
  unfold SFltb, SFleb, SFcompare. sf_destruct3 a b c; intros H1 H2; sf_cases.
Qed.

Lemma SFltb_leb a b : SFltb a b = true -> SFleb a b = true.
Proof.
  unfold SFltb, SFleb. destruct (SFcompare a b) as [[| |]|]; congruence.
Qed.

Lemma SFltb_false_leb a b :
  a <> S754_nan -> b <> S754_nan -> SFltb a b = false -> SFleb b a = true.
Proof.
  unfold SFltb, SFleb, SFcompare.
  destruct a as [[|]|[|]| |[|] ? ?], b as [[|]|[|]| |[|] ? ?];
    try congruence; try reflexivity; intros _ _ H; sf_cases.
Qed.

Lemma SFleb_refl a : a <> S754_nan -> SFleb a a = true.
Proof.
  unfold SFleb, SFcompare.
  destruct a as [[|]|[|]| |[|] ? ?]; try congruence; try reflexivity; intros _; sf_cases.
Qed.

Lemma not_nan_spec x : is_nan x = false -> Prim2SF x <> S754_nan.
Proof.
  unfold is_nan. rewrite FloatAxioms.eqb_spec. intros H E. rewrite E in H. discriminate H.
Qed.

Lemma fle_trans a b c : fle a b = true -> fle b c = true -> fle a c = true.
Proof. unfold fle. rewrite !FloatAxioms.leb_spec. apply SFleb_trans. Qed.

Lemma flt_fle_trans a b c : flt a b = true -> fle b c = true -> flt a c = true.
Proof. unfold flt, fle. rewrite !FloatAxioms.leb_spec, !FloatAxioms.ltb_spec. apply SFltb_leb_trans. Qed.

Lemma fle_flt_trans a b c : fle a b = true -> flt b c = true -> flt a c = true.
Proof. unfold flt, fle. rewrite !FloatAxioms.leb_spec, !FloatAxioms.ltb_spec. apply SFleb_ltb_trans. Qed.

Lemma flt_fle a b : flt a b = true -> fle a b = true.
Proof. unfold flt, fle. rewrite FloatAxioms.leb_spec, FloatAxioms.ltb_spec. apply SFltb_leb. Qed.

Lemma flt_false_fle a b :
  is_nan a = false -> is_nan b = false -> flt a b = false -> fle b a = true.
Proof.
  unfold flt, fle. rewrite FloatAxioms.leb_spec, FloatAxioms.ltb_spec. intros Ha Hb.
  apply SFltb_false_leb; now apply not_nan_spec.
Qed.

Lemma fle_refl a : is_nan a = false -> fle a a = true.
Proof.
  unfold fle. rewrite FloatAxioms.leb_spec. intros Ha. now apply SFleb_refl, not_nan_spec.
Qed.

(** ** [min] and [max] keep the first of the best *)

Lemma decimal_price_inv x :
  decimal_price x = true -> exists k, price_key x = Ok k /\ is_nan k = false.
Proof.
  unfold decimal_price. destruct (price_key x) as [k|e]; [|discriminate].
  intros H. exists k. split; [reflexivity|]. now apply negb_true_iff.
Qed.

Section FirstBest.
Variables lt le : float -> float -> bool.
Hypothesis lt_false_le :
  forall a b, is_nan a = false -> is_nan b = false -> lt a b = false -> le b a = true.
Hypothesis le_lt_trans : forall a b c, le a b = true -> lt b c = true -> lt a c = true.
Hypothesis lt_le_trans : forall a b c, lt a b = true -> le b c = true -> lt a c = true.
Hypothesis le_refl : forall a, is_nan a = false -> le a a = true.
Hypothesis lt_le : forall a b, lt a b = true -> le a b = true.

Lemma min_max_loop_first l :
  forall best bk,
    price_key best = Ok bk -> is_nan bk = false -> decimal_prices l = true ->
    exists r rk pre post,
      min_max_loop lt price_key best bk l = Ok r /\
      price_key r = Ok rk /\ is_nan rk = false /\ le rk bk = true /\
      best :: l = pre ++ r :: post /\
      (forall x k, In x pre -> price_key x = Ok k -> lt rk k = true) /\
      (forall x k, In x post -> price_key x = Ok k -> le rk k = true).
Proof.
  induction l as [|x l IH]; intros best bk Hbest Hbk Hl.
  - exists best, bk, [], []. simpl. repeat split; auto; intros ? ? [].
  - simpl in Hl. apply andb_true_iff in Hl. destruct Hl as [Hx Hl].
    destruct (decimal_price_inv _ Hx) as (k & Hk & Hkn).
    simpl. rewrite Hk. simpl. destruct (lt k bk) eqn:Hlt.
    + (* x replaces the best so far *)
      destruct (IH x k Hk Hkn Hl)
        as (r & rk & pre & post & Hr & Hrk & Hn & Hle & Hsplit & Hpre & Hpost).
      assert (Hrb : lt rk bk = true) by now apply le_lt_trans with k.
      exists r, rk, (best :: pre), post. rewrite Hsplit.
      split; [assumption|]. split; [assumption|]. split; [assumption|].
      split; [now apply lt_le|]. split; [reflexivity|]. split; [|assumption].
      intros y ky [Hy|Hy] Hky.
      * subst y. assert (ky = bk) by congruence. now subst ky.
      * now apply Hpre with y.
    + (* the best so far stays *)
      assert (Hbk_k : le bk k = true) by now apply lt_false_le.
      destruct (IH best bk Hbest Hbk Hl)
        as (r & rk & pre & post & Hr & Hrk & Hn & Hle & Hsplit & Hpre & Hpost).
      destruct pre as [|p pre]; simpl in Hsplit; injection Hsplit as Hp Hrest.
      * subst r l. assert (rk = bk) by congruence. subst rk.
        exists best, bk, [], (x :: post).
        split; [assumption|]. split; [assumption|]. split; [assumption|].
        split; [assumption|]. split; [reflexivity|]. split.
        -- intros ? ? [].
        -- intros y ky [Hy|Hy] Hky; [|now apply Hpost with y].
           subst y. assert (ky = k) by congruence. now subst ky.
      * subst p l. exists r, rk, (best :: x :: pre), post.
        split; [assumption|]. split; [assumption|]. split; [assumption|].
        split; [assumption|]. split; [reflexivity|]. split; [|assumption].
        assert (Hrb : lt rk bk = true) by (apply Hpre with best; simpl; auto).
        intros y ky [Hy|[Hy|Hy]] Hky.
        -- subst y. assert (ky = bk) by congruence. now subst ky.
        -- subst y. assert (ky = k) by congruence. subst ky.
           now apply lt_le_trans with bk.
        -- apply Hpre with y; simpl; auto.
Qed.

Lemma best_order_first l :
  decimal_prices l = true ->
  match l with
  | [] => _best_order l (min_max lt) = Ok None
  | _ => exists b, _best_order l (min_max lt) = Ok (Some b) /\ first_best lt le l b
  end.
Proof.
  destruct l as [|x l]; [reflexivity|]. intros Hl.
  simpl in Hl. apply andb_true_iff in Hl. destruct Hl as [Hx Hl].
  destruct (decimal_price_inv _ Hx) as (k & Hk & Hkn).
  destruct (min_max_loop_first l x Hk Hkn Hl)
    as (r & rk & pre & post & Hr & Hrk & Hn & Hle & Hsplit & Hpre & Hpost).
  exists r. split.
  - unfold _best_order, min_max. rewrite Hk. simpl. rewrite Hr. reflexivity.
  - exists pre, post, rk. auto.
Qed.
End FirstBest.

Lemma first_best_among lt le l b :
  (forall a c, lt a c = true -> le a c = true) ->
  (forall a, is_nan a = false -> le a a = true) ->
  decimal_prices l = true ->
  first_best lt le l b -> best_among le l (Some b).
Proof.
  intros Hlt Hrefl Hl (pre & post & kb & -> & Hkb & Hpre & Hpost). split.
  - apply in_or_app. right. now left.
  - exists kb. split; [assumption|]. intros x k Hx Hk.
    apply in_app_or in Hx. destruct Hx as [Hx|[Hx|Hx]].
    + apply Hlt. now apply Hpre with x.
    + subst x. assert (k = kb) by congruence. subst k. apply Hrefl.
      unfold decimal_prices in Hl. rewrite forallb_forall in Hl.
      assert (Hin : In b (pre ++ b :: post)) by (apply in_or_app; right; now left).
      destruct (decimal_price_inv _ (Hl b Hin)) as (k' & Hk' & Hn). congruence.
    + now apply Hpost with x.
Qed.

Lemma py_min_flt : @py_min OrderSummary.t = min_max flt.
Proof. reflexivity. Qed.

Lemma py_max_fgt : @py_max OrderSummary.t = min_max fgt.
Proof. reflexivity. Qed.

Lemma best_ask_first l :
  decimal_prices l = true ->
  match l with
  | [] => _best_order l py_min = Ok None
  | _ => exists b, _best_order l py_min = Ok (Some b) /\ first_best flt fle l b
  end.
Proof.
  rewrite py_min_flt. apply best_order_first.
  - exact flt_false_fle.
  - exact fle_flt_trans.
  - exact flt_fle_trans.
  - exact fle_refl.
  - exact flt_fle.
Qed.

Lemma best_bid_first l :
  decimal_prices l = true ->
  match l with
  | [] => _best_order l py_max = Ok None
  | _ => exists b, _best_order l py_max = Ok (Some b) /\ first_best fgt fge l b
  end.
Proof.
  rewrite py_max_fgt. apply best_order_first; unfold fgt, fge.
  - intros a b Ha Hb. now apply flt_false_fle.
  - intros a b c H1 H2. exact (flt_fle_trans H2 H1).
  - intros a b c H1 H2. exact (fle_flt_trans H2 H1).
  - exact fle_refl.
  - intros a b. apply flt_fle.
Qed.

Lemma fge_refl a : is_nan a = false -> fge a a = true.
Proof. exact (@fle_refl a). Qed.

Lemma fgt_fge a b : fgt a b = true -> fge a b = true.
Proof. unfold fgt, fge. apply flt_fle. Qed.

Lemma best_ask_spec l :
  decimal_prices l = true ->
  exists r,
    _best_order l py_min = Ok r /\ best_among fle l r /\
    forall a, r = Some a -> first_best flt fle l a.
Proof.
  intros Hl. pose proof (best_ask_first _ Hl) as H. destruct l as [|x l].
  - exists None. split; [assumption|]. split; [reflexivity|discriminate].
  - destruct H as (b & Hb & Hfirst). exists (Some b).
    split; [assumption|]. split.
    + apply first_best_among with flt; auto using flt_fle, fle_refl.
    + intros a Ha. injection Ha as <-. assumption.
Qed.

Lemma best_bid_spec l :
  decimal_prices l = true ->
  exists r,
    _best_order l py_max = Ok r /\ best_among fge l r /\
    forall b, r = Some b -> first_best fgt fge l b.
Proof.
  intros Hl. pose proof (best_bid_first _ Hl) as H. destruct l as [|x l].
  - exists None. split; [assumption|]. split; [reflexivity|discriminate].
  - destruct H as (b & Hb & Hfirst). exists (Some b).
    split; [assumption|]. split.
    + apply first_best_among with fgt; auto using fgt_fge, fge_refl.
    + intros a Ha. injection Ha as <-. assumption.
Qed.

(** C7. For every order book whose levels carry decimal prices,
    [_best_bid_ask] returns a pair; a side is [None] exactly when its
    level list is empty; otherwise the best ask is a level of the ask
    list whose price is [<=] every ask price, and the best bid a level
    of the bid list whose price is [>=] every bid price. *)
Theorem best_bid_ask_extremal (book : OrderBook.t) :
  decimal_prices (OrderBook.bids book) = true ->
  decimal_prices (OrderBook.asks book) = true ->
  exists best_bid best_ask,
    _best_bid_ask book = Ok (best_bid, best_ask) /\
    best_among fge (OrderBook.bids book) best_bid /\
    best_among fle (OrderBook.asks book) best_ask.
Proof.
  intros Hb Ha. unfold _best_bid_ask.
  destruct (best_bid_spec _ Hb) as (bid & Hbid & Bamong & _).
  destruct (best_ask_spec _ Ha) as (ask & Hask & Aamong & _).
  exists bid, ask. rewrite Hbid, Hask. simpl. auto.
Qed.

Lemma best_bid_ask_extremal_witness :
  decimal_prices (OrderBook.bids sample_book) = true /\
  decimal_prices (OrderBook.asks sample_book) = true /\
  exists best_bid best_ask,
    _best_bid_ask sample_book = Ok (best_bid, best_ask) /\
    best_among fge (OrderBook.bids sample_book) best_bid /\
    best_among fle (OrderBook.asks sample_book) best_ask.
Proof.
  split; [vm_compute; reflexivity|]. split; [vm_compute; reflexivity|].
  apply (best_bid_ask_extremal sample_book); vm_compute; reflexivity.
Defined.

(** C9. Ties are broken by position: the best bid returned is preceded
    only by bids of strictly lower price and followed only by bids of
    lower or equal price, and the best ask returned is preceded only by
    asks of strictly higher price and followed only by asks of higher or
    equal price.  So among the levels that share the best price the first
    one in the snapshot's order is returned. *)
Theorem best_bid_ask_first_seen (book : OrderBook.t) :
  decimal_prices (OrderBook.bids book) = true ->
  decimal_prices (OrderBook.asks book) = true ->
  exists best_bid best_ask,
    _best_bid_ask book = Ok (best_bid, best_ask) /\
    (forall b, best_bid = Some b -> first_best fgt fge (OrderBook.bids book) b) /\
    (forall a, best_ask = Some a -> first_best flt fle (OrderBook.asks book) a).
Proof.
  intros Hb Ha. unfold _best_bid_ask.
  destruct (best_bid_spec _ Hb) as (bid & Hbid & _ & Bfirst).
  destruct (best_ask_spec _ Ha) as (ask & Hask & _ & Afirst).
  exists bid, ask. rewrite Hbid, Hask. simpl. auto.
Qed.

Lemma best_bid_ask_first_seen_witness :
  decimal_prices (OrderBook.bids sample_book) = true /\
  decimal_prices (OrderBook.asks sample_book) = true /\
  _best_bid_ask sample_book = Ok (Some (level 0.52 20), Some (level 0.53 20)) /\
  exists best_bid best_ask,
    _best_bid_ask sample_book = Ok (best_bid, best_ask) /\
    (forall b, best_bid = Some b ->
       first_best fgt fge (OrderBook.bids sample_book) b) /\
    (forall a, best_ask = Some a ->
       first_best flt fle (OrderBook.asks sample_book) a).
Proof.
  split; [vm_compute; reflexivity|]. split; [vm_compute; reflexivity|].
  split; [vm_compute; reflexivity|].
  apply (best_bid_ask_first_seen sample_book); vm_compute; reflexivity.
Defined.

(** ** Sizing under a budget *)

Lemma SFltb_not_leb a b : SFltb a b = true -> SFleb b a = false.
Proof.
  unfold SFltb, SFleb, SFcompare.
  destruct a as [[|]|[|]| |[|] ? ?], b as [[|]|[|]| |[|] ? ?];
    try discriminate; try reflexivity; intros H; sf_cases.
Qed.

Lemma SFltb_not_eqb a b : SFltb a b = true -> SFeqb b a = false.
Proof.
  unfold SFltb, SFeqb, SFcompare.
  destruct a as [[|]|[|]| |[|] ? ?], b as [[|]|[|]| |[|] ? ?];
    try discriminate; try reflexivity; intros H; sf_cases.
Qed.

Lemma positive_not_le_zero x : (0 <? x) = true -> (x <=? 0) = false.
Proof. rewrite FloatAxioms.ltb_spec, FloatAxioms.leb_spec. apply SFltb_not_leb. Qed.

Lemma positive_not_zero x : (0 <? x) = true -> (x =? 0) = false.
Proof. rewrite FloatAxioms.ltb_spec, FloatAxioms.eqb_spec. apply SFltb_not_eqb. Qed.

Lemma rbind_ok_inv {A B} (r : result A) (k : A -> result B) b :
  rbind r k = Ok b -> exists a, r = Ok a /\ k a = Ok b.
Proof. destruct r as [a|e]; simpl; [eauto|discriminate]. Qed.

(** The sizing once the quotes, the price and the budget are known. *)
Lemma budget_size_priced book args bid ask limit p cap :
  _best_bid_ask book = Ok (bid, ask) ->
  limit_price (BuyMaxArgs.price args) = Ok limit ->
  effective_price limit ask = Ok p ->
  BuyMaxArgs.max_usd args = Numeral cap ->
  budget_size book args =
    if cap <=? 0 then Raise (ValueError MaxUsdMustBePositive)
    else
      let? min_size := py_float (or_zero (OrderBook.min_order_size book)) in
      let? size := py_div cap p in
      let? size := apply_min_size cap p min_size size in
      Ok (p, size, ask).
Proof.
  intros Hq Hl Hp Hc. unfold budget_size.
  rewrite Hq. simpl. rewrite Hl. simpl. rewrite Hp. simpl. rewrite Hc. reflexivity.
Qed.

Lemma sizeByBudget_sized book args p s ask m :
  budget_size book args = Ok (p, s, ask) ->
  is_marketable ask p = Ok m ->
  sizeByBudget book args =
    if m && (p * s <? 1) then Raise (ValueError (NotionalBelowMinimum (p * s)))
    else Ok (SizedOrder.mk p (py_round6 s) m).
Proof.
  intros Hs Hm. unfold sizeByBudget, buy_max_sizing.
  rewrite Hs. simpl. rewrite Hm. simpl.
  destruct (m && (p * s <? 1)); reflexivity.
Qed.

Lemma sizeByBudget_budget_error book args e :
  budget_size book args = Raise e -> sizeByBudget book args = Raise e.
Proof.
  intros H. unfold sizeByBudget, buy_max_sizing. rewrite H. reflexivity.
Qed.

(** C1. With a positive minimum order size, budget and price, and a
    quotient [max_usd / price] below the minimum: when
    [min_size * price <= max_usd] the minimum becomes the size the later
    steps work with, so the call fails with the notional error if the
    order is marketable and [price * min_size < 1], and returns
    [round(min_size, 6)] otherwise; when [min_size * price > max_usd] it
    fails with the budget-too-low error carrying that cost and the price. *)
Theorem min_size_override book args bid ask limit p cap min_size :
  _best_bid_ask book = Ok (bid, ask) ->
  limit_price (BuyMaxArgs.price args) = Ok limit ->
  effective_price limit ask = Ok p ->
  BuyMaxArgs.max_usd args = Numeral cap ->
  py_float (or_zero (OrderBook.min_order_size book)) = Ok min_size ->
  (0 <? min_size) = true -> (0 <? cap) = true -> (0 <? p) = true ->
  (cap / p <? min_size) = true ->
  if min_size * p <=? cap then
    budget_size book args = Ok (p, min_size, ask) /\
    forall m, is_marketable ask p = Ok m ->
      sizeByBudget book args =
        if m && (p * min_size <? 1)
        then Raise (ValueError (NotionalBelowMinimum (p * min_size)))
        else Ok (SizedOrder.mk p (py_round6 min_size) m)
  else
    sizeByBudget book args = Raise (ValueError (MaxUsdTooLow (min_size * p) p)).
Proof.
  intros Hq Hl Hp Hc Hmin Hpos Hcap Hprice Hraw.
  pose proof (budget_size_priced book args Hq Hl Hp Hc) as Hb.
  rewrite (positive_not_le_zero Hcap), Hmin in Hb. simpl in Hb.
  unfold py_div in Hb. rewrite (positive_not_zero Hprice) in Hb. simpl in Hb.
  unfold apply_min_size in Hb. rewrite Hpos, Hraw in Hb. simpl in Hb.
  destruct (min_size * p <=? cap).
  - simpl in Hb. split; [assumption|]. intros m Hm.
    now apply sizeByBudget_sized with ask.
  - simpl in Hb. now apply sizeByBudget_budget_error.
Qed.

Lemma min_size_override_witness :
  (15 * 0.038 <=? 0.57) = true /\
  (budget_size thin_book (at_best_ask 0.57) = Ok (0.038, 15, Some (level 0.038 100)) /\
   forall m, is_marketable (Some (level 0.038 100)) 0.038 = Ok m ->
     sizeByBudget thin_book (at_best_ask 0.57) =
       if m && (0.038 * 15 <? 1)
       then Raise (ValueError (NotionalBelowMinimum (0.038 * 15)))
       else Ok (SizedOrder.mk 0.038 (py_round6 15) m)).
Proof.
  split; [vm_compute; reflexivity|].
  exact (@min_size_override thin_book (at_best_ask 0.57) None (Some (level 0.038 100))
           None 0.038 0.57 15
           eq_refl eq_refl eq_refl eq_refl eq_refl eq_refl eq_refl eq_refl eq_refl).
Defined.

(** The claim's first branch fails on this input: an order at the best
    ask 0.038 with a budget of 0.57 and a minimum size of 15.  The
    quotient is 14.999999999999998, the product 15 * 0.038 is 0.57, so
    the size becomes 15; the order is marketable with a notional of 0.57,
    and the call fails instead of returning size 15. *)
Lemma min_size_override_counterexample :
  _best_bid_ask thin_book = Ok (None, Some (level 0.038 100)) /\
  effective_price None (Some (level 0.038 100)) = Ok 0.038 /\
  (0 <? 15) = true /\ (0 <? 0.57) = true /\ (0 <? 0.038) = true /\
  (0.57 / 0.038 <? 15) = true /\
  (15 * 0.038 <=? 0.57) = true /\
  sizeByBudget thin_book (at_best_ask 0.57)
    = Raise (ValueError (NotionalBelowMinimum (0.038 * 15))) /\
  forall sized, sizeByBudget thin_book (at_best_ask 0.57) <> Ok sized.
Proof.
  repeat (split; [vm_compute; reflexivity|]).
  intros sized. vm_compute. discriminate.
Qed.

(** *** Rounding to six places *)

Lemma round_half_even_cases q :
  round_half_even q = Qfloor q \/ round_half_even q = (Qfloor q + 1)%Z.
Proof.
  unfold round_half_even.
  destruct (Qcompare (q - inject_Z (Qfloor q)) (1 # 2)); auto.
  destruct (Z.even (Qfloor q)); auto.
Qed.

Lemma round_half_even_nearest q :
  (Qabs (inject_Z (round_half_even q) - q) <= 1 # 2)%Q.
Proof.
  pose proof (Qfloor_le q) as Hlo. pose proof (Qlt_floor q) as Hhi.
  rewrite inject_Z_plus in Hhi. change (inject_Z 1) with 1%Q in Hhi.
  apply Qabs_Qle_condition. unfold round_half_even.
  destruct (Qcompare (q - inject_Z (Qfloor q)) (1 # 2)) eqn:E.
  - apply Qeq_alt in E.
    destruct (Z.even (Qfloor q)); [|rewrite inject_Z_plus; change (inject_Z 1) with 1%Q];
      split; lra.
  - apply Qlt_alt in E. split; lra.
  - apply Qgt_alt in E. rewrite inject_Z_plus. change (inject_Z 1) with 1%Q.
    split; lra.
Qed.

Lemma round_half_even_tie q :
  (q - inject_Z (Qfloor q) == 1 # 2)%Q -> Z.even (round_half_even q) = true.
Proof.
  intros H. unfold round_half_even. apply Qeq_alt in H. rewrite H.
  destruct (Z.even (Qfloor q)) eqn:E; [assumption|].
  rewrite Z.even_add, E. reflexivity.
Qed.

(** What [round(x, 6)] keeps of a finite non-zero [x]: a number of
    millionths within one half of the exact one, even at a tie. *)
Lemma py_round6_nearest x :
  match Prim2SF x with
  | S754_finite sign mant e =>
      exists n,
        py_round6 x = of_millionths sign n /\
        (Qabs (inject_Z n - magnitude mant e * inject_Z (Zpos million)) <= 1 # 2)%Q /\
        ((magnitude mant e * inject_Z (Zpos million)
          - inject_Z (Qfloor (magnitude mant e * inject_Z (Zpos million))) == 1 # 2)%Q ->
         Z.even n = true)
  | _ => py_round6 x = x
  end.
Proof.
  unfold py_round6, to_six_places.
  destruct (Prim2SF x) as [sign|sign| |sign mant e]; try reflexivity.
  eexists. split; [reflexivity|]. split.
  - apply round_half_even_nearest.
  - apply round_half_even_tie.
Qed.

(** C2. The size returned is the computed size rounded to six decimal
    places to the nearest, ties to the even millionth: it is the double
    nearest to [n / 10^6] for an integer [n] that differs from the exact
    number of millionths of the computed size by at most one half. *)
Theorem size_rounded_to_nearest book args p s m :
  buy_max_sizing book args = Ok (p, s, m) ->
  sizeByBudget book args = Ok (SizedOrder.mk p (py_round6 s) m) /\
  match Prim2SF s with
  | S754_finite sign mant e =>
      exists n,
        py_round6 s = of_millionths sign n /\
        (Qabs (inject_Z n - magnitude mant e * inject_Z (Zpos million)) <= 1 # 2)%Q /\
        ((magnitude mant e * inject_Z (Zpos million)
          - inject_Z (Qfloor (magnitude mant e * inject_Z (Zpos million))) == 1 # 2)%Q ->
         Z.even n = true)
  | _ => py_round6 s = s
  end.
Proof.
  intros H. split.
  - unfold sizeByBudget. rewrite H. reflexivity.
  - apply py_round6_nearest.
Qed.

Lemma size_rounded_to_nearest_witness :
  buy_max_sizing sample_book (at_limit 2 0.3) = Ok (0.3, 2 / 0.3, false) /\
  sizeByBudget sample_book (at_limit 2 0.3)
    = Ok (SizedOrder.mk 0.3 (py_round6 (2 / 0.3)) false) /\
  py_round6 (2 / 0.3) = 6.666667.
Proof.
  split; [vm_compute; reflexivity|]. split; [|vm_compute; reflexivity].
  apply (@size_rounded_to_nearest sample_book (at_limit 2 0.3) 0.3 (2 / 0.3) false).
  vm_compute; reflexivity.
Defined.

(** A budget of 2 at a limit price of 0.3 buys 6.666666666666667, a
    non-negative size; the order carries 6.666667, and truncation would
    give 6.666666. *)
Lemma size_not_truncated_counterexample :
  buy_max_sizing sample_book (at_limit 2 0.3) = Ok (0.3, 2 / 0.3, false) /\
  (0 <=? 2 / 0.3) = true /\
  sizeByBudget sample_book (at_limit 2 0.3) = Ok (SizedOrder.mk 0.3 6.666667 false) /\
  truncate6 (2 / 0.3) = 6.666666 /\
  sizeByBudget sample_book (at_limit 2 0.3)
    <> Ok (SizedOrder.mk 0.3 (truncate6 (2 / 0.3)) false).
Proof.
  repeat (split; [vm_compute; reflexivity|]).
  intros H.
  apply (f_equal (fun r => match r with
                           | Ok o => SizedOrder.size o =? 6.666667
                           | Raise _ => false
                           end)) in H.
  vm_compute in H. discriminate H.
Qed.

(** *** The checks on the budget and on the limit price *)

Lemma budget_size_fails_without_budget book args cap :
  BuyMaxArgs.max_usd args = Numeral cap -> (cap <=? 0) = true ->
  exists e, budget_size book args = Raise e.
Proof.
  intros Hc Hle. unfold budget_size.
  destruct (_best_bid_ask book) as [quotes|e]; simpl; [|eauto].
  destruct (limit_price (BuyMaxArgs.price args)) as [limit|e]; simpl; [|eauto].
  destruct (effective_price limit (snd quotes)) as [p|e]; simpl; [|eauto].
  rewrite Hc. simpl. rewrite Hle. eauto.
Qed.

(** C4. With [max_usd <= 0] the call always fails.  The error is
    "max_usd must be > 0" whenever the price is determined first (a limit
    price is given, or the book has a best ask); with no limit price and
    no ask it is "No asks available", raised before the budget is read. *)
Theorem nonpositive_max_usd book args cap :
  BuyMaxArgs.max_usd args = Numeral cap -> (cap <=? 0) = true ->
  (exists e, sizeByBudget book args = Raise e) /\
  (forall bid ask limit p,
     _best_bid_ask book = Ok (bid, ask) ->
     limit_price (BuyMaxArgs.price args) = Ok limit ->
     effective_price limit ask = Ok p ->
     sizeByBudget book args = Raise (ValueError MaxUsdMustBePositive)) /\
  (forall bid,
     _best_bid_ask book = Ok (bid, None) ->
     limit_price (BuyMaxArgs.price args) = Ok None ->
     sizeByBudget book args = Raise (ValueError NoAsksAvailable)).
Proof.
  intros Hc Hle. split; [|split].
  - destruct (budget_size_fails_without_budget book args Hc Hle) as (e & He).
    exists e. now apply sizeByBudget_budget_error.
  - intros bid ask limit p Hq Hl Hp. apply sizeByBudget_budget_error.
    rewrite (budget_size_priced book args Hq Hl Hp Hc), Hle. reflexivity.
  - intros bid Hq Hl. apply sizeByBudget_budget_error.
    unfold budget_size. rewrite Hq. simpl. rewrite Hl. reflexivity.
Qed.

Lemma nonpositive_max_usd_witness :
  (0 <=? 0) = true /\
  sizeByBudget sample_book (at_best_ask 0) = Raise (ValueError MaxUsdMustBePositive).
Proof.
  split; [vm_compute; reflexivity|].
  refine (proj1 (proj2 (@nonpositive_max_usd sample_book (at_best_ask 0) 0 eq_refl eq_refl))
            (Some (level 0.52 20)) (Some (level 0.53 20)) None 0.53 _ _ _);
    vm_compute; reflexivity.
Defined.

(** With no limit price and an empty book, a budget of 0 is answered
    with "No asks available", not with "max_usd must be > 0". *)
Lemma nonpositive_max_usd_counterexample :
  (0 <=? 0) = true /\
  BuyMaxArgs.price (at_best_ask 0) = None /\
  OrderBook.asks empty_book = [] /\
  sizeByBudget empty_book (at_best_ask 0) = Raise (ValueError NoAsksAvailable) /\
  sizeByBudget empty_book (at_best_ask 0) <> Raise (ValueError MaxUsdMustBePositive).
Proof.
  repeat (split; [vm_compute; reflexivity|]). vm_compute. discriminate.
Qed.

(** C5. With a positive budget and a limit price of zero the call fails:
    the division [max_usd / price] raises.  (Nothing checks the sign of
    the limit price; a negative one is sized like any other.) *)
Theorem zero_limit_price book args cap p :
  BuyMaxArgs.max_usd args = Numeral cap ->
  BuyMaxArgs.price args = Some (Numeral p) ->
  (0 <? cap) = true -> (p =? 0) = true ->
  (exists e, sizeByBudget book args = Raise e) /\
  (forall quotes min_size,
     _best_bid_ask book = Ok quotes ->
     py_float (or_zero (OrderBook.min_order_size book)) = Ok min_size ->
     sizeByBudget book args = Raise ZeroDivisionError).
Proof.
  intros Hc Hp Hcap Hzero.
  assert (Hb : forall quotes, _best_bid_ask book = Ok quotes ->
            budget_size book args =
              let? min_size := py_float (or_zero (OrderBook.min_order_size book)) in
              Raise ZeroDivisionError).
  { intros [bid ask] Hq.
    rewrite (@budget_size_priced book args bid ask (Some p) p cap Hq); auto.
    - rewrite (positive_not_le_zero Hcap). unfold py_div. rewrite Hzero.
      destruct (py_float (or_zero (OrderBook.min_order_size book))); reflexivity.
    - rewrite Hp. reflexivity. }
  split.
  - destruct (_best_bid_ask book) as [quotes|e] eqn:Hq.
    + specialize (Hb quotes eq_refl).
      destruct (py_float (or_zero (OrderBook.min_order_size book))) as [ms|e];
        simpl in Hb; eexists; apply sizeByBudget_budget_error; exact Hb.
    + exists e. apply sizeByBudget_budget_error. unfold budget_size.
      rewrite Hq. reflexivity.
  - intros quotes min_size Hq Hmin. apply sizeByBudget_budget_error.
    rewrite (Hb quotes Hq), Hmin. reflexivity.
Qed.

Lemma zero_limit_price_witness :
  (0 <? 1) = true /\ (0 =? 0) = true /\
  sizeByBudget sample_book (at_limit 1 0) = Raise ZeroDivisionError.
Proof.
  split; [vm_compute; reflexivity|]. split; [vm_compute; reflexivity|].
  refine (proj2 (@zero_limit_price sample_book (at_limit 1 0) 1 0
                   eq_refl eq_refl eq_refl eq_refl)
            (Some (level 0.52 20), Some (level 0.53 20)) 5 _ _);
    vm_compute; reflexivity.
Defined.

(** A budget of 1 at a limit price of -0.5: the quotient -2 is below the
    minimum size 5, whose cost -2.5 is within the budget; the order is
    not marketable, and the call returns a size of 5 at the price -0.5. *)
Lemma negative_limit_price_counterexample :
  (0 <? 1) = true /\ (-0.5 <=? 0) = true /\
  sizeByBudget sample_book (at_limit 1 (-0.5))
    = Ok (SizedOrder.mk (-0.5) 5 false).
Proof.
  repeat split; vm_compute; reflexivity.
Qed.

(** The best of a list has a price that [float()] accepts. *)
Lemma min_max_loop_key {A} better (key : A -> result float) l :
  forall best bk r,
    key best = Ok bk ->
    min_max_loop better key best bk l = Ok r ->
    exists rk, key r = Ok rk.
Proof.
  induction l as [|x l IH]; simpl; intros best bk r Hbest Hr.
  - injection Hr as <-. now exists bk.
  - destruct (key x) as [k|e] eqn:Hk; simpl in Hr; [|discriminate].
    destruct (better k bk); eauto.
Qed.

Lemma best_order_key better orders a :
  _best_order orders (min_max better) = Ok (Some a) ->
  exists ka, price_key a = Ok ka.
Proof.
  unfold _best_order. destruct orders as [|x l]; [discriminate|].
  unfold min_max. destruct (price_key x) as [k|e] eqn:Hk; simpl; [|discriminate].
  destruct (min_max_loop better price_key x k l) as [r|e] eqn:Hr; simpl;
    [|discriminate].
  intros H. injection H as <-. eapply min_max_loop_key; eassumption.
Qed.

Lemma best_ask_key book bid a :
  _best_bid_ask book = Ok (bid, Some a) -> exists ka, price_key a = Ok ka.
Proof.
  unfold _best_bid_ask. intros H.
  apply rbind_ok_inv in H. destruct H as (b & _ & H).
  apply rbind_ok_inv in H. destruct H as (ask & Hask & H).
  assert (ask = Some a) by congruence. subst ask.
  unfold py_min in Hask. eapply best_order_key; eassumption.
Qed.

(** C6. Where the sizing reaches the marketable test with price [p],
    size [s] and the book's best ask, the order is marketable exactly
    when an ask exists and [p] is at least its price.  A marketable
    order with [p * s < 1] makes the call fail with the notional error;
    every other order is returned, at price [p], with the size rounded
    and with that very answer as its [isMarketable]. *)
Theorem marketable_notional_floor book args p s ask :
  budget_size book args = Ok (p, s, ask) ->
  (exists bid, _best_bid_ask book = Ok (bid, ask)) /\
  exists m,
    (m = true <->
     exists a ka, ask = Some a /\ price_key a = Ok ka /\ (ka <=? p) = true) /\
    if m && (p * s <? 1)
    then sizeByBudget book args = Raise (ValueError (NotionalBelowMinimum (p * s)))
    else sizeByBudget book args = Ok (SizedOrder.mk p (py_round6 s) m).
Proof.
  intros Hs.
  assert (Hquotes : exists bid, _best_bid_ask book = Ok (bid, ask)).
  { unfold budget_size in Hs.
    apply rbind_ok_inv in Hs. destruct Hs as ([bid ask'] & Hq & Hs). simpl in Hs.
    apply rbind_ok_inv in Hs. destruct Hs as (limit & _ & Hs).
    apply rbind_ok_inv in Hs. destruct Hs as (price & _ & Hs).
    apply rbind_ok_inv in Hs. destruct Hs as (cap & _ & Hs).
    destruct (cap <=? 0); [discriminate|].
    apply rbind_ok_inv in Hs. destruct Hs as (min_size & _ & Hs).
    apply rbind_ok_inv in Hs. destruct Hs as (size & _ & Hs).
    apply rbind_ok_inv in Hs. destruct Hs as (size' & _ & Hs).
    exists bid. congruence. }
  split; [exact Hquotes|]. destruct Hquotes as (bid & Hquotes).
  assert (Hm : exists m,
             is_marketable ask p = Ok m /\
             (m = true <->
              exists a ka, ask = Some a /\ price_key a = Ok ka /\ (ka <=? p) = true)).
  { unfold is_marketable. destruct ask as [a|].
    - destruct (@best_ask_key book bid a Hquotes) as (ka & Hka).
      fold (price_key a). rewrite Hka. simpl. exists (ka <=? p).
      split; [reflexivity|]. split.
      + intros H. now exists a, ka.
      + intros (a' & ka' & Ha & Hka' & Hle). congruence.
    - exists false. split; [reflexivity|]. split; [discriminate|].
      intros (a & ka & Ha & _). discriminate. }
  destruct Hm as (m & Hm & Hiff). exists m. split; [exact Hiff|].
  rewrite (sizeByBudget_sized book args Hs Hm).
  destruct (m && (p * s <? 1)); reflexivity.
Qed.

Lemma marketable_notional_floor_witness :
  (budget_size thin_book (at_best_ask 0.57) = Ok (0.038, 15, Some (level 0.038 100)) /\
   sizeByBudget thin_book (at_best_ask 0.57)
     = Raise (ValueError (NotionalBelowMinimum (0.038 * 15)))) /\
  (budget_size half_book (at_limit 10 0.5) = Ok (0.5, 20, Some (level 0.5 100)) /\
   sizeByBudget half_book (at_limit 10 0.5) = Ok (SizedOrder.mk 0.5 20 true)) /\
  (budget_size sample_book (at_limit 10 0.4) = Ok (0.4, 25, Some (level 0.53 20)) /\
   sizeByBudget sample_book (at_limit 10 0.4) = Ok (SizedOrder.mk 0.4 25 false)).
Proof.
  split; [|split].
  - split; [vm_compute; reflexivity|].
    destruct (@marketable_notional_floor thin_book (at_best_ask 0.57)
                0.038 15 (Some (level 0.038 100)) ltac:(vm_compute; reflexivity))
      as (_ & m & Hiff & Hrun).
    assert (Hm : m = true).
    { apply Hiff. exists (level 0.038 100), 0.038.
      repeat split; vm_compute; reflexivity. }
    subst m. exact Hrun.
  - split; [vm_compute; reflexivity|].
    destruct (@marketable_notional_floor half_book (at_limit 10 0.5)
                0.5 20 (Some (level 0.5 100)) ltac:(vm_compute; reflexivity))
      as (_ & m & Hiff & Hrun).
    assert (Hm : m = true).
    { apply Hiff. exists (level 0.5 100), 0.5.
      repeat split; vm_compute; reflexivity. }
    subst m. exact Hrun.
  - split; [vm_compute; reflexivity|].
    destruct (@marketable_notional_floor sample_book (at_limit 10 0.4)
                0.4 25 (Some (level 0.53 20)) ltac:(vm_compute; reflexivity))
      as (_ & m & Hiff & Hrun).
    assert (Hm : m = false).
    { destruct m; [|reflexivity]. destruct (proj1 Hiff eq_refl) as (a & ka & Ha & Hka & Hle).
      injection Ha as <-. vm_compute in Hka.
      apply (f_equal (fun r => match r with Ok k => (k <=? 0.4) | Raise _ => false end)) in Hka.
      rewrite Hle in Hka. vm_compute in Hka. discriminate Hka. }
    subst m. exact Hrun.
Defined.

(** *** The spec's examples *)

Example empty_book_has_no_quotes : _best_bid_ask empty_book = Ok (None, None).
Proof. reflexivity. Qed.

(** [maxUsd = 10], [price = 0.50], no minimum size: size 20. *)
Example budget_of_ten_at_half :
  sizeByBudget half_book (at_limit 10 0.5) = Ok (SizedOrder.mk 0.5 20 true).
Proof. vm_compute. reflexivity. Qed.

(** [maxUsd = 0.40], [price = 0.50], minimum size 5: the minimum costs 2.5. *)
Example budget_below_minimum_size :
  sizeByBudget sample_book (at_limit 0.40 0.5)
    = Raise (ValueError (MaxUsdTooLow 2.5 0.5)).
Proof. vm_compute. reflexivity. Qed.

(** A marketable price with [maxUsd = 0.5], [price = 0.5]: notional 0.5. *)
Example notional_below_one :
  sizeByBudget half_book (at_limit 0.5 0.5)
    = Raise (ValueError (NotionalBelowMinimum 0.5)).
Proof. vm_compute. reflexivity. Qed.

(** ** The commands *)

Section CommandFacts.
Variables state signed_order response : Type.
Variable client : ClobClient state signed_order response.

Lemma preflight_warns s r s1 e :
  get_balance_allowance client collateral_params s = (r, s1) ->
  preflight_outcome r = Raise e ->
  preflight client s
    = (Ok tt, s1, [CallGetBalanceAllowance collateral_params;
                   Stderr (PreflightWarning e)]).
Proof.
  intros Hget Hout. unfold preflight, try_except, bind, _get_balance_allowance, call.
  fold collateral_params. rewrite Hget.
  destruct r as [bal|e']; simpl in Hout.
  - unfold lift. rewrite Hout. reflexivity.
  - injection Hout as ->. reflexivity.
Qed.

Lemma place_order_trace order_args s :
  exists rest,
    trace (place_order client order_args) s = CallCreateOrder order_args :: rest /\
    forall signed s2,
      create_order client order_args s = (Ok signed, s2) ->
      exists rest', rest = CallPostOrder signed GTC :: rest'.
Proof.
  unfold trace, place_order, bind, call, emit.
  destruct (create_order client order_args s) as [[signed|e] s2].
  - destruct (post_order client signed GTC s2) as [[resp|e] s3]; simpl;
      eexists; (split; [reflexivity|]); intros signed' s2' H;
      injection H as <- <-; eexists; reflexivity.
  - simpl. eexists. split; [reflexivity|]. discriminate.
Qed.
(** The preflight never raises: its handler catches everything. *)
Lemma preflight_total s :
  exists s1 t, preflight client s = (Ok tt, s1, t).
Proof.
  unfold preflight, try_except, bind, _get_balance_allowance, call, lift, emit.
  destruct (get_balance_allowance client _ s) as [[bal|e] s1]; simpl.
  - destruct (preflight_check bal) as [[]|e]; simpl; eauto.
  - eauto.
Qed.

(** [cmd_buy_max] sizes its order by [sizeByBudget]: a sizing error is
    the only thing printed, and otherwise the order created after the
    preflight carries the price and the rounded size. *)
Lemma cmd_buy_max_sizes_by_budget args s0 book s :
  get_order_book client (BuyMaxArgs.token_id args) s0 = (Ok book, s) ->
  match sizeByBudget book args with
  | Raise e =>
      cmd_buy_max client args s0
        = (Ok tt, s, [CallGetOrderBook (BuyMaxArgs.token_id args);
                      Stderr (ErrorPlacingBuyMax e)])
  | Ok sized =>
      exists rest,
        trace (cmd_buy_max client args) s0
          = CallGetOrderBook (BuyMaxArgs.token_id args)
            :: trace (preflight client) s
            ++ CallCreateOrder
                 (OrderArgs.mk (SizedOrder.price sized) (SizedOrder.size sized) BUY
                    (BuyMaxArgs.token_id args))
            :: rest
  end.
Proof.
  intros Hbook. unfold sizeByBudget.
  destruct (buy_max_sizing book args) as [[[price size] m]|e] eqn:Hsized; simpl.
  - destruct (preflight_total s) as (s1 & t & Hpre).
    destruct (place_order_trace (OrderArgs.mk price (py_round6 size) BUY
                                   (BuyMaxArgs.token_id args)) s1)
      as (rest & Htrace & _).
    unfold trace in *. unfold cmd_buy_max, try_except, bind, lift, emit, call.
    rewrite Hbook, Hsized. simpl. rewrite Hpre. simpl.
    destruct (place_order client _ s1) as [[[u|e'] s2] t2]; simpl in *; subst t2.
    + exists rest. reflexivity.
    + exists (rest ++ [Stderr (ErrorPlacingBuyMax e')]).
      rewrite <- app_assoc. reflexivity.
  - unfold cmd_buy_max, try_except, bind, lift, emit, call.
    rewrite Hbook, Hsized. reflexivity.
Qed.

(** C8. When the preflight fails, whether the balance query raises or
    the check on its answer does, [buy] and [buy-max] print one warning
    on standard error and go on: the next event is the creation of the
    order that was asked for, and once it is signed it is posted. *)
Theorem failed_preflight_does_not_block s r s1 e :
  get_balance_allowance client collateral_params s = (r, s1) ->
  preflight_outcome r = Raise e ->
  (forall args price size,
     BuyArgs.price args = Numeral price ->
     BuyArgs.size args = Numeral size ->
     exists rest,
       trace (cmd_buy client args) s
         = CallGetBalanceAllowance collateral_params
           :: Stderr (PreflightWarning e)
           :: CallCreateOrder (OrderArgs.mk price size BUY (BuyArgs.token_id args))
           :: rest /\
       forall signed s2,
         create_order client
           (OrderArgs.mk price size BUY (BuyArgs.token_id args)) s1 = (Ok signed, s2) ->
         exists rest', rest = CallPostOrder signed GTC :: rest') /\
  (forall args s0 book price size m,
     get_order_book client (BuyMaxArgs.token_id args) s0 = (Ok book, s) ->
     buy_max_sizing book args = Ok (price, size, m) ->
     exists rest,
       trace (cmd_buy_max client args) s0
         = CallGetOrderBook (BuyMaxArgs.token_id args)
           :: CallGetBalanceAllowance collateral_params
           :: Stderr (PreflightWarning e)
           :: CallCreateOrder
                (OrderArgs.mk price (py_round6 size) BUY (BuyMaxArgs.token_id args))
           :: rest /\
       forall signed s2,
         create_order client
           (OrderArgs.mk price (py_round6 size) BUY (BuyMaxArgs.token_id args)) s1
           = (Ok signed, s2) ->
         exists rest', rest = CallPostOrder signed GTC :: rest').
Proof.
  intros Hget Hout. pose proof (preflight_warns s Hget Hout) as Hpre. split.
  - intros args price size Hp Hs.
    destruct (place_order_trace (OrderArgs.mk price size BUY (BuyArgs.token_id args)) s1)
      as (rest & Htrace & Hpost).
    unfold trace in *. unfold cmd_buy, try_except, bind, lift, emit.
    rewrite Hp, Hs. simpl. rewrite Hpre.
    destruct (place_order client _ s1) as [[[u|e'] s2] t]; simpl in *; subst t.
    + exists rest. split; [reflexivity|assumption].
    + exists (rest ++ [Stderr (ErrorPlacingBuy e')]). split; [reflexivity|].
      intros signed s3 H. destruct (Hpost signed s3 H) as (rest' & ->).
      eexists. reflexivity.
  - intros args s0 book price size m Hbook Hsized.
    destruct (place_order_trace
                (OrderArgs.mk price (py_round6 size) BUY (BuyMaxArgs.token_id args)) s1)
      as (rest & Htrace & Hpost).
    unfold trace in *. unfold cmd_buy_max, try_except, bind, lift, emit, call.
    rewrite Hbook, Hsized. simpl. rewrite Hpre.
    destruct (place_order client _ s1) as [[[u|e'] s2] t]; simpl in *; subst t.
    + exists rest. split; [reflexivity|assumption].
    + exists (rest ++ [Stderr (ErrorPlacingBuyMax e')]). split; [reflexivity|].
      intros signed s3 H. destruct (Hpost signed s3 H) as (rest' & ->).
      eexists. reflexivity.
Qed.
End CommandFacts.

Lemma failed_preflight_does_not_block_witness :
  get_balance_allowance (sample_client false unfunded unfunded) collateral_params false
    = (Ok unfunded, false) /\
  preflight_outcome (Ok unfunded) = Raise (ValueError InsufficientBalanceAllowance) /\
  exists rest,
    trace (cmd_buy (sample_client false unfunded unfunded)
             (BuyArgs.mk "TOKEN" (Numeral 10) (Numeral 0.5))) false
      = CallGetBalanceAllowance collateral_params
        :: Stderr (PreflightWarning (ValueError InsufficientBalanceAllowance))
        :: CallCreateOrder (OrderArgs.mk 0.5 10 BUY "TOKEN")
        :: rest /\
    forall signed s2,
      create_order (sample_client false unfunded unfunded)
        (OrderArgs.mk 0.5 10 BUY "TOKEN") false = (Ok signed, s2) ->
      exists rest', rest = CallPostOrder signed GTC :: rest'.
Proof.
  split; [reflexivity|]. split; [vm_compute; reflexivity|].
  exact (proj1 (@failed_preflight_does_not_block _ _ _
                  (sample_client false unfunded unfunded) false (Ok unfunded) false
                  (ValueError InsufficientBalanceAllowance) eq_refl eq_refl)
           (BuyArgs.mk "TOKEN" (Numeral 10) (Numeral 0.5)) 0.5 10 eq_refl eq_refl).
Defined.

(** The whole run of [buy TOKEN 10 0.5] on an account without funds. *)
Example cmd_buy_unfunded_run :
  trace (cmd_buy (sample_client false unfunded unfunded)
           (BuyArgs.mk "TOKEN" (Numeral 10) (Numeral 0.5))) false
  = [CallGetBalanceAllowance collateral_params;
     Stderr (PreflightWarning (ValueError InsufficientBalanceAllowance));
     CallCreateOrder (OrderArgs.mk 0.5 10 BUY "TOKEN");
     CallPostOrder (OrderArgs.mk 0.5 10 BUY "TOKEN") GTC;
     Stdout (OutResponse "posted"%string)].
Proof. vm_compute. reflexivity. Qed.

(** The whole run of [buy-max TOKEN 2 --price 0.3] on the same account. *)
Example cmd_buy_max_unfunded_run :
  trace (cmd_buy_max (sample_client false unfunded unfunded) (at_limit 2 0.3)) false
  = [CallGetOrderBook "TOKEN";
     CallGetBalanceAllowance collateral_params;
     Stderr (PreflightWarning (ValueError InsufficientBalanceAllowance));
     CallCreateOrder (OrderArgs.mk 0.3 6.666667 BUY "TOKEN");
     CallPostOrder (OrderArgs.mk 0.3 6.666667 BUY "TOKEN") GTC;
     Stdout (OutResponse "posted"%string)].
Proof. vm_compute. reflexivity. Qed.

(** *** [cmd_diagnose] *)

Section DiagnoseFacts.
Variables state signed_order response : Type.
Variable client : ClobClient state signed_order response.
Variable rpc : option string.


Lemma printed_reports_app (t1 t2 : list (event signed_order response)) :
  printed_reports (t1 ++ t2) = printed_reports t1 ++ printed_reports t2.
Proof. unfold printed_reports. apply flat_map_app. Qed.

Lemma printed_reports_cons (ev : event signed_order response) t :
  printed_reports (ev :: t) = printed_reports [ev] ++ printed_reports t.
Proof. apply (printed_reports_app [ev] t). Qed.

(** Reduce a trace to its pieces, then each piece to the reports in it. *)
Ltac reports_simpl :=
  cbn -[printed_reports];
  repeat first
    [ rewrite printed_reports_app
    | match goal with
      | |- context [printed_reports (?ev :: ?t)] =>
          lazymatch t with
          | [] => fail
          | _ => rewrite (printed_reports_cons ev t)
          end
      end ];
  repeat match goal with
         | H : printed_reports ?t = [] |- _ => rewrite H
         end;
  cbn.

Lemma trace_bind {A B} (m : M state signed_order response A)
    (k : A -> M state signed_order response B) s :
  trace (bind m k) s
    = trace m s ++ match m s with
                   | (Ok a, s', _) => trace (k a) s'
                   | (Raise _, _, _) => []
                   end.
Proof.
  unfold trace, bind. destruct (m s) as [[[a|e] s'] t]; simpl.
  - destruct (k a s') as [[r s''] t']. reflexivity.
  - now rewrite app_nil_r.
Qed.

Lemma reports_try_except (m : M state signed_order response unit)
    (h : exn -> stderr_line) s :
  printed_reports (trace (try_except m (fun e => emit (Stderr (h e)))) s)
    = printed_reports (trace m s).
Proof.
  unfold trace, try_except, emit.
  destruct (m s) as [[[a|e] s'] t]; simpl; [reflexivity|].
  rewrite printed_reports_app. simpl. now rewrite app_nil_r.
Qed.

(** No report is printed while the on-chain allowances are looked up,
    and the lookups always end with a dictionary. *)
Lemma onchain_lookups_silent rpc_url owner token spenders :
  forall onchain s,
    printed_reports (trace (onchain_lookups client rpc_url owner token spenders onchain) s) = [] /\
    exists d, fst (fst (onchain_lookups client rpc_url owner token spenders onchain s)) = Ok d.
Proof.
  induction spenders as [|spender rest IH]; intros onchain s.
  - simpl. split; [reflexivity|]. eexists. reflexivity.
  - unfold trace. simpl.
    unfold bind at 1. unfold try_except, bind, _rpc_allowance, call, ret.
    destruct (eth_allowance client rpc_url owner spender token s) as [[n|e] s1]; simpl.
    + destruct (IH (dict_set spender (OnInt n) onchain) s1) as (Ht & d & Hd).
      unfold trace in Ht.
      destruct (onchain_lookups client rpc_url owner token rest
                  (dict_set spender (OnInt n) onchain) s1) as [[r s2] t].
      simpl in *. split; [assumption|]. exists d. assumption.
    + destruct (IH (dict_set spender (OnError e) onchain) s1) as (Ht & d & Hd).
      unfold trace in Ht.
      destruct (onchain_lookups client rpc_url owner token rest
                  (dict_set spender (OnError e) onchain) s1) as [[r s2] t].
      simpl in *. split; [assumption|]. exists d. assumption.
Qed.

(** Every report printed by lines 452-497 has the two keys under [--fix]
    and neither of them without. *)
Lemma diagnose_report_keys args who s d :
  In d (printed_reports (trace (diagnose_report client rpc args who) s)) ->
  dict_mem "recommendations" d = DiagnoseArgs.fix_ args /\
  dict_mem "next_steps" d = DiagnoseArgs.fix_ args.
Proof.
  unfold trace, diagnose_report.
  unfold bind at 1. unfold _get_balance_allowance, call.
  destruct (get_balance_allowance client _ s) as [[bal|e] s1]; [|simpl; tauto].
  destruct (DiagnoseArgs.onchain args).
  - unfold bind at 1. unfold bind at 1.
    match goal with
    | |- context [onchain_lookups client ?u ?o ?t ?sp ?acc s1] =>
        destruct (onchain_lookups_silent u o t sp acc s1) as (Hsilent & looked & Hlooked);
        unfold trace in Hsilent;
        destruct (onchain_lookups client u o t sp acc s1) as [[r s2] tl]
    end.
    simpl in Hsilent, Hlooked. subst r.
    destruct (DiagnoseArgs.fix_ args).
    + unfold bind, lift, ret, emit.
      destruct (py_float (or_zero (get_balance bal))) as [balance|e];
        [|reports_simpl; tauto].
      destruct (_max_allowance (BalanceAllowance.allowances bal)) as [max_allow|e];
        [|reports_simpl; tauto].
      destruct (recommendations _ _ _ _ _) as [recs steps].
      reports_simpl. intros [<-|[]]. split; reflexivity.
    + unfold bind, ret, emit.
      reports_simpl. intros [<-|[]]. split; reflexivity.
  - destruct (DiagnoseArgs.fix_ args).
    + unfold bind, lift, ret, emit.
      destruct (py_float (or_zero (get_balance bal))) as [balance|e];
        [|reports_simpl; tauto].
      destruct (_max_allowance (BalanceAllowance.allowances bal)) as [max_allow|e];
        [|reports_simpl; tauto].
      destruct (recommendations _ _ _ _ _) as [recs steps].
      reports_simpl. intros [<-|[]]. split; reflexivity.
    + unfold bind, ret, emit.
      reports_simpl. intros [<-|[]]. split; reflexivity.
Qed.
Lemma whoami_silent s : printed_reports (trace (whoami client) s) = [].
Proof.
  unfold trace, whoami, bind, call, ret.
  destruct (get_address client s) as [[address|e] s1]; [|reflexivity].
  destruct (get_collateral_address client s1) as [[collateral|e] s2]; [|reflexivity].
  destruct (get_exchange_address client s2) as [[exchange|e] s3]; reflexivity.
Qed.

(** The refresh attempt never raises, and leaves the state its call to
    the client leaves. *)
Lemma refresh_attempt_run args s :
  refresh_attempt client args s =
    if DiagnoseArgs.fix_ args
    then (Ok tt,
          snd (update_balance_allowance client BalanceAllowanceParams.default s),
          [CallUpdateBalanceAllowance BalanceAllowanceParams.default])
    else (Ok tt, s, []).
Proof.
  unfold refresh_attempt. destruct (DiagnoseArgs.fix_ args); [|reflexivity].
  unfold try_except, bind, call, ret.
  destruct (update_balance_allowance client BalanceAllowanceParams.default s)
    as [[resp|e] s1]; reflexivity.
Qed.

Lemma max_int_positive l :
  forall n, (0 <? max_int n l)%Z = existsb (fun k => (0 <? k)%Z) (n :: l).
Proof.
  unfold max_int. induction l as [|x l IH]; intros n.
  - simpl. now rewrite orb_false_r.
  - cbn [fold_left]. rewrite IH. cbn [existsb]. rewrite orb_assoc. f_equal.
    destruct (Z.ltb_spec 0 (Z.max n x)), (Z.ltb_spec 0 n), (Z.ltb_spec 0 x);
      try reflexivity; lia.
Qed.

(** The two lists of lines 469-493 are those of [advice]. *)
Lemma recommendations_advice args who balance max_allow diag :
  recommendations args who balance max_allow diag
    = (map fst (advice args who balance max_allow diag),
       map snd (advice args who balance max_allow diag)).
Proof.
  unfold recommendations, advice, positive_onchain, dict_mem.
  destruct (DiagnoseArgs.onchain args), (balance <=? 0), (max_allow <=? 0);
    cbn [andb app map fst snd];
    try reflexivity;
    destruct (dict_get "onchain_allowances" diag) as [[w|b|d|l]|];
    cbn [andb app map fst snd]; try reflexivity;
    destruct (int_values (dict_values d)) as [|n vals] eqn:Hvals;
    try reflexivity;
    try (rewrite max_int_positive;
         destruct (existsb (fun k => (0 <? k)%Z) (n :: vals)); reflexivity).
Qed.

(** The report of lines 452-497 once the balance query has answered:
    the report before [--fix] adds to it, and what is printed. *)
Lemma diagnose_report_printed args who s2 bal s3 :
  get_balance_allowance client collateral_params s2 = (Ok bal, s3) ->
  exists diag,
    (if DiagnoseArgs.onchain args
     then exists looked_up s4 t,
            onchain_lookups client (lookup_rpc_url rpc) (lookup_owner who)
              (Who.collateral who) (lookup_spenders who bal) [] s3
              = (Ok looked_up, s4, t) /\
            diag = dict_set "onchain_allowances" (ROnchain looked_up)
                     (base_report who bal)
     else diag = base_report who bal) /\
    (if DiagnoseArgs.fix_ args
     then forall balance max_allow,
            py_float (or_zero (get_balance bal)) = Ok balance ->
            _max_allowance (BalanceAllowance.allowances bal) = Ok max_allow ->
            printed_reports (trace (diagnose_report client rpc args who) s2)
              = [dict_set "next_steps"
                   (RStrings (map snd (advice args who balance max_allow diag)))
                   (dict_set "recommendations"
                      (RStrings (map fst (advice args who balance max_allow diag)))
                      diag)]
     else printed_reports (trace (diagnose_report client rpc args who) s2) = [diag]).
Proof.
  intros Hget.
  destruct (onchain_lookups_silent (lookup_rpc_url rpc) (lookup_owner who)
              (Who.collateral who) (lookup_spenders who bal) [] s3)
    as (Hsilent & looked & Hlooked).
  unfold trace in Hsilent.
  destruct (onchain_lookups client (lookup_rpc_url rpc) (lookup_owner who)
              (Who.collateral who) (lookup_spenders who bal) [] s3)
    as [[r s4] tl] eqn:Hrun.
  simpl in Hsilent, Hlooked. subst r.
  destruct (DiagnoseArgs.onchain args) eqn:Hon.
  - exists (dict_set "onchain_allowances" (ROnchain looked) (base_report who bal)).
    split; [exists looked, s4, tl; split; reflexivity|].
    unfold lookup_rpc_url, lookup_owner, lookup_spenders in Hrun.
    destruct (DiagnoseArgs.fix_ args) eqn:Hfix.
    + intros balance max_allow Hbal Hmax.
      unfold trace, diagnose_report, bind, lift, ret, emit, _get_balance_allowance, call.
      fold collateral_params. rewrite Hget, Hon, Hfix. cbv beta iota zeta.
      rewrite Hrun. cbv beta iota zeta. rewrite Hbal, Hmax. cbv beta iota zeta.
      change [("whoami"%string, RWho who); ("balance_allowance"%string, RBalance bal)]
        with (base_report who bal).
      rewrite recommendations_advice. cbv beta iota zeta. cbn [snd].
      rewrite !printed_reports_app, Hsilent. reflexivity.
    + unfold trace, diagnose_report, bind, lift, ret, emit, _get_balance_allowance, call.
      fold collateral_params. rewrite Hget, Hon, Hfix. cbv beta iota zeta.
      rewrite Hrun. cbv beta iota zeta. cbn [snd].
      rewrite !printed_reports_app, Hsilent. reflexivity.
  - exists (base_report who bal). split; [reflexivity|].
    destruct (DiagnoseArgs.fix_ args) eqn:Hfix.
    + intros balance max_allow Hbal Hmax.
      unfold trace, diagnose_report, bind, lift, ret, emit, _get_balance_allowance, call.
      fold collateral_params. rewrite Hget, Hon, Hfix. cbv beta iota zeta.
      rewrite Hbal, Hmax. cbv beta iota zeta.
      change [("whoami"%string, RWho who); ("balance_allowance"%string, RBalance bal)]
        with (base_report who bal).
      rewrite recommendations_advice. reflexivity.
    + unfold trace, diagnose_report, bind, lift, ret, emit, _get_balance_allowance, call.
      fold collateral_params. rewrite Hget, Hon, Hfix. reflexivity.
Qed.

(** The reports of a run are those of lines 452-497 from the state the
    refresh attempt leaves. *)
Lemma reports_after_refresh args s who s1 t_who :
  whoami client s = (Ok who, s1, t_who) ->
  printed_reports (trace (cmd_diagnose client rpc args) s)
    = printed_reports
        (trace (diagnose_report client rpc args who)
           (if DiagnoseArgs.fix_ args
            then snd (update_balance_allowance client BalanceAllowanceParams.default s1)
            else s1)).
Proof.
  intros Hwho. unfold cmd_diagnose. rewrite reports_try_except.
  rewrite trace_bind, printed_reports_app, whoami_silent. rewrite Hwho. cbn [app].
  rewrite trace_bind, printed_reports_app.
  unfold trace at 1. rewrite refresh_attempt_run.
  destruct (DiagnoseArgs.fix_ args); reflexivity.
Qed.

(** C10. A report printed by [diagnose] has the keys "recommendations"
    and "next_steps" if and only if [--fix] is given.  Every report a
    run prints has both keys under [--fix] and neither without; and a
    run does print one: without [--fix] as soon as the identity and the
    balance are read, whatever the balance and the allowances are, since
    no rule looks at them; under [--fix] when, besides, the balance and
    the allowances are numbers. *)
Theorem recommendations_only_with_fix args s :
  (forall d,
     In d (printed_reports (trace (cmd_diagnose client rpc args) s)) ->
     dict_mem "recommendations" d = DiagnoseArgs.fix_ args /\
     dict_mem "next_steps" d = DiagnoseArgs.fix_ args) /\
  (forall who s1 t_who bal s3,
     whoami client s = (Ok who, s1, t_who) ->
     get_balance_allowance client collateral_params
       (if DiagnoseArgs.fix_ args
        then snd (update_balance_allowance client BalanceAllowanceParams.default s1)
        else s1) = (Ok bal, s3) ->
     (DiagnoseArgs.fix_ args = true ->
      exists balance max_allow,
        py_float (or_zero (get_balance bal)) = Ok balance /\
        _max_allowance (BalanceAllowance.allowances bal) = Ok max_allow) ->
     exists d,
       printed_reports (trace (cmd_diagnose client rpc args) s) = [d] /\
       dict_get "balance_allowance" d = Some (RBalance bal) /\
       dict_mem "recommendations" d = DiagnoseArgs.fix_ args /\
       dict_mem "next_steps" d = DiagnoseArgs.fix_ args).
Proof.
  assert (Hkeys : forall d,
             In d (printed_reports (trace (cmd_diagnose client rpc args) s)) ->
             dict_mem "recommendations" d = DiagnoseArgs.fix_ args /\
             dict_mem "next_steps" d = DiagnoseArgs.fix_ args).
  { intros d. unfold cmd_diagnose. rewrite reports_try_except.
    rewrite trace_bind, printed_reports_app, whoami_silent. simpl.
    destruct (whoami client s) as [[[who|e] s1] t]; [|intros []].
    rewrite trace_bind, printed_reports_app.
    unfold trace at 1. rewrite refresh_attempt_run.
    intros H.
    assert (Hd : exists s2,
               In d (printed_reports (trace (diagnose_report client rpc args who) s2))).
    { revert H. destruct (DiagnoseArgs.fix_ args); simpl; intros H; eexists; exact H. }
    destruct Hd as (s2 & Hd). now apply diagnose_report_keys with who s2. }
  split; [exact Hkeys|].
  intros who s1 t_who bal s3 Hwho Hget Hnum.
  assert (Hone : exists d,
             printed_reports (trace (cmd_diagnose client rpc args) s) = [d] /\
             dict_get "balance_allowance" d = Some (RBalance bal)).
  { rewrite (reports_after_refresh args s Hwho).
    destruct (diagnose_report_printed args who _ Hget) as (diag & Hdiag & Hprint).
    assert (Hbal : dict_get "balance_allowance" diag = Some (RBalance bal)).
    { destruct (DiagnoseArgs.onchain args).
      - destruct Hdiag as (looked & s4 & t & _ & ->). reflexivity.
      - subst diag. reflexivity. }
    destruct (DiagnoseArgs.fix_ args).
    - destruct (Hnum eq_refl) as (balance & max_allow & Hb & Hm).
      rewrite (Hprint balance max_allow Hb Hm). eexists. split; [reflexivity|].
      destruct (DiagnoseArgs.onchain args).
      + destruct Hdiag as (looked & s4 & t & _ & ->). reflexivity.
      + subst diag. reflexivity.
    - rewrite Hprint. now exists diag. }
  destruct Hone as (d & Hd & Hbal). exists d.
  split; [exact Hd|]. split; [exact Hbal|].
  apply Hkeys. rewrite Hd. now left.
Qed.

(** The run of [diagnose --fix] after [who] is built: the refresh call,
    then the report from the state that call leaves, whatever it answers. *)
Lemma cmd_diagnose_fix_run args s who s1 t_who :
  DiagnoseArgs.fix_ args = true ->
  whoami client s = (Ok who, s1, t_who) ->
  cmd_diagnose client rpc args s =
    let '(r', s3, t) :=
      report_or_error client rpc args who
        (snd (update_balance_allowance client BalanceAllowanceParams.default s1)) in
    (r', s3, t_who ++ CallUpdateBalanceAllowance BalanceAllowanceParams.default :: t).
Proof.
  intros Hfix Hwho. unfold cmd_diagnose, report_or_error, try_except.
  unfold bind at 1. rewrite Hwho.
  unfold bind at 1. rewrite refresh_attempt_run, Hfix.
  destruct (diagnose_report client rpc args who _) as [[[u|e] s3] t]; simpl.
  - reflexivity.
  - rewrite <- app_assoc. reflexivity.
Qed.

(** C3. Under [--fix] the refresh is attempted first and the snapshot
    is fetched afterwards, from the state the refresh call leaves: the
    rest of the run does not depend on what that call answered.  With
    or without on-chain lookups, the report printed is the report built
    on the snapshot fetched after the refresh, and its recommendations
    and next steps are the ones that the balance and the largest
    allowance of that snapshot call for. *)
Theorem recommendations_follow_refresh args s who s1 t_who r s2 :
  DiagnoseArgs.fix_ args = true ->
  whoami client s = (Ok who, s1, t_who) ->
  update_balance_allowance client BalanceAllowanceParams.default s1 = (r, s2) ->
  cmd_diagnose client rpc args s =
    (let '(r', s3, t) := report_or_error client rpc args who s2 in
     (r', s3, t_who ++ CallUpdateBalanceAllowance BalanceAllowanceParams.default :: t)) /\
  (forall bal s3 balance max_allow,
     get_balance_allowance client collateral_params s2 = (Ok bal, s3) ->
     py_float (or_zero (get_balance bal)) = Ok balance ->
     _max_allowance (BalanceAllowance.allowances bal) = Ok max_allow ->
     exists diag,
       (if DiagnoseArgs.onchain args
        then exists looked_up s4 t,
               onchain_lookups client (lookup_rpc_url rpc) (lookup_owner who)
                 (Who.collateral who) (lookup_spenders who bal) [] s3
                 = (Ok looked_up, s4, t) /\
               diag = dict_set "onchain_allowances" (ROnchain looked_up)
                        (base_report who bal)
        else diag = base_report who bal) /\
       printed_reports (trace (cmd_diagnose client rpc args) s)
         = [dict_set "next_steps"
              (RStrings (map snd (advice args who balance max_allow diag)))
              (dict_set "recommendations"
                 (RStrings (map fst (advice args who balance max_allow diag)))
                 diag)]).
Proof.
  intros Hfix Hwho Hupd.
  pose proof (cmd_diagnose_fix_run args s Hfix Hwho) as Hrun.
  rewrite Hupd in Hrun. simpl in Hrun. split; [assumption|].
  intros bal s3 balance max_allow Hget Hbal Hmax.
  rewrite (reports_after_refresh args s Hwho), Hfix, Hupd. cbn [snd].
  destruct (diagnose_report_printed args who s2 Hget) as (diag & Hdiag & Hprint).
  rewrite Hfix in Hprint. exists diag. split; [exact Hdiag|].
  exact (Hprint balance max_allow Hbal Hmax).
Qed.
End DiagnoseFacts.

Lemma recommendations_follow_refresh_witness :
  (update_balance_allowance (approved_client true) BalanceAllowanceParams.default false
     = (Ok "refreshed"%string, true) /\
   get_balance_allowance (approved_client true) collateral_params true
     = (Ok (funded 1000000), true) /\
   printed_reports (trace (cmd_diagnose (approved_client true) None diagnose_fix) false)
     = [base_report sample_who (funded 1000000)
        ++ [("recommendations"%string, RStrings []);
            ("next_steps"%string, RStrings [])]]) /\
  (update_balance_allowance (approved_client false) BalanceAllowanceParams.default false
     = (Raise (ClientError "503"), false) /\
   get_balance_allowance (approved_client false) collateral_params false
     = (Ok (funded 0), false) /\
   printed_reports
     (trace (cmd_diagnose (approved_client false) None (DiagnoseArgs.mk true true)) false)
     = [base_report sample_who (funded 0)
        ++ [("onchain_allowances"%string,
             ROnchain [("0xExchange"%string, OnInt 1000000)]);
            ("recommendations"%string,
             RStrings [rec_approve "0xExchange"; rec_refresh]);
            ("next_steps"%string,
             RStrings [step_approve "0xExchange"; step_refresh])]]).
Proof.
  split.
  - split; [reflexivity|]. split; [reflexivity|].
    destruct (proj2 (@recommendations_follow_refresh _ _ _ (approved_client true) None
                       diagnose_fix false sample_who false _ _ true
                       eq_refl eq_refl eq_refl)
                (funded 1000000) true 25000000 1000000 eq_refl eq_refl eq_refl)
      as (diag & Hdiag & Hprint).
    simpl in Hdiag. subst diag. rewrite Hprint. vm_compute. reflexivity.
  - split; [reflexivity|]. split; [reflexivity|].
    destruct (proj2 (@recommendations_follow_refresh _ _ _ (approved_client false) None
                       (DiagnoseArgs.mk true true) false sample_who false _ _ false
                       eq_refl eq_refl eq_refl)
                (funded 0) false 25000000 0 eq_refl eq_refl eq_refl)
      as (diag & Hdiag & Hprint).
    simpl in Hdiag. destruct Hdiag as (looked & s4 & t & Hlook & ->).
    apply (f_equal (fun x => match fst (fst x) with
                             | Ok d => d
                             | Raise _ => []
                             end)) in Hlook.
    vm_compute in Hlook. subst looked. rewrite Hprint. vm_compute. reflexivity.
Defined.

(** Two runs of [diagnose --fix] from the same state, on an exchange
    whose cached allowance is 0 before a refresh.  The snapshot before
    the refresh calls for the approval; the run whose refresh succeeds
    recommends nothing, the run whose refresh raises recommends the
    approval. *)
Lemma stale_snapshot_counterexample :
  get_balance_allowance (approved_client true) collateral_params false
    = (Ok (funded 0), false) /\
  fst (recommendations diagnose_fix sample_who 25000000 0
         (base_report sample_who (funded 0)))
    = [rec_approve "0xExchange"] /\
  recommended (trace (cmd_diagnose (approved_client true) None diagnose_fix) false)
    = [[]] /\
  recommended (trace (cmd_diagnose (approved_client false) None diagnose_fix) false)
    = [[rec_approve "0xExchange"]].
Proof.
  repeat split; vm_compute; reflexivity.
Qed.

Lemma recommendations_only_with_fix_witness :
  (printed_reports
     (trace (cmd_diagnose (sample_client false unfunded unfunded) None plain_diagnose)
        false)
     = [base_report sample_who unfunded] /\
   dict_mem "recommendations" (base_report sample_who unfunded) = false /\
   dict_mem "next_steps" (base_report sample_who unfunded) = false) /\
  (exists d,
     printed_reports
       (trace (cmd_diagnose (sample_client false unfunded unfunded) None diagnose_fix)
          false) = [d] /\
     dict_get "balance_allowance" d = Some (RBalance unfunded) /\
     dict_mem "recommendations" d = true /\
     dict_mem "next_steps" d = true).
Proof.
  split.
  - split; [reflexivity|].
    apply (proj1 (@recommendations_only_with_fix _ _ _
                    (sample_client false unfunded unfunded) None plain_diagnose false)
             (base_report sample_who unfunded)).
    left. reflexivity.
  - eapply (proj2 (@recommendations_only_with_fix _ _ _
                     (sample_client false unfunded unfunded) None diagnose_fix false)
              sample_who false _ unfunded false);
      [reflexivity|reflexivity|].
    intros _. exists 0, 0. split; reflexivity.
Defined.

(** [diagnose --fix] on the same account without funds: both rules fire. *)
Example cmd_diagnose_fix_unfunded_run :
  printed_reports
    (trace (cmd_diagnose (sample_client false unfunded unfunded) None diagnose_fix) false)
  = [base_report sample_who unfunded ++
     [("recommendations"%string,
       RStrings [rec_fund; rec_approve "0xExchange"]);
      ("next_steps"%string,
       RStrings [step_fund; step_approve "0xExchange"])]].
Proof. vm_compute. reflexivity. Qed.

(** * Further properties of the code *)

(** ** What a sized order satisfies *)

Lemma SFltb_irrefl a : SFltb a a = false.
Proof.
  unfold SFltb, SFcompare.
  destruct a as [[|]|[|]| |[|] ? ?]; try reflexivity; sf_cases.
Qed.

Lemma flt_irrefl a : (a <? a) = false.
Proof. rewrite FloatAxioms.ltb_spec. apply SFltb_irrefl. Qed.

Lemma budget_size_inv book args p s ask :
  budget_size book args = Ok (p, s, ask) ->
  exists bid limit cap min_size s0,
    _best_bid_ask book = Ok (bid, ask) /\
    limit_price (BuyMaxArgs.price args) = Ok limit /\
    effective_price limit ask = Ok p /\
    py_float (PStr (BuyMaxArgs.max_usd args)) = Ok cap /\
    (cap <=? 0) = false /\
    py_float (or_zero (OrderBook.min_order_size book)) = Ok min_size /\
    py_div cap p = Ok s0 /\
    apply_min_size cap p min_size s0 = Ok s.
Proof.
  unfold budget_size. intros Hs.
  apply rbind_ok_inv in Hs. destruct Hs as ([bid ask'] & Hq & Hs). simpl in Hs.
  apply rbind_ok_inv in Hs. destruct Hs as (limit & Hl & Hs).
  apply rbind_ok_inv in Hs. destruct Hs as (price & Hp & Hs).
  apply rbind_ok_inv in Hs. destruct Hs as (cap & Hc & Hs).
  destruct (cap <=? 0) eqn:Hcap; [discriminate|].
  apply rbind_ok_inv in Hs. destruct Hs as (min_size & Hmin & Hs).
  apply rbind_ok_inv in Hs. destruct Hs as (s0 & Hdiv & Hs).
  apply rbind_ok_inv in Hs. destruct Hs as (s' & Happ & Hs).
  assert (E : (price, s', ask') = (p, s, ask)) by congruence.
  assert (price = p) by (apply (f_equal (fun t => fst (fst t))) in E; exact E).
  assert (s' = s) by (apply (f_equal (fun t => snd (fst t))) in E; exact E).
  assert (ask' = ask) by (apply (f_equal snd) in E; exact E).
  subst. exists bid, limit, cap, min_size, s0. auto 10.
Qed.

(** X1. When the sizing of [buy-max] succeeds, the budget was not
    [<= 0], the price is not zero, the size is the rounding of a size
    that is not below a positive minimum order size, and a marketable
    order has a notional, before rounding, that is not below 1. *)
Theorem sized_order_respects_floors book args o :
  sizeByBudget book args = Ok o ->
  exists cap min_size s,
    py_float (PStr (BuyMaxArgs.max_usd args)) = Ok cap /\
    (cap <=? 0) = false /\
    (SizedOrder.price o =? 0) = false /\
    py_float (or_zero (OrderBook.min_order_size book)) = Ok min_size /\
    SizedOrder.size o = py_round6 s /\
    ((0 <? min_size) = true -> (s <? min_size) = false) /\
    (SizedOrder.isMarketable o = true -> (SizedOrder.price o * s <? 1) = false).
Proof.
  unfold sizeByBudget, buy_max_sizing. intros H.
  apply rbind_ok_inv in H. destruct H as ([[p s] m] & H & Ho).
  apply rbind_ok_inv in H. destruct H as ([[p' s'] ask] & Hb & H).
  apply rbind_ok_inv in H. destruct H as (m' & Hm & H).
  destruct (m' && (p' * s' <? 1)) eqn:Hfloor; [discriminate|].
  assert (E : (p', s', m') = (p, s, m)) by congruence.
  assert (p' = p) by (apply (f_equal (fun t => fst (fst t))) in E; exact E).
  assert (s' = s) by (apply (f_equal (fun t => snd (fst t))) in E; exact E).
  assert (m' = m) by (apply (f_equal snd) in E; exact E).
  subst p' s' m'. clear E.
  assert (Eo : o = SizedOrder.mk p (py_round6 s) m) by congruence. subst o.
  destruct (budget_size_inv _ _ Hb)
    as (bid & limit & cap & min_size & s0 & _ & _ & _ & Hc & Hcap & Hmin & Hdiv & Happ).
  exists cap, min_size, s. simpl.
  split; [assumption|]. split; [assumption|]. split.
  { unfold py_div in Hdiv. destruct (p =? 0); [discriminate|reflexivity]. }
  split; [assumption|]. split; [reflexivity|]. split.
  - intros Hpos. unfold apply_min_size in Happ. rewrite Hpos in Happ. simpl in Happ.
    destruct (s0 <? min_size) eqn:Hlt.
    + destruct (min_size * p <=? cap); [|discriminate].
      assert (s = min_size) by congruence. subst s. apply flt_irrefl.
    + assert (s = s0) by congruence. now subst s.
  - intros ->. exact Hfloor.
Qed.

Lemma sized_order_respects_floors_witness :
  sizeByBudget sample_book (at_limit 2 0.3) = Ok (SizedOrder.mk 0.3 6.666667 false) /\
  exists cap min_size s,
    py_float (PStr (BuyMaxArgs.max_usd (at_limit 2 0.3))) = Ok cap /\
    (cap <=? 0) = false /\
    (0.3 =? 0) = false /\
    py_float (or_zero (OrderBook.min_order_size sample_book)) = Ok min_size /\
    6.666667 = py_round6 s /\
    ((0 <? min_size) = true -> (s <? min_size) = false) /\
    (false = true -> (0.3 * s <? 1) = false).
Proof.
  split; [vm_compute; reflexivity|].
  apply (@sized_order_respects_floors sample_book (at_limit 2 0.3)
           (SizedOrder.mk 0.3 6.666667 false)).
  vm_compute; reflexivity.
Defined.

(** ** [_max_allowance] *)

Lemma max_float_loop_spec l :
  forall best,
    is_nan best = false ->
    forallb (fun v => match py_float v with
                      | Ok f => negb (is_nan f)
                      | Raise _ => false
                      end) l = true ->
    exists m,
      max_float_loop best l = Ok m /\ is_nan m = false /\ fle best m = true /\
      (m = best \/ exists v, In v l /\ py_float v = Ok m) /\
      forall v f, In v l -> py_float v = Ok f -> fle f m = true.
Proof.
  induction l as [|v l IH]; intros best Hbest Hl.
  - exists best. simpl. repeat split; auto using fle_refl; try (intros ? ? []).
  - simpl in Hl. apply andb_true_iff in Hl. destruct Hl as [Hv Hl].
    destruct (py_float v) as [f|e] eqn:Hf; [|discriminate].
    apply negb_true_iff in Hv. simpl. rewrite Hf. simpl.
    destruct (best <? f) eqn:Hlt.
    + destruct (IH f Hv Hl) as (m & Hm & Hn & Hfm & Hor & Hall).
      exists m. split; [assumption|]. split; [assumption|]. split.
      { apply fle_trans with f; [now apply flt_fle|assumption]. }
      split.
      { right. destruct Hor as [->|(w & Hw & Hwm)].
        - exists v. split; [now left|assumption].
        - exists w. split; [now right|assumption]. }
      intros w g [<-|Hw] Hg.
      * assert (g = f) by congruence. now subst g.
      * now apply Hall with w.
    + assert (Hfb : fle f best = true) by now apply flt_false_fle.
      destruct (IH best Hbest Hl) as (m & Hm & Hn & Hbm & Hor & Hall).
      exists m. split; [assumption|]. split; [assumption|]. split; [assumption|].
      split.
      { destruct Hor as [->|(w & Hw & Hwm)]; [now left|].
        right. exists w. split; [now right|assumption]. }
      intros w g [<-|Hw] Hg.
      * assert (g = f) by congruence. subst g. now apply fle_trans with best.
      * now apply Hall with w.
Qed.

(** X2. [_max_allowance] answers 0.0 when the allowances are missing or
    empty; on a dictionary of numbers it answers one of its values, and
    no value is greater. *)
Theorem max_allowance_is_maximum (d : dict pyval) :
  numeric_allowances d = true ->
  _max_allowance None = Ok 0 /\
  match d with
  | [] => _max_allowance (Some d) = Ok 0
  | _ :: _ =>
      exists m,
        _max_allowance (Some d) = Ok m /\
        (exists k v, In (k, v) d /\ py_float v = Ok m) /\
        forall k v f, In (k, v) d -> py_float v = Ok f -> (f <=? m) = true
  end.
Proof.
  intros Hd. split; [reflexivity|]. destruct d as [|[k v] d]; [reflexivity|].
  simpl in Hd. apply andb_true_iff in Hd. destruct Hd as [Hv Hd].
  destruct (py_float v) as [f|e] eqn:Hf; [|discriminate].
  apply negb_true_iff in Hv.
  assert (Hvals : forallb (fun v => match py_float v with
                                    | Ok f => negb (is_nan f)
                                    | Raise _ => false
                                    end) (dict_values d) = true).
  { unfold numeric_allowances in Hd. unfold dict_values.
    rewrite forallb_forall in *. intros w Hw.
    apply in_map_iff in Hw. destruct Hw as ([k' w'] & Heq & Hin).
    simpl in Heq. subst w'. exact (Hd (k', w) Hin). }
  destruct (@max_float_loop_spec (dict_values d) f Hv Hvals)
    as (m & Hm & Hn & Hfm & Hor & Hall).
  exists m. split; [|split].
  - unfold _max_allowance. simpl. rewrite Hf. simpl. exact Hm.
  - destruct Hor as [->|(w & Hw & Hwm)].
    + exists k, v. split; [now left|assumption].
    + unfold dict_values in Hw. apply in_map_iff in Hw.
      destruct Hw as ([k' w'] & Heq & Hin). simpl in Heq. subst w'.
      exists k', w. split; [now right|assumption].
  - intros k' w g [Heq|Hin] Hg.
    + injection Heq as <- <-. assert (g = f) by congruence. now subst g.
    + apply (Hall w g); [|assumption].
      unfold dict_values. apply in_map_iff. exists (k', w). auto.
Qed.

Lemma max_allowance_is_maximum_witness :
  numeric_allowances
    [("0xA"%string, PStr (Numeral 5)); ("0xB"%string, PStr (Numeral 1000000));
     ("0xC"%string, PNum 0)] = true /\
  _max_allowance
    (Some [("0xA"%string, PStr (Numeral 5)); ("0xB"%string, PStr (Numeral 1000000));
           ("0xC"%string, PNum 0)]) = Ok 1000000 /\
  _max_allowance None = Ok 0.
Proof.
  split; [vm_compute; reflexivity|]. split; [vm_compute; reflexivity|].
  exact (proj1 (@max_allowance_is_maximum
                  [("0xA"%string, PStr (Numeral 5));
                   ("0xB"%string, PStr (Numeral 1000000));
                   ("0xC"%string, PNum 0)] eq_refl)).
Defined.

(** ** What [buy] and [buy-max] do before and instead of an order *)

Section OrderFacts.
Variables state signed_order response : Type.
Variable client : ClobClient state signed_order response.

(** X3. [buy] with a price or a size that [float()] rejects prints one
    error line and does nothing else: no balance query, no order, and
    the exchange is left as it was. *)
Theorem buy_rejects_bad_numbers_before_any_call args s e :
  (let? price := py_float (PStr (BuyArgs.price args)) in
   py_float (PStr (BuyArgs.size args))) = Raise e ->
  cmd_buy client args s = (Ok tt, s, [Stderr (ErrorPlacingBuy e)]).
Proof.
  intros H. unfold cmd_buy, try_except, bind, lift, emit.
  destruct (py_float (PStr (BuyArgs.price args))) as [price|e1]; simpl in *.
  - rewrite H. reflexivity.
  - injection H as ->. reflexivity.
Qed.

(** X4. When the order book cannot be fetched or the sizing fails,
    [buy-max] prints one error line after the fetch and makes no other
    call: no balance query and no order. *)
Theorem buy_max_error_places_no_order args s0 r s e :
  get_order_book client (BuyMaxArgs.token_id args) s0 = (r, s) ->
  (let? book := r in let? sized := sizeByBudget book args in Ok tt) = Raise e ->
  cmd_buy_max client args s0
    = (Ok tt, s, [CallGetOrderBook (BuyMaxArgs.token_id args);
                  Stderr (ErrorPlacingBuyMax e)]).
Proof.
  intros Hbook H. unfold cmd_buy_max, try_except, bind, lift, emit, call.
  rewrite Hbook. destruct r as [book|e1]; simpl in *.
  - unfold sizeByBudget in H.
    destruct (buy_max_sizing book args) as [[[p sz] m]|e2]; simpl in *.
    + discriminate.
    + injection H as ->. reflexivity.
  - injection H as ->. reflexivity.
Qed.

Lemma count_app {A} (p : A -> bool) l1 l2 :
  count p (l1 ++ l2) = (count p l1 + count p l2)%nat.
Proof. unfold count. now rewrite filter_app, List.length_app. Qed.

(** The three ways [place_order] can go. *)
Lemma place_order_shapes order_args s :
  (exists e s1,
     place_order client order_args s = (Raise e, s1, [CallCreateOrder order_args])) \/
  (exists signed e s2,
     place_order client order_args s
       = (Raise e, s2, [CallCreateOrder order_args; CallPostOrder signed GTC])) \/
  (exists signed resp s2,
     place_order client order_args s
       = (Ok tt, s2, [CallCreateOrder order_args; CallPostOrder signed GTC;
                      Stdout (OutResponse resp)])).
Proof.
  unfold place_order, bind, call, emit.
  destruct (create_order client order_args s) as [[signed|e] s1].
  - destruct (post_order client signed GTC s1) as [[resp|e] s2]; simpl.
    + right. right. eauto.
    + right. left. eauto.
  - left. eauto.
Qed.

(** The two ways the preflight can go. *)
Lemma preflight_shapes s :
  exists s1,
    preflight client s = (Ok tt, s1, [CallGetBalanceAllowance collateral_params]) \/
    exists e,
      preflight client s
        = (Ok tt, s1, [CallGetBalanceAllowance collateral_params;
                       Stderr (PreflightWarning e)]).
Proof.
  unfold preflight, try_except, bind, _get_balance_allowance, call, lift, emit.
  fold collateral_params.
  destruct (get_balance_allowance client collateral_params s) as [[bal|e] s1]; simpl.
  - exists s1. destruct (preflight_check bal) as [[]|e]; simpl; eauto.
  - exists s1. eauto.
Qed.
(** X5. One run of [buy] or [buy-max] creates at most one order, posts
    at most what it created, and prints a response only for an order it
    posted: nothing is submitted twice. *)
Theorem order_submitted_at_most_once s :
  (forall args,
     (count is_stdout (trace (cmd_buy client args) s)
      <= count is_post (trace (cmd_buy client args) s)
      <= count is_create (trace (cmd_buy client args) s))%nat /\
     (count is_create (trace (cmd_buy client args) s) <= 1)%nat) /\
  (forall args,
     (count is_stdout (trace (cmd_buy_max client args) s)
      <= count is_post (trace (cmd_buy_max client args) s)
      <= count is_create (trace (cmd_buy_max client args) s))%nat /\
     (count is_create (trace (cmd_buy_max client args) s) <= 1)%nat).
Proof.
  split; intros args.
  - unfold trace, cmd_buy, try_except, bind, lift, emit.
    destruct (py_float (PStr (BuyArgs.price args))) as [price|e];
      [destruct (py_float (PStr (BuyArgs.size args))) as [size|e]|];
      simpl; try (unfold count; simpl; lia).
    destruct (preflight_shapes s) as (s1 & [Hpre|(e & Hpre)]); rewrite Hpre;
      destruct (place_order_shapes
                  (OrderArgs.mk price size BUY (BuyArgs.token_id args)) s1)
        as [(e1 & s2 & Hp)|[(signed & e1 & s2 & Hp)|(signed & resp & s2 & Hp)]];
      rewrite Hp; unfold count; simpl; lia.
  - unfold trace, cmd_buy_max, try_except, bind, lift, emit, call.
    destruct (get_order_book client (BuyMaxArgs.token_id args) s) as [[book|e] s0];
      simpl; [|unfold count; simpl; lia].
    destruct (buy_max_sizing book args) as [[[price size] m]|e]; simpl;
      [|unfold count; simpl; lia].
    destruct (preflight_shapes s0) as (s1 & [Hpre|(e & Hpre)]); rewrite Hpre;
      destruct (place_order_shapes
                  (OrderArgs.mk price (py_round6 size) BUY (BuyMaxArgs.token_id args)) s1)
        as [(e1 & s2 & Hp)|[(signed & e1 & s2 & Hp)|(signed & resp & s2 & Hp)]];
      rewrite Hp; unfold count; simpl; lia.
Qed.
End OrderFacts.

Lemma buy_rejects_bad_numbers_before_any_call_witness :
  (let? price := py_float (PStr (Numeral 0.5)) in py_float (PStr NonNumeric))
    = Raise (ValueError CouldNotConvert) /\
  cmd_buy (sample_client false unfunded unfunded)
    (BuyArgs.mk "TOKEN" NonNumeric (Numeral 0.5)) false
    = (Ok tt, false, [Stderr (ErrorPlacingBuy (ValueError CouldNotConvert))]).
Proof.
  split; [reflexivity|].
  exact (@buy_rejects_bad_numbers_before_any_call _ _ _
           (sample_client false unfunded unfunded)
           (BuyArgs.mk "TOKEN" NonNumeric (Numeral 0.5)) false
           (ValueError CouldNotConvert) eq_refl).
Defined.

Lemma buy_max_error_places_no_order_witness :
  get_order_book (sample_client false unfunded unfunded) "TOKEN" false
    = (Ok sample_book, false) /\
  sizeByBudget sample_book (at_limit 0.40 0.5)
    = Raise (ValueError (MaxUsdTooLow 2.5 0.5)) /\
  cmd_buy_max (sample_client false unfunded unfunded) (at_limit 0.40 0.5) false
    = (Ok tt, false,
       [CallGetOrderBook "TOKEN";
        Stderr (ErrorPlacingBuyMax (ValueError (MaxUsdTooLow 2.5 0.5)))]).
Proof.
  split; [reflexivity|]. split; [vm_compute; reflexivity|].
  apply (@buy_max_error_places_no_order _ _ _ (sample_client false unfunded unfunded)
           (at_limit 0.40 0.5) false (Ok sample_book) false
           (ValueError (MaxUsdTooLow 2.5 0.5))).
  - reflexivity.
  - vm_compute. reflexivity.
Defined.

(** ** The on-chain lookups of [diagnose] *)

Lemma dict_set_fresh {V} k (v : V) d :
  dict_mem k d = false -> dict_set k v d = d ++ [(k, v)].
Proof.
  unfold dict_mem. induction d as [|[k' v'] d IH]; simpl; [reflexivity|].
  destruct (String.eqb k k'); [discriminate|]. intros H. now rewrite IH.
Qed.

Lemma dict_mem_snoc {V} k k' (v : V) d :
  dict_mem k (d ++ [(k', v)]) = dict_mem k d || String.eqb k k'.
Proof.
  unfold dict_mem. induction d as [|[k0 v0] d IH]; simpl.
  - destruct (String.eqb k k'); reflexivity.
  - destruct (String.eqb k k0); [reflexivity|exact IH].
Qed.

Section LookupFacts.
Variables state signed_order response : Type.
Variable client : ClobClient state signed_order response.
Variables rpc_url owner token : string.

Lemma onchain_lookups_outcomes spenders :
  forall acc s,
    NoDup spenders ->
    (forall sp, In sp spenders -> dict_mem sp acc = false) ->
    onchain_lookups client rpc_url owner token spenders acc s
      = (Ok (acc ++ fst (lookup_outcomes client rpc_url owner token spenders s)),
         snd (lookup_outcomes client rpc_url owner token spenders s),
         map (fun sp => CallEthAllowance rpc_url owner sp token) spenders).
Proof.
  induction spenders as [|sp rest IH]; intros acc s Hnd Hfresh.
  - simpl. unfold ret. now rewrite app_nil_r.
  - inversion Hnd as [|? ? Hnotin Hnd']. subst.
    assert (Hsp : dict_mem sp acc = false) by (apply Hfresh; now left).
    simpl. unfold bind at 1. unfold try_except, bind, _rpc_allowance, call, ret.
    destruct (eth_allowance client rpc_url owner sp token s) as [[n|e] s1]; simpl;
      rewrite (dict_set_fresh _ _ _ Hsp);
      (rewrite IH;
       [ destruct (lookup_outcomes client rpc_url owner token rest s1) as [d s2];
         simpl; now rewrite <- app_assoc
       | assumption
       | intros sp' Hin; rewrite dict_mem_snoc, (Hfresh sp' (or_intror Hin)); simpl;
         destruct (String.eqb_spec sp' sp); [subst; contradiction|reflexivity] ]).
Qed.

(** X6. The on-chain allowances are looked up once per spender, in
    order, and never raise: the dictionary built holds, for each
    spender, the outcome of that spender's own call, so a lookup that
    fails is recorded as an error and the later spenders are still
    looked up. *)
Theorem onchain_lookup_failures_are_isolated spenders s :
  NoDup spenders ->
  onchain_lookups client rpc_url owner token spenders [] s
    = (Ok (fst (lookup_outcomes client rpc_url owner token spenders s)),
       snd (lookup_outcomes client rpc_url owner token spenders s),
       map (fun sp => CallEthAllowance rpc_url owner sp token) spenders) /\
  dict_keys (fst (lookup_outcomes client rpc_url owner token spenders s)) = spenders.
Proof.
  intros Hnd. split.
  - apply (onchain_lookups_outcomes [] s Hnd). reflexivity.
  - clear Hnd. revert s. induction spenders as [|sp rest IH]; intros s; [reflexivity|].
    simpl. destruct (eth_allowance client rpc_url owner sp token s) as [r s1].
    specialize (IH s1).
    destruct (lookup_outcomes client rpc_url owner token rest s1) as [d s2].
    simpl in *. now rewrite IH.
Qed.
End LookupFacts.

Lemma onchain_lookup_failures_are_isolated_witness :
  NoDup ["0xA"%string; "0xB"%string; "0xC"%string] /\
  onchain_lookups flaky_client "rpc" "0xOwner" "0xToken"
    ["0xA"%string; "0xB"%string; "0xC"%string] [] false
    = (Ok [("0xA"%string, OnInt 7); ("0xB"%string, OnError (ClientError "timed out"));
           ("0xC"%string, OnInt 7)],
       false,
       [CallEthAllowance "rpc" "0xOwner" "0xA" "0xToken";
        CallEthAllowance "rpc" "0xOwner" "0xB" "0xToken";
        CallEthAllowance "rpc" "0xOwner" "0xC" "0xToken"]).
Proof.
  assert (Hnd : NoDup ["0xA"%string; "0xB"%string; "0xC"%string]).
  { repeat constructor; simpl; intuition discriminate. }
  split; [exact Hnd|].
  exact (proj1 (@onchain_lookup_failures_are_isolated _ _ _ flaky_client
                  "rpc" "0xOwner" "0xToken"
                  ["0xA"%string; "0xB"%string; "0xC"%string] false Hnd)).
Defined.

(** ** What [diagnose] calls *)

Section DiagnoseCalls.
Variables state signed_order response : Type.
Variable client : ClobClient state signed_order response.
Variable rpc : option string.
Variable P : event signed_order response -> Prop.

Lemma Forall_trace_bind {A B} (m : M state signed_order response A)
    (k : A -> M state signed_order response B) s :
  Forall P (trace m s) ->
  (forall a s', Forall P (trace (k a) s')) ->
  Forall P (trace (bind m k) s).
Proof.
  intros Hm Hk. rewrite trace_bind. apply Forall_app. split; [assumption|].
  destruct (m s) as [[[a|e] s'] t]; [apply Hk|constructor].
Qed.

Lemma Forall_trace_try_except {A} (m : M state signed_order response A) h s :
  Forall P (trace m s) ->
  (forall e s', Forall P (trace (h e) s')) ->
  Forall P (trace (try_except m h) s).
Proof.
  intros Hm Hh. unfold trace, try_except in *.
  destruct (m s) as [[[a|e] s'] t]; simpl in *; [assumption|].
  specialize (Hh e s'). destruct (h e s') as [[r s''] t']. simpl in *.
  apply Forall_app. split; assumption.
Qed.

Lemma Forall_trace_call {A} ev (op : state -> result A * state) s :
  P ev -> Forall P (trace (call ev op) s).
Proof.
  intros H. unfold trace, call. destruct (op s) as [r s']. simpl. auto.
Qed.

Lemma Forall_trace_ret {A} (a : A) s :
  Forall P (trace (ret (state:=state) (signed_order:=signed_order)
                       (response:=response) a) s).
Proof. constructor. Qed.

Lemma Forall_trace_lift {A} (r : result A) s :
  Forall P (trace (lift (state:=state) (signed_order:=signed_order)
                        (response:=response) r) s).
Proof. constructor. Qed.

Lemma Forall_trace_emit ev (s : state) : P ev -> Forall P (trace (emit ev) s).
Proof. intros H. unfold trace, emit. simpl. auto. Qed.

Hypothesis P_address : P CallGetAddress.
Hypothesis P_collateral : P CallGetCollateralAddress.
Hypothesis P_exchange : P CallGetExchangeAddress.
Hypothesis P_balance : forall p, P (CallGetBalanceAllowance p).
Hypothesis P_eth : forall u o sp t, P (CallEthAllowance u o sp t).
Hypothesis P_stdout : forall o, P (Stdout o).
Hypothesis P_stderr : forall l, P (Stderr l).

Lemma whoami_calls s : Forall P (trace (whoami client) s).
Proof.
  unfold whoami.
  apply Forall_trace_bind; [now apply Forall_trace_call|]. intros address s1.
  apply Forall_trace_bind; [now apply Forall_trace_call|]. intros collateral s2.
  apply Forall_trace_bind; [now apply Forall_trace_call|]. intros exchange s3.
  apply Forall_trace_ret.
Qed.

Lemma onchain_lookups_calls rpc_url owner token spenders :
  forall acc s,
    Forall P (trace (onchain_lookups client rpc_url owner token spenders acc) s).
Proof.
  induction spenders as [|sp rest IH]; intros acc s; simpl.
  - apply Forall_trace_ret.
  - apply Forall_trace_bind; [|intros v s1; apply IH].
    apply Forall_trace_try_except.
    + apply Forall_trace_bind; [|intros; apply Forall_trace_ret].
      unfold _rpc_allowance. now apply Forall_trace_call.
    + intros e s1. apply Forall_trace_ret.
Qed.

Lemma diagnose_report_calls args who s :
  Forall P (trace (diagnose_report client rpc args who) s).
Proof.
  unfold diagnose_report.
  apply Forall_trace_bind.
  { unfold _get_balance_allowance. now apply Forall_trace_call. }
  intros bal s1. apply Forall_trace_bind.
  { destruct (DiagnoseArgs.onchain args); [|apply Forall_trace_ret].
    apply Forall_trace_bind; [apply onchain_lookups_calls|].
    intros; apply Forall_trace_ret. }
  intros diag s2. apply Forall_trace_bind.
  { destruct (DiagnoseArgs.fix_ args); [|apply Forall_trace_ret].
    apply Forall_trace_bind; [apply Forall_trace_lift|]. intros balance s3.
    apply Forall_trace_bind; [apply Forall_trace_lift|]. intros max_allow s4.
    destruct (recommendations _ _ _ _ _). apply Forall_trace_ret. }
  intros diag' s3. now apply Forall_trace_emit.
Qed.

(** Every event of a run of [diagnose] is of a kind that its address
    calls, balance query, lookups and printing are, or is the refresh. *)
Lemma cmd_diagnose_calls args s :
  (DiagnoseArgs.fix_ args = true -> forall p, P (CallUpdateBalanceAllowance p)) ->
  Forall P (trace (cmd_diagnose client rpc args) s).
Proof.
  intros P_update. unfold cmd_diagnose.
  apply Forall_trace_try_except; [|intros; now apply Forall_trace_emit].
  apply Forall_trace_bind; [apply whoami_calls|]. intros who s1.
  apply Forall_trace_bind; [|intros; apply diagnose_report_calls].
  unfold refresh_attempt. destruct (DiagnoseArgs.fix_ args); [|apply Forall_trace_ret].
  apply Forall_trace_try_except; [|intros; apply Forall_trace_ret].
  apply Forall_trace_bind; [apply Forall_trace_call; now apply P_update|].
  intros; apply Forall_trace_ret.
Qed.
End DiagnoseCalls.

Lemma count_none {A} (p : A -> bool) l :
  Forall (fun x => p x = false) l -> count p l = 0%nat.
Proof.
  unfold count. induction 1 as [|x l Hx Hl IH]; simpl; [reflexivity|].
  now rewrite Hx.
Qed.

(** X7. [diagnose] is advisory: it never creates or posts an order.
    Without [--fix] it never asks the exchange to refresh the cached
    balance and allowance; with [--fix], once the identity is read, it
    asks exactly once. *)
Theorem diagnose_places_no_order {state signed_order response}
    (client : ClobClient state signed_order response) rpc args s :
  count is_create (trace (cmd_diagnose client rpc args) s) = 0%nat /\
  count is_post (trace (cmd_diagnose client rpc args) s) = 0%nat /\
  (DiagnoseArgs.fix_ args = false ->
   count is_update (trace (cmd_diagnose client rpc args) s) = 0%nat) /\
  (DiagnoseArgs.fix_ args = true ->
   forall who s1 t, whoami client s = (Ok who, s1, t) ->
   count is_update (trace (cmd_diagnose client rpc args) s) = 1%nat).
Proof.
  split; [|split; [|split]].
  - apply count_none. apply cmd_diagnose_calls; intros; reflexivity.
  - apply count_none. apply cmd_diagnose_calls; intros; reflexivity.
  - intros Hfix. apply count_none. apply cmd_diagnose_calls; try reflexivity.
    rewrite Hfix. discriminate.
  - intros Hfix who s1 t Hwho. unfold trace at 1.
    rewrite (cmd_diagnose_fix_run client rpc args s Hfix Hwho).
    assert (Ht : count is_update t = 0%nat).
    { apply count_none. pose proof (whoami_calls client
        (fun ev => is_update ev = false) eq_refl eq_refl eq_refl s) as H.
      unfold trace in H. now rewrite Hwho in H. }
    match goal with
    | |- context [report_or_error client rpc args who ?s2] =>
        assert (Hr : count is_update (trace (report_or_error client rpc args who) s2) = 0%nat);
        [ apply count_none; unfold report_or_error;
          apply Forall_trace_try_except;
          [ apply diagnose_report_calls; intros; reflexivity
          | intros; now apply Forall_trace_emit ]
        | unfold trace in Hr;
          destruct (report_or_error client rpc args who s2) as [[r' s3] t'] ]
    end.
    simpl in *. rewrite count_app, Ht. unfold count in *. simpl. now rewrite Hr.
Qed.

(** ** The recommendations *)

Lemma rec_fund_not_approve x : rec_fund <> rec_approve x.
Proof. unfold rec_fund, rec_approve. simpl. discriminate. Qed.

Lemma rec_refresh_not_fund : rec_refresh <> rec_fund.
Proof. unfold rec_fund, rec_refresh. discriminate. Qed.

Lemma rec_refresh_not_approve x : rec_refresh <> rec_approve x.
Proof. unfold rec_refresh, rec_approve. simpl. discriminate. Qed.

Lemma diagnose_places_no_order_witness :
  count is_update
    (trace (cmd_diagnose (approved_client true) None diagnose_fix) false) = 1%nat /\
  count is_update
    (trace (cmd_diagnose (approved_client true) None plain_diagnose) false) = 0%nat.
Proof.
  split.
  - destruct (@diagnose_places_no_order _ _ _ (approved_client true) None
                diagnose_fix false) as (_ & _ & _ & Hfix).
    eapply Hfix; [reflexivity|vm_compute; reflexivity].
  - destruct (@diagnose_places_no_order _ _ _ (approved_client true) None
                plain_diagnose false) as (_ & _ & Hplain & _).
    apply Hplain. reflexivity.
Defined.

(** X8. Every recommendation comes with one step.  Funding is
    recommended exactly when the balance is [<= 0], the approval exactly
    when the largest allowance is [<= 0], and a refresh only together
    with the approval and only when on-chain data was asked for. *)
Theorem recommendations_are_paired args who balance max_allow diag :
  List.length (fst (recommendations args who balance max_allow diag))
    = List.length (snd (recommendations args who balance max_allow diag)) /\
  (In rec_fund (fst (recommendations args who balance max_allow diag))
   <-> (balance <=? 0) = true) /\
  (In (rec_approve (Who.exchange who))
      (fst (recommendations args who balance max_allow diag))
   <-> (max_allow <=? 0) = true) /\
  (In rec_refresh (fst (recommendations args who balance max_allow diag)) ->
   In (rec_approve (Who.exchange who))
      (fst (recommendations args who balance max_allow diag)) /\
   DiagnoseArgs.onchain args = true).
Proof.
  pose proof (@rec_fund_not_approve (Who.exchange who)) as Hfa.
  pose proof rec_refresh_not_fund as Hrf.
  pose proof (@rec_refresh_not_approve (Who.exchange who)) as Hra.
  unfold recommendations.
  destruct (balance <=? 0), (max_allow <=? 0), (DiagnoseArgs.onchain args);
    simpl;
    try (destruct (dict_mem "onchain_allowances" diag); simpl);
    try (destruct (match dict_get "onchain_allowances" diag with
                   | Some (ROnchain d) => int_values (dict_values d)
                   | _ => []
                   end) as [|n l]; simpl);
    try (destruct (0 <? max_int n l)%Z; simpl);
    (split; [reflexivity|]);
    (split; [split; [intros H; try reflexivity; intuition congruence|intros H; try discriminate H; auto]|]);
    (split; [split; [intros H; try reflexivity; intuition congruence|intros H; try discriminate H; auto]|]);
    intros H; intuition congruence.
Qed.

(** ** The shape of the report *)

Ltac split_reports :=
  cbn -[printed_reports];
  repeat first
    [ rewrite printed_reports_app
    | match goal with
      | |- context [printed_reports (?ev :: ?t)] =>
          lazymatch t with
          | [] => fail
          | _ => rewrite (printed_reports_cons ev t)
          end
      end ];
  repeat match goal with
         | H : printed_reports ?t = [] |- _ => rewrite H
         end;
  cbn.

(** The keys a report has for given flags, in order. *)
Lemma diagnose_report_prints_aux {state signed_order response}
    (client : ClobClient state signed_order response) rpc args who s :
  exists l,
    printed_reports (trace (diagnose_report client rpc args who) s) = l /\
    (l = [] \/
     exists d,
       l = [d] /\
       dict_get "whoami" d = Some (RWho who) /\
       dict_keys d
         = ["whoami"%string; "balance_allowance"%string]
           ++ (if DiagnoseArgs.onchain args then ["onchain_allowances"%string] else [])
           ++ (if DiagnoseArgs.fix_ args
               then ["recommendations"%string; "next_steps"%string] else [])).
Proof.
  unfold trace, diagnose_report.
  unfold bind at 1. unfold _get_balance_allowance, call.
  destruct (get_balance_allowance client _ s) as [[bal|e] s1];
    [|eexists; split; [reflexivity|left; reflexivity]].
  destruct (DiagnoseArgs.onchain args).
  - unfold bind at 1. unfold bind at 1.
    match goal with
    | |- context [onchain_lookups client ?u ?o ?t ?sp ?acc s1] =>
        destruct (onchain_lookups_silent client u o t sp acc s1)
          as (Hsilent & looked & Hlooked);
        unfold trace in Hsilent;
        destruct (onchain_lookups client u o t sp acc s1) as [[r s2] tl]
    end.
    simpl in Hsilent, Hlooked. subst r.
    destruct (DiagnoseArgs.fix_ args).
    + unfold bind, lift, ret, emit.
      destruct (py_float (or_zero (get_balance bal))) as [balance|e];
        [|eexists; split; [split_reports; reflexivity|left; reflexivity]].
      destruct (_max_allowance (BalanceAllowance.allowances bal)) as [max_allow|e];
        [|eexists; split; [split_reports; reflexivity|left; reflexivity]].
      destruct (recommendations _ _ _ _ _) as [recs steps].
      eexists. split; [split_reports; reflexivity|].
      right. eexists. split; [reflexivity|]. split; reflexivity.
    + unfold bind, ret, emit.
      eexists. split; [split_reports; reflexivity|].
      right. eexists. split; [reflexivity|]. split; reflexivity.
  - destruct (DiagnoseArgs.fix_ args).
    + unfold bind, lift, ret, emit.
      destruct (py_float (or_zero (get_balance bal))) as [balance|e];
        [|eexists; split; [split_reports; reflexivity|left; reflexivity]].
      destruct (_max_allowance (BalanceAllowance.allowances bal)) as [max_allow|e];
        [|eexists; split; [split_reports; reflexivity|left; reflexivity]].
      destruct (recommendations _ _ _ _ _) as [recs steps].
      eexists. split; [split_reports; reflexivity|].
      right. eexists. split; [reflexivity|]. split; reflexivity.
    + unfold bind, ret, emit.
      eexists. split; [split_reports; reflexivity|].
      right. eexists. split; [reflexivity|]. split; reflexivity.
Qed.

Lemma diagnose_report_prints {state signed_order response}
    (client : ClobClient state signed_order response) rpc args who s :
  printed_reports (trace (diagnose_report client rpc args who) s) = [] \/
  exists d,
    printed_reports (trace (diagnose_report client rpc args who) s) = [d] /\
    dict_get "whoami" d = Some (RWho who) /\
    dict_keys d
      = ["whoami"%string; "balance_allowance"%string]
        ++ (if DiagnoseArgs.onchain args then ["onchain_allowances"%string] else [])
        ++ (if DiagnoseArgs.fix_ args
            then ["recommendations"%string; "next_steps"%string] else []).
Proof.
  destruct (diagnose_report_prints_aux client rpc args who s) as (l & Hl & H).
  rewrite Hl. exact H.
Qed.

(** What [diagnose] prints from the state [whoami] leaves. *)
Lemma cmd_diagnose_reports {state signed_order response}
    (client : ClobClient state signed_order response) rpc args s :
  exists l,
    printed_reports (trace (cmd_diagnose client rpc args) s) = l /\
    (l = [] \/
     exists who s1 t s2,
       whoami client s = (Ok who, s1, t) /\
       l = printed_reports (trace (diagnose_report client rpc args who) s2)).
Proof.
  unfold cmd_diagnose. rewrite reports_try_except.
  rewrite trace_bind, printed_reports_app, whoami_silent. simpl.
  destruct (whoami client s) as [[[who|e] s1] t];
    [|eexists; split; [reflexivity|left; reflexivity]].
  rewrite trace_bind, printed_reports_app.
  unfold trace at 1. rewrite refresh_attempt_run.
  destruct (DiagnoseArgs.fix_ args); simpl;
    (eexists; split; [reflexivity|]); right; eexists _, _, _, _; split; reflexivity.
Qed.

(** X9. A run of [diagnose] prints at most one report.  The report has
    the keys "whoami" and "balance_allowance", then "onchain_allowances"
    exactly under [--onchain], then "recommendations" and "next_steps"
    exactly under [--fix]; its "whoami" entry is what [whoami] built. *)
Theorem report_keys_follow_flags {state signed_order response}
    (client : ClobClient state signed_order response) rpc args s :
  printed_reports (trace (cmd_diagnose client rpc args) s) = [] \/
  exists d who s1 t,
    printed_reports (trace (cmd_diagnose client rpc args) s) = [d] /\
    whoami client s = (Ok who, s1, t) /\
    dict_get "whoami" d = Some (RWho who) /\
    dict_keys d
      = ["whoami"%string; "balance_allowance"%string]
        ++ (if DiagnoseArgs.onchain args then ["onchain_allowances"%string] else [])
        ++ (if DiagnoseArgs.fix_ args
            then ["recommendations"%string; "next_steps"%string] else []).
Proof.
  destruct (cmd_diagnose_reports client rpc args s)
    as (l & Hl & [Hnone|(who & s1 & t & s2 & Hwho & Heq)]);
    rewrite Hl; [now left|].
  rewrite Heq.
  destruct (diagnose_report_prints client rpc args who s2)
    as [Hnone|(d & Hd & Hw & Hkeys)]; [now left|].
  right. exists d, who, s1, t. auto.
Qed.

(** ** [sell], [cancel], [balance] and [refresh-balance] *)

Section MoreCommandFacts.
Variables state signed_order response : Type.
Variable client : MarketClient state signed_order response.

(** X10. [sell] makes no preflight: with a numeric price and size its
    events are those of creating and posting the order, on the SELL
    side, followed by an error line when one of the two calls fails. *)
Theorem sell_skips_preflight args price size s :
  BuyArgs.price args = Numeral price ->
  BuyArgs.size args = Numeral size ->
  exists tail,
    actions (cmd_sell client args) s
      = map Earlier
          (trace (place_order (clob client)
                    (OrderArgs.mk price size SELL (BuyArgs.token_id args))) s)
        ++ tail /\
    (tail = [] \/ exists f, tail = [PrintError (ErrorPlacingSell f)]).
Proof.
  intros Hp Hs. unfold actions, trace, cmd_sell, except_Exception, xbind, xlift, earlier, xemit.
  rewrite Hp, Hs. simpl.
  destruct (place_order (clob client) _ s) as [[[u|e] s1] t]; simpl.
  - exists []. split; [now rewrite app_nil_r|now left].
  - eexists. split; [reflexivity|]. right. eauto.
Qed.

(** X11. [cancel] needs exactly one target.  With both [--all] and an
    order id, or with neither, it prints the usage error and exits with
    status 1 without calling the exchange.  Otherwise it makes one call,
    [cancel_all] under [--all] and [cancel] of the id without, prints
    the response or the error, and returns. *)
Theorem cancel_needs_exactly_one_target args s :
  (CancelArgs.all args = true -> given (CancelArgs.order_id args) = true ->
   cmd_cancel client args s
     = (Failed (SystemExit 1), s, [PrintError EitherAllOrOrderId])) /\
  (CancelArgs.all args = false -> given (CancelArgs.order_id args) = false ->
   cmd_cancel client args s
     = (Failed (SystemExit 1), s, [PrintError ProvideOrderIdOrAll])) /\
  (CancelArgs.all args = true -> given (CancelArgs.order_id args) = false ->
   cmd_cancel client args s
     = (Done tt, snd (cancel_all client s),
        [CallCancelAll;
         match fst (cancel_all client s) with
         | Ok resp => Print (OutCancelled resp)
         | Raise e => PrintError (ErrorCanceling (Exception e))
         end])) /\
  (forall order_id,
     CancelArgs.all args = false ->
     CancelArgs.order_id args = Some order_id -> given (Some order_id) = true ->
     cmd_cancel client args s
       = (Done tt, snd (cancel client order_id s),
          [CallCancel order_id;
           match fst (cancel client order_id s) with
           | Ok resp => Print (OutCancelled resp)
           | Raise e => PrintError (ErrorCanceling (Exception e))
           end])).
Proof.
  unfold cmd_cancel, except_Exception, xbind, xemit, sys_exit, xlift, xret, xcall.
  split; [|split; [|split]].
  - intros Ha Hg. rewrite Ha, Hg. reflexivity.
  - intros Ha Hg. rewrite Ha, Hg. reflexivity.
  - intros Ha Hg. rewrite Ha, Hg. simpl.
    destruct (cancel_all client s) as [[resp|e] s1]; reflexivity.
  - intros order_id Ha Ho Hg. rewrite Ha, Ho, Hg. simpl.
    destruct (cancel client order_id s) as [[resp|e] s1]; reflexivity.
Qed.

(** X12. [balance] and [refresh-balance] build their request from the
    flags in the same way: for the same flags, either both print their
    error without calling the exchange, or the parameters [balance]
    queries with are the ones [refresh-balance] refreshes. *)
Theorem balance_and_refresh_agree args s :
  match balance_params args with
  | Failed f =>
      cmd_balance client args s
        = (Done tt, s, [PrintError (ErrorFetchingBalance f)]) /\
      cmd_refresh_balance client args s
        = (Done tt, s, [PrintError (ErrorRefreshingBalance f)])
  | Done params =>
      (exists tail,
         actions (cmd_balance client args) s
           = Earlier (CallGetBalanceAllowance params) :: tail) /\
      (exists tail,
         actions (cmd_refresh_balance client args) s
           = Earlier (CallUpdateBalanceAllowance params) :: tail)
  end.
Proof.
  unfold actions, cmd_balance, cmd_refresh_balance, except_Exception, xbind, xlift,
    earlier, call, xemit.
  assert (Hf : forall f, balance_params args = Failed f ->
                 f = ValueErrorText "asset_type must be collateral or conditional").
  { unfold balance_params. intros f.
    destruct (BalanceArgs.asset_type args) as [t|]; [|discriminate].
    destruct (given (Some t)); [|discriminate].
    destruct (String.eqb (lower t) "collateral"); [discriminate|].
    destruct (String.eqb (lower t) "conditional"); [discriminate|].
    intros H. injection H as <-. reflexivity. }
  destruct (balance_params args) as [params|f].
  - split.
    + destruct (get_balance_allowance (clob client) params s) as [[bal|e] s1]; simpl;
        eexists; reflexivity.
    + destruct (update_balance_allowance (clob client) params s) as [[resp|e] s1]; simpl;
        eexists; reflexivity.
  - rewrite (Hf f eq_refl). split; reflexivity.
Qed.
End MoreCommandFacts.

Lemma sell_skips_preflight_witness :
  exists tail,
    actions (cmd_sell sample_markets (BuyArgs.mk "TOKEN" (Numeral 10) (Numeral 0.5))) false
      = map Earlier
          (trace (place_order (clob sample_markets)
                    (OrderArgs.mk 0.5 10 SELL "TOKEN")) false)
        ++ tail /\
    (tail = [] \/ exists f, tail = [PrintError (ErrorPlacingSell f)]).
Proof.
  exact (@sell_skips_preflight _ _ _ sample_markets
           (BuyArgs.mk "TOKEN" (Numeral 10) (Numeral 0.5)) 0.5 10 false eq_refl eq_refl).
Defined.

Lemma cancel_needs_exactly_one_target_witness :
  cmd_cancel sample_markets (CancelArgs.mk (Some "0xorder"%string) true) false
    = (Failed (SystemExit 1), false, [PrintError EitherAllOrOrderId]) /\
  cmd_cancel sample_markets (CancelArgs.mk None false) false
    = (Failed (SystemExit 1), false, [PrintError ProvideOrderIdOrAll]) /\
  cmd_cancel sample_markets (CancelArgs.mk (Some "0xorder"%string) false) false
    = (Done tt, false, [CallCancel "0xorder"; Print (OutCancelled "cancelled"%string)]).
Proof.
  split; [|split].
  - destruct (@cancel_needs_exactly_one_target _ _ _ sample_markets
                (CancelArgs.mk (Some "0xorder"%string) true) false) as (Hboth & _).
    apply Hboth; reflexivity.
  - destruct (@cancel_needs_exactly_one_target _ _ _ sample_markets
                (CancelArgs.mk None false) false) as (_ & Hneither & _).
    apply Hneither; reflexivity.
  - destruct (@cancel_needs_exactly_one_target _ _ _ sample_markets
                (CancelArgs.mk (Some "0xorder"%string) false) false) as (_ & _ & _ & Hid).
    apply (Hid "0xorder"%string); reflexivity.
Defined.

(** The whole run of [sell TOKEN 10 0.5]. *)
Example cmd_sell_run :
  cmd_sell sample_markets (BuyArgs.mk "TOKEN" (Numeral 10) (Numeral 0.5)) false
  = (Done tt, false,
     [Earlier (CallCreateOrder (OrderArgs.mk 0.5 10 SELL "TOKEN"));
      Earlier (CallPostOrder (OrderArgs.mk 0.5 10 SELL "TOKEN") GTC);
      Earlier (Stdout (OutResponse "posted"%string))]).
Proof. vm_compute. reflexivity. Qed.

(** ** The asset type is read without regard to case *)

Lemma lower_char_idempotent c : lower_char (lower_char c) = lower_char c.
Proof. destruct c as [[] [] [] [] [] [] [] []]; reflexivity. Qed.

Lemma lower_idempotent t : lower (lower t) = lower t.
Proof.
  induction t as [|c t IH]; simpl; [reflexivity|].
  now rewrite lower_char_idempotent, IH.
Qed.

Lemma given_lower t : given (Some (lower t)) = given (Some t).
Proof. destruct t; reflexivity. Qed.

(** X13. The asset type of [balance] and [refresh-balance] is matched
    without regard to case: the flags with the asset type in lower case
    give the same request, or the same error. *)
Theorem asset_type_ignores_case asset token signature_type :
  balance_params (BalanceArgs.mk (Some asset) token signature_type)
    = balance_params (BalanceArgs.mk (Some (lower asset)) token signature_type).
Proof.
  unfold balance_params.
  cbn [BalanceArgs.asset_type BalanceArgs.token_id BalanceArgs.signature_type].
  rewrite given_lower, lower_idempotent. reflexivity.
Qed.

Example asset_type_upper_case :
  balance_params (BalanceArgs.mk (Some "Collateral"%string) (Some ""%string) (Some 0%Z))
    = Done (BalanceAllowanceParams.mk (Some COLLATERAL) None 0).
Proof. reflexivity. Qed.

(** ** [whoami] and [quote] beside [diagnose] and [buy-max] *)

Lemma in_map_earlier_print {signed_order response}
    (t : list (event signed_order response)) o :
  ~ In (Print o) (map Earlier t).
Proof.
  intros H. apply in_map_iff in H. destruct H as (ev & Hev & _). discriminate.
Qed.

(** X14. The identity [whoami] prints is the one a [diagnose] run from
    the same state puts under "whoami" in its report. *)
Theorem whoami_matches_diagnose {state signed_order response}
    (client : MarketClient state signed_order response) rpc args s w d :
  In (Print (OutIdentity w)) (actions (cmd_whoami client) s) ->
  In d (printed_reports (trace (cmd_diagnose (clob client) rpc args) s)) ->
  dict_get "whoami" d = Some (RWho w).
Proof.
  intros Hw Hd.
  destruct (cmd_diagnose_reports (clob client) rpc args s)
    as (l & Hl & [->|(who & s1 & t & s2 & Hwho & ->)]);
    rewrite Hl in Hd; [contradiction|].
  destruct (diagnose_report_prints (clob client) rpc args who s2)
    as [Hnone|(d' & Hd' & Hkey & _)]; rewrite ?Hnone, ?Hd' in Hd; [contradiction|].
  destruct Hd as [<-|[]].
  unfold actions, cmd_whoami, except_Exception, xbind, earlier, xemit in Hw.
  rewrite Hwho in Hw. simpl in Hw.
  apply in_app_or in Hw. destruct Hw as [Hw|[Hw|[]]].
  - exfalso. exact (in_map_earlier_print _ _ Hw).
  - injection Hw as <-. exact Hkey.
Qed.

Lemma whoami_matches_diagnose_witness :
  In (Print (OutIdentity sample_who)) (actions (cmd_whoami sample_markets) false) /\
  In (base_report sample_who unfunded)
     (printed_reports
        (trace (cmd_diagnose (clob sample_markets) None plain_diagnose) false)) /\
  dict_get "whoami" (base_report sample_who unfunded) = Some (RWho sample_who).
Proof.
  split; [right; right; right; left; reflexivity|].
  split; [left; reflexivity|].
  apply (@whoami_matches_diagnose _ _ _ sample_markets None plain_diagnose false
           sample_who (base_report sample_who unfunded)).
  - right; right; right; left; reflexivity.
  - left; reflexivity.
Defined.

Lemma quote_side_price best q :
  quote_side best = Ok q ->
  match best, q with
  | Some a, Some (p, sz) => price_key a = Ok p
  | None, None => True
  | _, _ => False
  end.
Proof.
  unfold quote_side. destruct best as [a|].
  - fold (price_key a). destruct (price_key a) as [p|e]; simpl; [|discriminate].
    destruct (py_float (OrderSummary.size a)) as [sz|e]; simpl; [|discriminate].
    intros H. injection H as <-. reflexivity.
  - intros H. injection H as <-. exact I.
Qed.

(** X15. [buy-max] without a limit price buys at the price [quote]
    shows as best ask for the same book; where [quote] shows no best
    ask, it fails with "No asks available". *)
Theorem quote_shows_the_price_buy_max_uses token_id book q args :
  quote_payload token_id book = Ok q ->
  limit_price (BuyMaxArgs.price args) = Ok None ->
  match Quote.best_ask q with
  | Some (p, sz) =>
      forall o, sizeByBudget book args = Ok o -> SizedOrder.price o = p
  | None => sizeByBudget book args = Raise (ValueError NoAsksAvailable)
  end.
Proof.
  unfold quote_payload. intros Hq Hlimit.
  apply rbind_ok_inv in Hq. destruct Hq as ([bid ask] & Hquotes & Hq). simpl in Hq.
  apply rbind_ok_inv in Hq. destruct Hq as (qb & Hqb & Hq).
  apply rbind_ok_inv in Hq. destruct Hq as (qa & Hqa & Hq).
  apply rbind_ok_inv in Hq. destruct Hq as (ms & Hms & Hq).
  injection Hq as <-. simpl.
  pose proof (quote_side_price _ Hqa) as Hside.
  destruct ask as [a|], qa as [[p sz]|]; try contradiction.
  - intros o Ho. unfold sizeByBudget, buy_max_sizing in Ho.
    apply rbind_ok_inv in Ho. destruct Ho as ([[p' s'] m] & Hb & Ho).
    apply rbind_ok_inv in Hb. destruct Hb as ([[p'' s''] ask'] & Hb & Hm).
    destruct (budget_size_inv _ _ Hb)
      as (bid' & limit & cap & min_size & s0 & Hq' & Hl' & Hp' & _).
    assert (limit = None) by congruence. subst limit.
    assert (ask' = Some a) by congruence. subst ask'.
    simpl in Hp'. fold (price_key a) in Hp'.
    assert (p'' = p) by congruence. subst p''.
    apply rbind_ok_inv in Hm. destruct Hm as (m' & _ & Hm).
    destruct (m' && (p * s'' <? 1)); [discriminate|].
    assert (Ep : p' = p).
    { apply (f_equal (fun r => match r with
                               | Ok t => fst (fst t)
                               | Raise _ => p
                               end)) in Hm. simpl in Hm. now symmetry. }
    subst p'. assert (Eo : o = SizedOrder.mk p (py_round6 s') m) by congruence.
    now subst o.
  - apply sizeByBudget_budget_error. unfold budget_size.
    rewrite Hquotes. simpl. rewrite Hlimit. reflexivity.
Qed.

Lemma quote_shows_the_price_buy_max_uses_witness :
  quote_payload "TOKEN" sample_book
    = Ok (Quote.mk "TOKEN" (Some (0.52, 20)) (Some (0.53, 20)) 5
            (PStr (Numeral 0.01)) PNone) /\
  limit_price (BuyMaxArgs.price (at_best_ask 10)) = Ok None /\
  sizeByBudget sample_book (at_best_ask 10)
    = Ok (SizedOrder.mk 0.53 18.867925 true) /\
  forall o, sizeByBudget sample_book (at_best_ask 10) = Ok o -> SizedOrder.price o = 0.53.
Proof.
  split; [vm_compute; reflexivity|]. split; [reflexivity|].
  split; [vm_compute; reflexivity|].
  apply (@quote_shows_the_price_buy_max_uses "TOKEN" sample_book
           (Quote.mk "TOKEN" (Some (0.52, 20)) (Some (0.53, 20)) 5
              (PStr (Numeral 0.01)) PNone) (at_best_ask 10)).
  - vm_compute; reflexivity.
  - reflexivity.
Defined.

(** ** [markets] *)

Section MarketsFacts.
Variables state signed_order response : Type.
Variable client : MarketClient state signed_order response.

(** The title loop never fails; it touches each market on its own and
    makes at most one lookup per market, and nothing else. *)
Lemma add_titles_spec markets :
  forall s,
  exists markets' s' t,
    add_titles client markets s = (Done markets', s', t) /\
    Forall2 titled markets markets' /\
    Forall (fun a => is_get_market a = true) t /\
    (List.length t <= List.length markets)%nat.
Proof.
  induction markets as [|m rest IH]; intros s.
  - exists [], s, []. simpl. repeat split; constructor.
  - simpl. unfold xbind at 1.
    assert (Hm : exists m' s1 t1,
               (if json_truthy (json_get "condition_id" m)
                then except_Exception
                       (xbind (xcall (CallGetMarket (json_get "condition_id" m))
                                     (get_market client (json_get "condition_id" m)))
                              (fun detail => xret (dict_set "title" (market_title detail) m)))
                       (fun _ => xret (dict_set "title" JNull m))
                else xret m) s = (Done m', s1, t1) /\
               titled m m' /\
               Forall (fun a : action signed_order response => is_get_market a = true) t1 /\
               (List.length t1 <= 1)%nat).
    { unfold titled. destruct (json_truthy (json_get "condition_id" m)).
      - unfold except_Exception, xbind, xcall, xret.
        destruct (get_market client (json_get "condition_id" m) s) as [[detail|e] s1];
          simpl; eexists _, _, _; (split; [reflexivity|]);
          (split; [eexists; reflexivity|]); split; auto.
      - exists m, s, []. repeat split; auto. }
    destruct Hm as (m' & s1 & t1 & Hrun & Htitled & Hcalls & Hlen).
    rewrite Hrun.
    destruct (IH s1) as (rest' & s2 & t2 & Hrest & Hall & Hcalls2 & Hlen2).
    unfold xbind. rewrite Hrest. simpl.
    exists (m' :: rest'), s2, (t1 ++ t2 ++ []).
    split; [reflexivity|]. split; [now constructor|]. split.
    + rewrite app_nil_r. apply Forall_app. now split.
    + rewrite app_nil_r, List.length_app. simpl. lia.
Qed.

Lemma listing_call_facts (ev : action signed_order response) :
  is_listing ev = true ->
  is_get_market ev = false /\ printed_pages [ev] = [] /\ is_print_error ev = false.
Proof. destruct ev; try discriminate; repeat split. Qed.

Lemma list_markets_shape args s :
  exists ev r s1,
    list_markets client args s = (of_result r, s1, [ev]) /\
    is_listing ev = true.
Proof.
  unfold list_markets, xcall. destruct (MarketsArgs.sampling args).
  - match goal with
    | |- context [get_sampling_simplified_markets client ?c s] =>
        destruct (get_sampling_simplified_markets client c s) as [r s1]
    end.
    eexists _, r, s1. repeat split; reflexivity.
  - destruct (MarketsArgs.cursor args) as [[|c k]|];
      match goal with
      | |- context [get_simplified_markets client ?c s] =>
          destruct (get_simplified_markets client c s) as [r s1]
      end;
      eexists _, r, s1; repeat split; reflexivity.
Qed.

(** [markets] without an id, as the listing, the selection and the
    titles in turn. *)
Lemma cmd_markets_unfold args :
  given (MarketsArgs.id args) = false ->
  cmd_markets client args =
    except_Exception
      (xbind (list_markets client args) (fun resp =>
       xbind (if MarketsArgs.with_title args then
                match Page.data (selected_page args resp) with
                | Some l =>
                    xbind (add_titles client l) (fun l' =>
                    xret (Page.mk (Some l') (Page.rest (selected_page args resp))))
                | None => xret (selected_page args resp)
                end
              else xret (selected_page args resp))
             (fun page => xemit (Print (OutPage page)))))
      (fun f => xemit (PrintError (ErrorFetchingMarkets f))).
Proof.
  intros Hid. unfold cmd_markets.
  destruct (MarketsArgs.id args) as [[|c i]|]; try discriminate Hid; reflexivity.
Qed.

(** How a run of [markets] without an id can go. *)
Lemma cmd_markets_cases args s :
  given (MarketsArgs.id args) = false ->
  exists out,
    cmd_markets client args s = out /\
    ((exists ev f s1,
        list_markets client args s = (Failed f, s1, [ev]) /\
        out = (Done tt, s1, [ev; PrintError (ErrorFetchingMarkets f)]) /\
        is_listing ev = true) \/
     (exists ev resp s1 t s2 l,
        list_markets client args s = (Done resp, s1, [ev]) /\
        is_listing ev = true /\
        out = (Done tt, s2,
               ev :: t ++ [Print (OutPage (Page.mk l (Page.rest (selected_page args resp))))]) /\
        Forall (fun a => is_get_market a = true) t /\
        (List.length t <= List.length (data_or_empty (selected_page args resp)))%nat /\
        (if MarketsArgs.with_title args
         then match Page.data (selected_page args resp), l with
              | Some before, Some after => Forall2 titled before after
              | None, None => True
              | _, _ => False
              end
         else l = Page.data (selected_page args resp) /\ t = []))).
Proof.
  intros Hid. rewrite (cmd_markets_unfold args Hid).
  destruct (list_markets_shape args s) as (ev & r & s1 & Hlist & Hev).
  destruct r as [resp|e]; simpl in Hlist.
  - destruct (MarketsArgs.with_title args) eqn:Htitle.
    + destruct (Page.data (selected_page args resp)) as [l|] eqn:Hdata.
      * destruct (add_titles_spec l s1) as (l' & s2 & t & Hrun & Htitled & Hcalls & Hlen).
        eexists. split.
        { unfold except_Exception, xbind, xret, xemit.
          rewrite Hlist, Hdata, Hrun. simpl. rewrite !app_nil_r. reflexivity. }
        right. exists ev, resp, s1, t, s2, (Some l').
        rewrite Hdata. unfold data_or_empty. rewrite Hdata.
        split; [exact Hlist|]. split; [exact Hev|]. split; [reflexivity|].
        split; [exact Hcalls|]. split; [exact Hlen|exact Htitled].
      * eexists. split.
        { unfold except_Exception, xbind, xret, xemit.
          rewrite Hlist, Hdata. simpl. reflexivity. }
        right. exists ev, resp, s1, [], s1, None.
        rewrite Hdata.
        split; [exact Hlist|]. split; [exact Hev|]. split.
        { destruct (selected_page args resp) as [d rs]. simpl in *. now subst d. }
        split; [constructor|]. split; [apply Nat.le_0_l|exact I].
    + eexists. split.
      { unfold except_Exception, xbind, xret, xemit.
        rewrite Hlist. simpl. reflexivity. }
      right. exists ev, resp, s1, [], s1, (Page.data (selected_page args resp)).
      split; [exact Hlist|]. split; [exact Hev|]. split.
      { destruct (selected_page args resp); reflexivity. }
      split; [constructor|]. split; [apply Nat.le_0_l|]. split; reflexivity.
  - eexists. split.
    { unfold except_Exception, xbind, xemit. rewrite Hlist. simpl. reflexivity. }
    left. exists ev, (Exception e), s1. split; [exact Hlist|]. split; [reflexivity|exact Hev].
Qed.

Lemma slice_to_length {A} n (l : list A) :
  (0 < n)%Z -> (List.length (slice_to n l) <= Z.to_nat n)%nat.
Proof.
  intros Hn. unfold slice_to. destruct (Z.leb_spec 0 n); [|lia].
  apply firstn_le_length.
Qed.

Lemma slice_to_incl {A} n (l : list A) x : In x (slice_to n l) -> In x l.
Proof.
  unfold slice_to. destruct (0 <=? n)%Z; intros H;
    match type of H with
    | In _ (firstn ?k _) => rewrite <- (firstn_skipn k l)
    end; apply in_or_app; left; exact H.
Qed.

Lemma get_market_calls_print_nothing (t : list (action signed_order response)) :
  Forall (fun a => is_get_market a = true) t -> printed_pages t = [].
Proof.
  induction 1 as [|a t Ha Ht IH]; [reflexivity|].
  unfold printed_pages in *. simpl. rewrite IH.
  destruct a; try discriminate Ha. reflexivity.
Qed.

Lemma count_get_market_calls (t : list (action signed_order response)) :
  Forall (fun a => is_get_market a = true) t -> count is_get_market t = List.length t.
Proof.
  unfold count. induction 1 as [|a t Ha Ht IH]; [reflexivity|].
  simpl. rewrite Ha. simpl. now rewrite IH.
Qed.

Lemma printed_pages_app (t1 t2 : list (action signed_order response)) :
  printed_pages (t1 ++ t2) = printed_pages t1 ++ printed_pages t2.
Proof. unfold printed_pages. apply flat_map_app. Qed.

(** The page a run of [markets] without an id prints, if any: the
    selected page, its markets titled one by one under [--with-title]. *)
Lemma cmd_markets_page args s p :
  given (MarketsArgs.id args) = false ->
  In p (printed_pages (actions (cmd_markets client args) s)) ->
  exists ev resp s1,
    list_markets client args s = (Done resp, s1, [ev]) /\
    Page.rest p = Page.rest (selected_page args resp) /\
    if MarketsArgs.with_title args
    then Forall2 titled (data_or_empty (selected_page args resp)) (data_or_empty p)
    else Page.data p = Page.data (selected_page args resp).
Proof.
  intros Hid Hp. unfold actions in Hp.
  destruct (cmd_markets_cases args s Hid)
    as (out & Hout & [(ev & f & s1 & Hfail & -> & Hcall)
                     |(ev & resp & s1 & t & s2 & l & Hlist & Hcall & -> & Hcalls & Hlen & Hl)]);
    destruct (listing_call_facts ev Hcall) as (Hev & Hpr & Herr);
    rewrite Hout in Hp; simpl in Hp.
  - change (In p (printed_pages ([ev] ++ [PrintError (ErrorFetchingMarkets f)]))) in Hp.
    rewrite printed_pages_app, Hpr in Hp. contradiction.
  - change (In p (printed_pages ([ev] ++ t ++ [Print (OutPage (Page.mk l (Page.rest (selected_page args resp))))]))) in Hp.
    rewrite !printed_pages_app, Hpr, (get_market_calls_print_nothing Hcalls) in Hp.
    simpl in Hp. destruct Hp as [<-|[]].
    exists ev, resp, s1. split; [assumption|]. split; [reflexivity|].
    destruct (MarketsArgs.with_title args).
    + unfold data_or_empty. simpl.
      destruct (Page.data (selected_page args resp)) as [before|], l as [after|];
        try contradiction; [assumption|constructor].
    + destruct Hl as [-> _]. reflexivity.
Qed.

(** X16. [markets --with-title] looks up at most as many titles as
    the limit in force allows: at most 20 when no [--limit] is given,
    at most [n] under [--limit n] with [n > 0]. *)
Theorem markets_title_lookups_bounded args s n :
  given (MarketsArgs.id args) = false ->
  effective_limit args = Some n -> (0 < n)%Z ->
  (count is_get_market (actions (cmd_markets client args) s) <= Z.to_nat n)%nat.
Proof.
  intros Hid Hlimit Hn. unfold actions.
  destruct (cmd_markets_cases args s Hid)
    as (out & Hout & [(ev & f & s1 & Hfail & -> & Hcall)
                     |(ev & resp & s1 & t & s2 & l & Hlist & Hcall & -> & Hcalls & Hlen & Hl)]);
    destruct (listing_call_facts ev Hcall) as (Hev & Hpr & Herr);
    rewrite Hout; simpl.
  - unfold count. simpl. rewrite Hev. simpl. lia.
  - change (ev :: t ++ [Print (OutPage (Page.mk l (Page.rest (selected_page args resp))))])
      with ([ev] ++ t ++ [Print (OutPage (Page.mk l (Page.rest (selected_page args resp))))]).
    rewrite !count_app, (count_get_market_calls Hcalls).
    unfold count at 1 2. simpl. rewrite Hev. simpl.
    assert (Hsel : (List.length (data_or_empty (selected_page args resp)) <= Z.to_nat n)%nat).
    { unfold selected_page. rewrite Hlimit.
      destruct (Z.eqb_spec n 0); [lia|]. unfold data_or_empty at 1. simpl.
      now apply slice_to_length. }
    lia.
Qed.

Lemma dict_get_set_other {V} k k' (v : V) d :
  String.eqb k' k = false -> dict_get k' (dict_set k v d) = dict_get k' d.
Proof.
  intros Hk. induction d as [|[k0 v0] d IH]; simpl.
  - now rewrite Hk.
  - destruct (String.eqb_spec k k0) as [->|Hk0]; simpl.
    + now rewrite Hk.
    + now rewrite IH.
Qed.

Lemma titled_keeps_other_keys m m' k :
  titled m m' -> String.eqb k "title" = false -> json_get k m' = json_get k m.
Proof.
  unfold titled, json_get. intros Ht Hk.
  destruct (json_truthy _).
  - destruct Ht as [title ->]. now rewrite dict_get_set_other.
  - now subst m'.
Qed.

Lemma Forall2_titled_in before after m' :
  Forall2 titled before after -> In m' after ->
  exists m, In m before /\ titled m m'.
Proof.
  induction 1 as [|m0 m0' before after H0 Hrest IH]; intros Hin; [contradiction|].
  destruct Hin as [<-|Hin].
  - exists m0. split; [now left|assumption].
  - destruct (IH Hin) as (m & Hm & Ht). exists m. split; [now right|assumption].
Qed.

Lemma selected_page_accepting args resp m :
  MarketsArgs.accepting_only args = true ->
  In m (data_or_empty (selected_page args resp)) -> accepting m = true.
Proof.
  intros Hacc. unfold selected_page. rewrite Hacc.
  assert (Hfilter : forall x, In x (filter accepting (data_or_empty resp)) -> accepting x = true).
  { intros x Hx. now apply filter_In in Hx. }
  destruct (effective_limit args) as [n|]; [destruct (n =? 0)%Z|];
    unfold data_or_empty at 1; simpl; intros Hin; auto.
  apply slice_to_incl in Hin. auto.
Qed.

(** X17. Under [--accepting-only] every market of the printed page
    accepts orders, with or without the limit and the titles. *)
Theorem markets_accepting_only_filters args s p m :
  given (MarketsArgs.id args) = false ->
  MarketsArgs.accepting_only args = true ->
  In p (printed_pages (actions (cmd_markets client args) s)) ->
  In m (data_or_empty p) ->
  accepting m = true.
Proof.
  intros Hid Hacc Hp Hm.
  destruct (cmd_markets_page args s p Hid Hp) as (ev & resp & s1 & Hlist & Hrest & Hdata).
  destruct (MarketsArgs.with_title args).
  - destruct (@Forall2_titled_in _ _ _ Hdata Hm) as (m0 & Hm0 & Ht).
    unfold accepting. rewrite (@titled_keeps_other_keys _ _ _ Ht) by reflexivity.
    now apply (@selected_page_accepting args resp).
  - apply (@selected_page_accepting args resp _ Hacc).
    unfold data_or_empty in *. now rewrite <- Hdata.
Qed.

(** X18. With a positive limit in force the printed page holds at most
    that many markets; the titles add none. *)
Theorem markets_page_bounded args s n p :
  given (MarketsArgs.id args) = false ->
  effective_limit args = Some n -> (0 < n)%Z ->
  In p (printed_pages (actions (cmd_markets client args) s)) ->
  (List.length (data_or_empty p) <= Z.to_nat n)%nat.
Proof.
  intros Hid Hlimit Hn Hp.
  destruct (cmd_markets_page args s p Hid Hp) as (ev & resp & s1 & Hlist & Hrest & Hdata).
  assert (Hsel : (List.length (data_or_empty (selected_page args resp)) <= Z.to_nat n)%nat).
  { unfold selected_page. rewrite Hlimit.
    destruct (Z.eqb_spec n 0); [lia|]. unfold data_or_empty at 1. simpl.
    now apply slice_to_length. }
  destruct (MarketsArgs.with_title args).
  - now rewrite <- (Forall2_length Hdata).
  - unfold data_or_empty in *. now rewrite Hdata.
Qed.

(** X19. [--limit 0] is no limit: the printed page has every market of
    the listing, or every accepting one under [--accepting-only]. *)
Theorem markets_limit_zero_is_no_limit args s p :
  given (MarketsArgs.id args) = false ->
  MarketsArgs.limit args = Some 0%Z ->
  In p (printed_pages (actions (cmd_markets client args) s)) ->
  exists ev resp s1,
    list_markets client args s = (Done resp, s1, [ev]) /\
    List.length (data_or_empty p)
      = List.length (if MarketsArgs.accepting_only args
                     then filter accepting (data_or_empty resp)
                     else data_or_empty resp).
Proof.
  intros Hid Hlimit Hp.
  destruct (cmd_markets_page args s p Hid Hp) as (ev & resp & s1 & Hlist & Hrest & Hdata).
  exists ev, resp, s1. split; [assumption|].
  assert (Hsel : data_or_empty (selected_page args resp)
                 = if MarketsArgs.accepting_only args
                   then filter accepting (data_or_empty resp)
                   else data_or_empty resp).
  { unfold selected_page, effective_limit. rewrite Hlimit. simpl.
    destruct (MarketsArgs.accepting_only args); reflexivity. }
  rewrite <- Hsel.
  destruct (MarketsArgs.with_title args).
  - symmetry. exact (Forall2_length Hdata).
  - unfold data_or_empty in *. now rewrite Hdata.
Qed.

(** The title loop, market by market. *)
Lemma add_titles_lookups markets :
  forall s,
  exists markets' s' t,
    add_titles client markets s = (Done markets', s', t) /\
    titles_looked_up client s markets markets' /\
    Forall (fun a => is_get_market a = true) t.
Proof.
  induction markets as [|m rest IH]; intros s.
  - exists [], s, []. simpl. repeat split; constructor.
  - cbn [add_titles titles_looked_up]. unfold xbind at 1.
    destruct (json_truthy (json_get "condition_id" m)).
    + unfold except_Exception, xbind at 1, xcall, xret.
      destruct (get_market client (json_get "condition_id" m) s) as [[detail|e] s1];
        cbn [of_result fst snd title_of];
        destruct (IH s1) as (rest' & s2 & t2 & Hrest & Hall & Hcalls);
        unfold xbind; rewrite Hrest; cbn [app];
        eexists _, s2, _; (split; [reflexivity|]);
        (split; [split; [reflexivity|exact Hall]|]);
        rewrite app_nil_r; constructor; [reflexivity|exact Hcalls
                                        |reflexivity|exact Hcalls].
    + unfold xret at 1.
      destruct (IH s) as (rest' & s2 & t2 & Hrest & Hall & Hcalls).
      unfold xbind. rewrite Hrest. cbn [app].
      eexists _, s2, _. split; [reflexivity|].
      split; [split; [reflexivity|exact Hall]|].
      rewrite app_nil_r. exact Hcalls.
Qed.

Lemma count_print_error_calls (t : list (action signed_order response)) :
  Forall (fun a => is_get_market a = true) t -> count is_print_error t = 0%nat.
Proof.
  unfold count. induction 1 as [|a t Ha Ht IH]; [reflexivity|].
  simpl. destruct a; try discriminate Ha. exact IH.
Qed.

(** X20. Once the listing call has answered, [markets] prints exactly
    one page and no error line, whatever the title lookups do.  Under
    [--with-title] the page holds the selected markets with the titles
    looked up one by one: a lookup that fails leaves the title of its
    own market null and touches no other market. *)
Theorem markets_title_failures_are_isolated args s resp s1 ev :
  given (MarketsArgs.id args) = false ->
  list_markets client args s = (Done resp, s1, [ev]) ->
  exists p,
    printed_pages (actions (cmd_markets client args) s) = [p] /\
    count is_print_error (actions (cmd_markets client args) s) = 0%nat /\
    Page.rest p = Page.rest (selected_page args resp) /\
    if MarketsArgs.with_title args
    then titles_looked_up client s1
           (data_or_empty (selected_page args resp)) (data_or_empty p)
    else Page.data p = Page.data (selected_page args resp).
Proof.
  intros Hid Hlist.
  destruct (list_markets_shape args s) as (ev' & r' & s1' & Hshape & Hcall).
  rewrite Hlist in Hshape. injection Hshape as Hr Hs He. subst ev' s1'.
  destruct (listing_call_facts ev Hcall) as (Hev & Hpr & Herr).
  assert (Hout : exists p s2 t,
             cmd_markets client args s
               = (Done tt, s2, [ev] ++ t ++ [Print (OutPage p)]) /\
             Forall (fun a => is_get_market a = true) t /\
             Page.rest p = Page.rest (selected_page args resp) /\
             if MarketsArgs.with_title args
             then titles_looked_up client s1
                    (data_or_empty (selected_page args resp)) (data_or_empty p)
             else Page.data p = Page.data (selected_page args resp)).
  { rewrite (cmd_markets_unfold args Hid).
    unfold except_Exception, xbind at 1. rewrite Hlist.
    destruct (MarketsArgs.with_title args).
    - unfold data_or_empty.
      destruct (Page.data (selected_page args resp)) as [l|] eqn:Hdata.
      + destruct (add_titles_lookups l s1) as (l' & s2 & t & Hrun & Hlooked & Hcalls).
        unfold xbind, xret, xemit. rewrite Hrun. cbn. rewrite !app_nil_r.
        exists (Page.mk (Some l') (Page.rest (selected_page args resp))), s2, t.
        split; [reflexivity|]. split; [exact Hcalls|].
        split; [reflexivity|exact Hlooked].
      + unfold xbind, xret, xemit. cbn.
        exists (selected_page args resp), s1, [].
        split; [reflexivity|]. split; [constructor|].
        split; [reflexivity|]. rewrite Hdata. exact I.
    - unfold xbind, xret, xemit. cbn.
      exists (selected_page args resp), s1, [].
      split; [reflexivity|]. split; [constructor|]. split; reflexivity. }
  destruct Hout as (p & s2 & t & Hout & Hcalls & Hrest & Htitles).
  exists p. unfold actions. rewrite Hout. cbn [snd].
  rewrite !printed_pages_app, !count_app, Hpr,
    (get_market_calls_print_nothing Hcalls), (count_print_error_calls Hcalls).
  split; [reflexivity|]. split; [unfold count; simpl; now rewrite Herr|].
  split; [exact Hrest|exact Htitles].
Qed.
End MarketsFacts.

Example cmd_markets_run :
  actions (cmd_markets sample_markets (accepting_titled (Some 2%Z))) false
    = [CallGetSimplifiedMarkets None;
       CallGetMarket (JStr "c1"); CallGetMarket (JStr "c2");
       Print (OutPage two_titled_markets)].
Proof. vm_compute. reflexivity. Qed.

Lemma markets_title_lookups_bounded_witness :
  count is_get_market
    (actions (cmd_markets sample_markets (accepting_titled (Some 2%Z))) false) = 2%nat /\
  (count is_get_market
     (actions (cmd_markets sample_markets (accepting_titled (Some 2%Z))) false)
   <= Z.to_nat 2)%nat.
Proof.
  split; [vm_compute; reflexivity|].
  apply (@markets_title_lookups_bounded _ _ _ sample_markets
           (accepting_titled (Some 2%Z)) false 2%Z);
    [reflexivity|reflexivity|lia].
Defined.

Lemma markets_accepting_only_filters_witness :
  printed_pages (actions (cmd_markets sample_markets (accepting_titled (Some 2%Z))) false)
    = [two_titled_markets] /\
  forall m, In m (data_or_empty two_titled_markets) -> accepting m = true.
Proof.
  split; [vm_compute; reflexivity|]. intros m Hm.
  apply (@markets_accepting_only_filters _ _ _ sample_markets
           (accepting_titled (Some 2%Z)) false two_titled_markets m);
    [reflexivity|reflexivity|vm_compute; left; reflexivity|exact Hm].
Defined.

Lemma markets_page_bounded_witness :
  effective_limit (accepting_titled None) = Some 20%Z /\
  printed_pages (actions (cmd_markets sample_markets (accepting_titled None)) false)
    = [three_titled_markets] /\
  (List.length (data_or_empty three_titled_markets) <= Z.to_nat 20)%nat.
Proof.
  split; [reflexivity|]. split; [vm_compute; reflexivity|].
  apply (@markets_page_bounded _ _ _ sample_markets
           (accepting_titled None) false 20%Z three_titled_markets);
    [reflexivity|reflexivity|lia|vm_compute; left; reflexivity].
Defined.

Lemma markets_limit_zero_is_no_limit_witness :
  printed_pages (actions (cmd_markets sample_markets (accepting_titled (Some 0%Z))) false)
    = [three_titled_markets] /\
  exists ev resp s1,
    list_markets sample_markets (accepting_titled (Some 0%Z)) false = (Done resp, s1, [ev]) /\
    List.length (data_or_empty three_titled_markets)
      = List.length (filter accepting (data_or_empty resp)).
Proof.
  split; [vm_compute; reflexivity|].
  apply (@markets_limit_zero_is_no_limit _ _ _ sample_markets
           (accepting_titled (Some 0%Z)) false three_titled_markets);
    [reflexivity|reflexivity|vm_compute; left; reflexivity].
Defined.

Lemma markets_title_failures_are_isolated_witness :
  get_market sample_markets (JStr "c1") false
    = (Ok [("question"%string, JStr "Will it rain?")], false) /\
  get_market sample_markets (JStr "c2") false = (Raise (ClientError "404"), false) /\
  printed_pages (actions (cmd_markets sample_markets (accepting_titled (Some 2%Z))) false)
    = [two_titled_markets] /\
  count is_print_error
    (actions (cmd_markets sample_markets (accepting_titled (Some 2%Z))) false) = 0%nat /\
  titles_looked_up sample_markets false
    [[("condition_id"%string, JStr "c1"); ("accepting_orders"%string, JBool true)];
     [("condition_id"%string, JStr "c2"); ("accepting_orders"%string, JBool true)]]
    (data_or_empty two_titled_markets).
Proof.
  split; [reflexivity|]. split; [reflexivity|].
  destruct (@markets_title_failures_are_isolated _ _ _ sample_markets
              (accepting_titled (Some 2%Z)) false _ false
              (CallGetSimplifiedMarkets None) eq_refl eq_refl)
    as (p & Hp & Hcount & _ & Htitles).
  assert (Epage : p = two_titled_markets).
  { apply (f_equal (hd (Page.mk None []))) in Hp. vm_compute in Hp. now symmetry. }
  subst p. split; [exact Hp|]. split; [exact Hcount|exact Htitles].
Defined.

(** * Configuration *)

(** ** Text *)

Lemma lstrip_head chars s :
  lstrip chars s = EmptyString \/
  exists c r, lstrip chars s = String c r /\ chars c = false.
Proof.
  induction s as [|c s IH]; simpl; [now left|].
  destruct (chars c) eqn:Hc; [exact IH|]. right. now exists c, s.
Qed.

Lemma rstrip_head chars c s :
  chars c = false -> exists r, rstrip chars (String c s) = String c r.
Proof.
  intros Hc. simpl. destruct (rstrip chars s); [rewrite Hc|]; eexists; reflexivity.
Qed.

Lemma rstrip_idempotent chars s : rstrip chars (rstrip chars s) = rstrip chars s.
Proof.
  induction s as [|c s IH]; simpl; [reflexivity|].
  destruct (rstrip chars s) as [|c' r] eqn:Hr.
  - destruct (chars c) eqn:Hc; simpl; [reflexivity|]. now rewrite Hc.
  - change (rstrip chars (String c (String c' r)))
      with (match rstrip chars (String c' r) with
            | EmptyString => if chars c then EmptyString else String c EmptyString
            | String c'' r' => String c (String c'' r')
            end).
    now rewrite IH.
Qed.

Lemma strip_chars_idempotent chars s :
  strip_chars chars (strip_chars chars s) = strip_chars chars s.
Proof.
  unfold strip_chars.
  destruct (lstrip_head chars s) as [->|(c & r & -> & Hc)]; [reflexivity|].
  destruct (rstrip_head chars c r Hc) as [r' Hr]. rewrite Hr.
  simpl lstrip. rewrite Hc, <- Hr. apply rstrip_idempotent.
Qed.

Lemma contains_lstrip chars c s :
  contains c s = false -> contains c (lstrip chars s) = false.
Proof.
  induction s as [|c' s IH]; simpl; [reflexivity|].
  intros H. apply orb_false_iff in H. destruct H as [Hc Hs].
  destruct (chars c'); [auto|]. simpl. now rewrite Hc, Hs.
Qed.

Lemma contains_rstrip chars c s :
  contains c s = false -> contains c (rstrip chars s) = false.
Proof.
  induction s as [|c' s IH]; simpl; [reflexivity|].
  intros H. apply orb_false_iff in H. destruct H as [Hc Hs].
  specialize (IH Hs). destruct (rstrip chars s) as [|c'' r].
  - destruct (chars c'); simpl; [reflexivity|]. now rewrite Hc.
  - change (contains c (String c' (String c'' r)))
      with (Ascii.eqb c c' || contains c (String c'' r)).
    now rewrite Hc, IH.
Qed.

Lemma split_once_before sep s before after :
  split_once sep s = Some (before, after) -> contains sep before = false.
Proof.
  revert before after. induction s as [|c s IH]; simpl; intros before after H;
    [discriminate|].
  destruct (Ascii.eqb c sep) eqn:Hc.
  - injection H as <- _. reflexivity.
  - destruct (split_once sep s) as [[b a]|]; [|discriminate].
    injection H as <- _. simpl. rewrite Ascii.eqb_sym, Hc. simpl. now apply (IH b a).
Qed.

Lemma given_nonempty s : given (Some s) = true -> s <> EmptyString.
Proof. destruct s; [discriminate|discriminate]. Qed.

(** ** The environment file *)

(** X22. Every assignment read from a line of the environment file has
    a name and a value that are not empty and carry no white space at
    either end, and a name without an equals sign. *)
Theorem env_assignment_invariants raw key value :
  env_assignment raw = Some (key, value) ->
  key <> EmptyString /\ value <> EmptyString /\
  strip key = key /\ strip value = value /\ contains "=" key = false.
Proof.
  unfold env_assignment.
  destruct (negb (given (Some (strip raw))) || startswith "#" (strip raw)); [discriminate|].
  set (line := if startswith "export " (strip raw) then strip (drop 7 (strip raw)) else strip raw).
  unfold assignment. destruct (split_once "=" line) as [[k v]|] eqn:Hsplit; [|discriminate].
  destruct (given (Some (strip k)) && given (Some (strip (strip_chars is_quote (strip v)))))
    eqn:Hgiven; [|discriminate].
  intros H. injection H as <- <-.
  apply andb_true_iff in Hgiven. destruct Hgiven as [Hk Hv].
  split; [now apply given_nonempty|]. split; [now apply given_nonempty|].
  split; [apply strip_chars_idempotent|]. split; [apply strip_chars_idempotent|].
  apply contains_rstrip, contains_lstrip. exact (split_once_before _ _ Hsplit).
Qed.

Lemma env_assignment_invariants_witness :
  env_assignment ("export POLYMARKET_KEY='0xabc'" ++ line_feed)
    = Some ("POLYMARKET_KEY", "0xabc")%string /\
  strip "POLYMARKET_KEY" = "POLYMARKET_KEY"%string /\
  contains "=" "POLYMARKET_KEY" = false.
Proof.
  split; [reflexivity|].
  destruct (@env_assignment_invariants ("export POLYMARKET_KEY='0xabc'" ++ line_feed)
              "POLYMARKET_KEY" "0xabc" eq_refl) as (_ & _ & Hk & _ & He).
  split; assumption.
Defined.

(** X25. A line that begins with [export] assigns what the rest of it
    assigns, unless that rest is a comment or begins with [export]
    again. *)
Theorem export_prefix_is_optional raw rest :
  strip raw = ("export " ++ rest)%string ->
  startswith "#" (strip rest) = false ->
  startswith "export " (strip rest) = false ->
  env_assignment raw = env_assignment rest.
Proof.
  intros Hraw Hcomment Hexport. unfold env_assignment.
  rewrite Hraw, Hcomment, Hexport.
  change (drop 7 ("export " ++ rest)) with rest.
  change (startswith "export " ("export " ++ rest)) with (String.prefix "" rest).
  replace (String.prefix "" rest) with true by (now destruct rest).
  change (startswith "#" ("export " ++ rest)) with false.
  change (given (Some ("export " ++ rest)%string)) with true. simpl negb. simpl orb.
  destruct (strip rest) as [|c line] eqn:Hline; reflexivity.
Qed.

Lemma export_prefix_is_optional_witness :
  env_assignment ("  export POLYMARKET_KEY='0xabc'" ++ line_feed)
    = Some ("POLYMARKET_KEY", "0xabc")%string /\
  env_assignment ("  export POLYMARKET_KEY='0xabc'" ++ line_feed)
    = env_assignment "POLYMARKET_KEY='0xabc'".
Proof.
  split; [reflexivity|].
  apply (@export_prefix_is_optional ("  export POLYMARKET_KEY='0xabc'" ++ line_feed)
           "POLYMARKET_KEY='0xabc'"); reflexivity.
Defined.

Lemma dict_get_set_same {V} k (v : V) d : dict_get k (dict_set k v d) = Some v.
Proof.
  induction d as [|[k0 v0] d IH]; simpl.
  - now rewrite String.eqb_refl.
  - destruct (String.eqb_spec k k0) as [->|Hk0]; simpl.
    + now rewrite String.eqb_refl.
    + destruct (String.eqb_spec k k0); [contradiction|exact IH].
Qed.

Lemma load_lines_lookup lines k :
  forallb clean lines = true ->
  forall environ,
    dict_get k (load_lines lines environ)
      = match last_assigned k lines with
        | Some value => Some value
        | None => dict_get k environ
        end.
Proof.
  induction lines as [|raw rest IH]; simpl; intros Hclean environ; [reflexivity|].
  apply andb_true_iff in Hclean. destruct Hclean as [Hraw Hrest].
  unfold clean in Hraw.
  destruct (env_assignment raw) as [[key value]|].
  - apply negb_true_iff in Hraw. rewrite Hraw, (IH Hrest).
    destruct (last_assigned k rest); [reflexivity|].
    destruct (String.eqb k key) eqn:Hk.
    + apply String.eqb_eq in Hk. subst key. apply dict_get_set_same.
    + now apply dict_get_set_other.
  - rewrite (IH Hrest). now destruct (last_assigned k rest).
Qed.

Lemma dict_mem_set {V} k k' (v : V) d :
  dict_mem k d = true -> dict_mem k (dict_set k' v d) = true.
Proof.
  unfold dict_mem. intros H. destruct (String.eqb k k') eqn:Hk.
  - apply String.eqb_eq in Hk. subst k'. now rewrite dict_get_set_same.
  - now rewrite dict_get_set_other.
Qed.

Lemma load_lines_keeps lines k :
  forall environ,
    dict_mem k environ = true -> dict_mem k (load_lines lines environ) = true.
Proof.
  induction lines as [|raw rest IH]; simpl; intros environ Hk; [assumption|].
  destruct (env_assignment raw) as [[key value]|]; [|now apply IH].
  destruct (has_null key || has_null value); [assumption|].
  apply IH. now apply dict_mem_set.
Qed.

Section EnvironmentFile.
Variable home_env_file : string.
Variable files : string -> option (list string).

(** X23. After the environment file is read, a variable has the value
    of the last line of the file that assigns it, and the value it had
    before where no line does: the file wins over the environment. *)
Theorem env_file_wins environ lines k :
  files (env_file_path home_env_file environ) = Some lines ->
  forallb clean lines = true ->
  dict_get k (_load_env_file home_env_file files environ)
    = match last_assigned k lines with
      | Some value => Some value
      | None => dict_get k environ
      end.
Proof.
  intros Hfile Hclean. unfold _load_env_file. rewrite Hfile.
  now apply load_lines_lookup.
Qed.

(** X24. Reading the environment file never unsets a variable. *)
Theorem env_file_never_unsets environ k :
  dict_mem k environ = true ->
  dict_mem k (_load_env_file home_env_file files environ) = true.
Proof.
  intros Hk. unfold _load_env_file.
  destruct (files (env_file_path home_env_file environ)); [|assumption].
  now apply load_lines_keeps.
Qed.

(** X30. A null character in a name or a value ends the reading there:
    the lines before it count, the lines after it do not. *)
Theorem null_character_ends_loading environ before raw after key value :
  files (env_file_path home_env_file environ) = Some (before ++ raw :: after) ->
  forallb clean before = true ->
  env_assignment raw = Some (key, value) ->
  has_null key || has_null value = true ->
  _load_env_file home_env_file files environ = load_lines before environ.
Proof.
  intros Hfile Hclean Hraw Hnull. unfold _load_env_file. rewrite Hfile.
  clear Hfile. revert environ.
  induction before as [|line before IH]; simpl; intros environ.
  - now rewrite Hraw, Hnull.
  - simpl in Hclean. apply andb_true_iff in Hclean. destruct Hclean as [Hline Hbefore].
    unfold clean in Hline.
    destruct (env_assignment line) as [[k v]|]; [|now apply IH].
    apply negb_true_iff in Hline. rewrite Hline. now apply IH.
Qed.
End EnvironmentFile.

Lemma env_file_wins_witness :
  dict_get "POLYMARKET_KEY"
    (_load_env_file sample_home_env_file sample_files
       [("POLYMARKET_KEY", "0x123"); ("HOME", "/home/trader")]%string)
    = Some "0xdef"%string /\
  dict_get "HOME"
    (_load_env_file sample_home_env_file sample_files
       [("POLYMARKET_KEY", "0x123"); ("HOME", "/home/trader")]%string)
    = Some "/home/trader"%string.
Proof.
  split.
  - apply (@env_file_wins sample_home_env_file sample_files
             [("POLYMARKET_KEY", "0x123"); ("HOME", "/home/trader")]%string
             sample_env_lines "POLYMARKET_KEY"); reflexivity.
  - reflexivity.
Defined.

Lemma env_file_never_unsets_witness :
  dict_mem "HOME"
    (_load_env_file sample_home_env_file sample_files
       [("POLYMARKET_KEY", "0x123"); ("HOME", "/home/trader")]%string) = true.
Proof.
  apply (@env_file_never_unsets sample_home_env_file sample_files
           [("POLYMARKET_KEY", "0x123"); ("HOME", "/home/trader")]%string "HOME").
  reflexivity.
Defined.

Lemma null_character_ends_loading_witness :
  _load_env_file "/home/trader/.polymarket.env"
    (fun _ => Some ["A=1"; String "B" (String "=" (String "000" EmptyString)); "C=3"]%string)
    [] = [("A", "1")]%string.
Proof.
  apply (@null_character_ends_loading "/home/trader/.polymarket.env"
           (fun _ => Some ["A=1"; String "B" (String "=" (String "000" EmptyString)); "C=3"]%string)
           [] ["A=1"%string] (String "B" (String "=" (String "000" EmptyString)))
           ["C=3"%string] "B" (String "000" EmptyString));
    reflexivity.
Defined.

(** ** The call data of the allowance lookup *)

Lemma lower_length s : String.length (lower s) = String.length s.
Proof. induction s as [|c s IH]; simpl; congruence. Qed.

Lemma hex_lower_is_not_x c : is_hex c = true -> Ascii.eqb (lower_char c) "x" = false.
Proof. destruct c as [[] [] [] [] [] [] [] []]; intros H; try discriminate H; reflexivity. Qed.

Lemma remove_0x_without_x s :
  contains "x" s = false -> remove_0x s = s.
Proof.
  induction s as [|c s IH]; [reflexivity|].
  intros H. cbn [contains] in H. apply orb_false_iff in H. destruct H as [_ Hs].
  specialize (IH Hs). destruct s as [|d s]; [reflexivity|].
  cbn [contains] in Hs. apply orb_false_iff in Hs. destruct Hs as [Hd _].
  change (remove_0x (String c (String d s)))
    with (if Ascii.eqb c "0" && Ascii.eqb d "x" then remove_0x s
          else String c (remove_0x (String d s))).
  rewrite Ascii.eqb_sym in Hd. rewrite Hd, andb_false_r. now rewrite IH.
Qed.

Lemma hex_lower_without_x s :
  all_chars is_hex s = true -> contains "x" (lower s) = false.
Proof.
  induction s as [|c s IH]; cbn [all_chars lower contains]; [reflexivity|].
  intros H. apply andb_true_iff in H. destruct H as [Hc Hs].
  rewrite Ascii.eqb_sym, (hex_lower_is_not_x _ Hc). now apply IH.
Qed.

Lemma append_associative (a b c : string) :
  ((a ++ b) ++ c = a ++ (b ++ c))%string.
Proof. induction a as [|x a IH]; simpl; congruence. Qed.

Lemma pad_address digits :
  String.length digits = 40%nat -> all_chars is_hex digits = true ->
  _pad ("0x" ++ digits) = (replicate 24 "0" ++ lower digits)%string.
Proof.
  intros Hlen Hhex. unfold _pad, rjust.
  change (lower ("0x" ++ digits)) with (String "0" (String "x" (lower digits))).
  change (remove_0x (String "0" (String "x" (lower digits))))
    with (remove_0x (lower digits)).
  rewrite (remove_0x_without_x _ (hex_lower_without_x _ Hhex)), lower_length, Hlen.
  reflexivity.
Qed.

(** X21. For an owner and a spender written as [0x] and forty
    hexadecimal digits, the call data of the allowance lookup is the
    selector followed by two words of 64 digits, each the address in
    lower case behind 24 zeros. *)
Theorem call_data_of_addresses owner spender :
  String.length owner = 40%nat -> all_chars is_hex owner = true ->
  String.length spender = 40%nat -> all_chars is_hex spender = true ->
  call_data ("0x" ++ owner) ("0x" ++ spender)
    = (selector ++ replicate 24 "0" ++ lower owner
                ++ replicate 24 "0" ++ lower spender)%string.
Proof.
  intros Ho Hho Hs Hhs. unfold call_data.
  rewrite (pad_address _ Ho Hho), (pad_address _ Hs Hhs).
  now rewrite append_associative.
Qed.

Lemma call_data_of_addresses_witness :
  call_data "0xAbCdef0123456789abcdef0123456789ABCDEF01"
            "0x4bFb41d5B3570DeFd03C39a9A4D8dE6Bd8B8982E"
    = ("0xdd62ed3e"
       ++ "000000000000000000000000abcdef0123456789abcdef0123456789abcdef01"
       ++ "0000000000000000000000004bfb41d5b3570defd03c39a9a4d8de6bd8b8982e")%string.
Proof.
  apply (@call_data_of_addresses "AbCdef0123456789abcdef0123456789ABCDEF01"
           "4bFb41d5B3570DeFd03C39a9A4D8dE6Bd8B8982E"); reflexivity.
Defined.

(** ** The client *)

Section ClientFacts.
Variable home_env_file : string.
Variable files : string -> option (list string).
Variable int : string -> option Z.
Variables state signed_order response creds : Type.
Variable library : Library state signed_order response creds.

Lemma _env_int_cases name environ :
  (exists n, _env_int int name environ = Done n /\
             (n = None \/
              exists val, dict_get name environ = Some val /\ int val = n)) \/
  _env_int int name environ = Failed (ValueErrorText (name ++ " must be an integer")).
Proof.
  unfold _env_int. destruct (dict_get name environ) as [[|c val]|].
  - left. exists None. auto.
  - destruct (int (String c val)) as [n|] eqn:Hint.
    + left. exists (Some n). split; [reflexivity|]. right. now exists (String c val).
    + now right.
  - left. exists None. auto.
Qed.

Lemma check_signer_cases (client : MarketClient state signed_order response) expected s :
  exists r s' t,
    check_signer client expected s = (r, s', t) /\
    match r with
    | Done _ =>
        given expected = false \/
        exists signer address,
          expected = Some signer /\
          get_address (clob client) s = (Ok address, s') /\
          lower address = lower signer
    | Failed (SystemExit code) =>
        code = 1%Z /\ exists l t', t = t' ++ [InitError l]
    | Failed _ => True
    end.
Proof.
  unfold check_signer. destruct expected as [[|c e]|].
  - eexists _, _, _. split; [reflexivity|]. now left.
  - set (signer := String c e).
    unfold ibind, icall, iprint, iexit, ilift, iret.
    destruct (get_address (clob client) s) as [[address|e1] s1] eqn:Haddr;
      cbn -[lower].
    + destruct (String.eqb (lower address) (lower signer)) eqn:Heq; cbn -[lower].
      * eexists _, _, _. split; [reflexivity|]. right.
        exists signer, address. apply String.eqb_eq in Heq. auto.
      * destruct (get_address (clob client) s1) as [[got|e2] s2]; cbn -[lower];
          eexists _, _, _; (split; [reflexivity|]); [|exact I].
        split; [reflexivity|].
        exists (ExpectedGot signer got), [GetAddress; InitError SignerMismatch; GetAddress].
        reflexivity.
    + eexists _, _, _. split; [reflexivity|]. exact I.
  - eexists _, _, _. split; [reflexivity|]. now left.
Qed.

Ltac says_why :=
  cbn -[app]; split; [reflexivity|]; rewrite ?app_nil_r;
  eexists _, _; first [reflexivity | rewrite !app_assoc; reflexivity].

(** X27. With a key asked for, [get_client] ends in one of three ways:
    with a client; with exit code 1 after a line on standard error that
    says why; or, before any call, with the [ValueError] of a chain id
    or a signature type that is no integer.  No other exception leaves
    it. *)
Theorem authenticated_client_or_exit environ s :
  match get_client home_env_file files int library true environ s with
  | (Done _, _, _) => True
  | (Failed (SystemExit code), _, t) =>
      code = 1%Z /\ exists l t', t = t' ++ [InitError l]
  | (Failed (ValueErrorText msg), s', t) =>
      s' = s /\ t = [] /\
      (msg = "POLYMARKET_CHAIN_ID must be an integer"%string \/
       msg = "POLYMARKET_SIG_TYPE must be an integer"%string)
  | (Failed (Exception _), _, _) => False
  end.
Proof.
  unfold get_client.
  set (env := _load_env_file home_env_file files environ).
  unfold ibind at 1, ilift at 1.
  destruct (_env_int_cases "POLYMARKET_CHAIN_ID" env) as [(chain & -> & _)| ->];
    [|now auto].
  unfold ibind at 1, ilift at 1.
  destruct (_env_int_cases "POLYMARKET_SIG_TYPE" env) as [(sig & -> & _)| ->];
    [|now auto].
  cbn [negb app].
  destruct (dict_get "POLYMARKET_KEY" env) as [[|c k]|].
  - cbn. split; [reflexivity|]. now exists KeyNotSet, [].
  - unfold itry, ibind, icall, iprint, iexit, ilift, iret.
    destruct (new_client library _ _ _ _ _ s) as [[client|e] s1]; cbn [of_result].
    + destruct (create_or_derive_api_creds library client s1) as [[api|e] s2];
        cbn [of_result].
      * destruct (set_api_creds library client api s2) as [[[]|e] s3]; cbn [of_result].
        -- destruct (check_signer_cases client (dict_get "POLYMARKET_SIGNER" env) s3)
             as (r & s4 & t & -> & Hr).
           destruct r as [[]|[e|msg|code]]; cbn -[app].
           ++ exact I.
           ++ says_why.
           ++ says_why.
           ++ destruct Hr as (-> & l & t' & ->). says_why.
        -- says_why.
      * says_why.
    + says_why.
  - cbn. split; [reflexivity|]. now exists KeyNotSet, [].
Qed.

Lemma get_client_done environ s :
  match get_client home_env_file files int library true environ s with
  | (Done client, s', _) =>
      given (dict_get "POLYMARKET_SIGNER" (_load_env_file home_env_file files environ))
        = false \/
      exists signer address s0,
        dict_get "POLYMARKET_SIGNER" (_load_env_file home_env_file files environ)
          = Some signer /\
        get_address (clob client) s0 = (Ok address, s') /\
        lower address = lower signer
  | _ => True
  end.
Proof.
  unfold get_client.
  set (env := _load_env_file home_env_file files environ).
  unfold ibind at 1, ilift at 1.
  destruct (_env_int_cases "POLYMARKET_CHAIN_ID" env) as [(chain & -> & _)| ->];
    [|exact I].
  unfold ibind at 1, ilift at 1.
  destruct (_env_int_cases "POLYMARKET_SIG_TYPE" env) as [(sig & -> & _)| ->];
    [|exact I].
  cbn [negb app].
  destruct (dict_get "POLYMARKET_KEY" env) as [[|c k]|]; [exact I| |exact I].
  unfold itry, ibind, icall, iprint, iexit, ilift, iret.
  destruct (new_client library _ _ _ _ _ s) as [[client|e] s1]; cbn [of_result];
    [|exact I].
  destruct (create_or_derive_api_creds library client s1) as [[api|e] s2];
    cbn [of_result]; [|exact I].
  destruct (set_api_creds library client api s2) as [[[]|e] s3]; cbn [of_result];
    [|exact I].
  destruct (check_signer_cases client (dict_get "POLYMARKET_SIGNER" env) s3)
    as (r & s4 & t & -> & Hr).
  destruct r as [[]|[e|msg|code]]; cbn -[app]; try exact I.
  destruct Hr as [Hr|(signer & address & Hs & Ha & Hl)]; [now left|].
  right. now exists signer, address, s3.
Qed.

(** X26. A client that [get_client] hands back under a signer set in
    [POLYMARKET_SIGNER] has just reported that signer as its address,
    up to the case of the letters. *)
Theorem client_signer_checked environ s client s' t signer :
  get_client home_env_file files int library true environ s = (Done client, s', t) ->
  dict_get "POLYMARKET_SIGNER" (_load_env_file home_env_file files environ)
    = Some signer ->
  signer <> EmptyString ->
  exists address s0,
    get_address (clob client) s0 = (Ok address, s') /\
    lower address = lower signer.
Proof.
  intros Hrun Hsigner Hgiven. pose proof (get_client_done environ s) as H.
  rewrite Hrun in H. rewrite Hsigner in H.
  destruct H as [H|(signer' & address & s0 & Hs & Ha & Hl)].
  - destruct signer; [contradiction|discriminate].
  - injection Hs as <-. now exists address, s0.
Qed.

(** X28. A client without a key is built from the host, the chain id
    and the signature type alone: the key, the funder and the signer
    play no part in it. *)
Theorem unauthenticated_client_ignores_key env1 env2 s :
  (forall name, key_setting name = false ->
     dict_get name (_load_env_file home_env_file files env1)
       = dict_get name (_load_env_file home_env_file files env2)) ->
  get_client home_env_file files int library false env1 s
    = get_client home_env_file files int library false env2 s.
Proof.
  intros Hsame. unfold get_client, _env_int. cbn [negb].
  rewrite (Hsame "POLYMARKET_HOST"%string eq_refl).
  rewrite (Hsame "POLYMARKET_CHAIN_ID"%string eq_refl).
  rewrite (Hsame "POLYMARKET_SIG_TYPE"%string eq_refl).
  reflexivity.
Qed.

Lemma chain_ids_app t1 t2 : chain_ids (t1 ++ t2) = chain_ids t1 ++ chain_ids t2.
Proof. unfold chain_ids. apply flat_map_app. Qed.

Lemma check_signer_chain_ids (client : MarketClient state signed_order response)
    expected s :
  chain_ids (init_events (check_signer client expected) s) = [].
Proof.
  unfold init_events, check_signer. destruct expected as [[|c e]|]; [reflexivity| |reflexivity].
  set (signer := String c e).
  unfold ibind, icall, iprint, iexit, ilift, iret.
  destruct (get_address (clob client) s) as [[address|e1] s1]; cbn -[lower];
    [|reflexivity].
  destruct (String.eqb (lower address) (lower signer)); cbn -[lower]; [reflexivity|].
  destruct (get_address (clob client) s1) as [[got|e2] s2]; reflexivity.
Qed.

(** The chain ids a run of [get_client] builds clients with. *)
Lemma get_client_chain_ids require_auth environ s :
  chain_ids (init_events
     (get_client home_env_file files int library require_auth environ) s)
  = match _env_int int "POLYMARKET_CHAIN_ID" (_load_env_file home_env_file files environ),
          _env_int int "POLYMARKET_SIG_TYPE" (_load_env_file home_env_file files environ)
    with
    | Done chain, Done _ =>
        if require_auth
        then if given (dict_get "POLYMARKET_KEY"
                         (_load_env_file home_env_file files environ))
             then [Some (chain_id_or_polygon chain)]
             else []
        else [None]
    | _, _ => []
    end.
Proof.
  unfold init_events, get_client.
  set (env := _load_env_file home_env_file files environ).
  unfold ibind at 1, ilift at 1.
  destruct (_env_int int "POLYMARKET_CHAIN_ID" env) as [chain|f]; [|reflexivity].
  unfold ibind at 1, ilift at 1.
  destruct (_env_int int "POLYMARKET_SIG_TYPE" env) as [sig|f]; [|reflexivity].
  cbn [app]. destruct require_auth; cbn [negb].
  - destruct (dict_get "POLYMARKET_KEY" env) as [[|c k]|];
      [reflexivity| |reflexivity].
    cbn [given].
    unfold itry, ibind, icall, iprint, iexit, ilift, iret.
    destruct (new_client library _ _ _ _ _ s) as [[client|e] s1]; cbn [of_result];
      [|reflexivity].
    destruct (create_or_derive_api_creds library client s1) as [[api|e] s2];
      cbn [of_result]; [|reflexivity].
    destruct (set_api_creds library client api s2) as [[[]|e] s3]; cbn [of_result];
      [|reflexivity].
    pose proof (check_signer_chain_ids client (dict_get "POLYMARKET_SIGNER" env) s3)
      as Hcheck.
    unfold init_events in Hcheck.
    destruct (check_signer client (dict_get "POLYMARKET_SIGNER" env) s3)
      as [[[[]|[e|msg|code]] s4] t]; cbn [snd] in Hcheck;
      cbn -[chain_ids app]; rewrite ?app_nil_r;
      unfold chain_ids in *; cbn [flat_map app];
      rewrite ?flat_map_app, ?Hcheck; reflexivity.
  - unfold icall. destruct (new_client library _ _ _ _ _ s) as [r s1]. reflexivity.
Qed.

(** X29. No client is ever built for chain 0.  The chain id a client is
    built with is the integer in [POLYMARKET_CHAIN_ID], and 137 where
    that is unset, empty or zero; and a client asked for with a key is
    built with one, once the key is there and the two integer settings
    are read. *)
Theorem chain_id_never_zero require_auth environ s :
  (forall n,
     In (Some n)
        (chain_ids (init_events
           (get_client home_env_file files int library require_auth environ) s)) ->
     n <> 0%Z /\
     match dict_get "POLYMARKET_CHAIN_ID" (_load_env_file home_env_file files environ) with
     | Some (String c val) =>
         exists k, int (String c val) = Some k /\
                   n = (if (k =? 0)%Z then 137%Z else k)
     | _ => n = 137%Z
     end) /\
  (require_auth = true ->
   given (dict_get "POLYMARKET_KEY" (_load_env_file home_env_file files environ))
     = true ->
   (exists chain,
      _env_int int "POLYMARKET_CHAIN_ID" (_load_env_file home_env_file files environ)
        = Done chain) ->
   (exists signature_type,
      _env_int int "POLYMARKET_SIG_TYPE" (_load_env_file home_env_file files environ)
        = Done signature_type) ->
   exists n,
     chain_ids (init_events
        (get_client home_env_file files int library require_auth environ) s)
       = [Some n]).
Proof.
  rewrite get_client_chain_ids.
  set (env := _load_env_file home_env_file files environ).
  split.
  - intros n. unfold _env_int at 1.
    destruct (dict_get "POLYMARKET_CHAIN_ID" env) as [[|c val]|].
    + destruct (_env_int int "POLYMARKET_SIG_TYPE" env); [|intros []].
      destruct require_auth; [destruct (given _)|]; cbn;
        intros H; try contradiction; destruct H as [H|[]]; try discriminate H.
      injection H as <-. split; [discriminate|reflexivity].
    + destruct (int (String c val)) as [k|]; [|intros []].
      destruct (_env_int int "POLYMARKET_SIG_TYPE" env); [|intros []].
      destruct require_auth; [destruct (given _)|]; cbn -[Z.eqb];
        intros H; try contradiction; destruct H as [H|[]]; try discriminate H.
      injection H as <-. unfold chain_id_or_polygon.
      split; [|now exists k].
      destruct (Z.eqb_spec k 0); [discriminate|assumption].
    + destruct (_env_int int "POLYMARKET_SIG_TYPE" env); [|intros []].
      destruct require_auth; [destruct (given _)|]; cbn;
        intros H; try contradiction; destruct H as [H|[]]; try discriminate H.
      injection H as <-. split; [discriminate|reflexivity].
  - intros -> Hkey (chain & ->) (sig & ->). rewrite Hkey. now eexists.
Qed.
End ClientFacts.

Example sample_get_client_run :
  sample_get_client true [] false
    = (Done sample_markets, false,
       [NewClient default_host (Some "0xdef"%string) (Some 137%Z) None None;
        CreateOrDeriveApiCreds; SetApiCreds; GetAddress]).
Proof. vm_compute. reflexivity. Qed.

Lemma client_signer_checked_witness :
  dict_get "POLYMARKET_SIGNER" (_load_env_file sample_home_env_file sample_files [])
    = Some "0xSIGNER"%string /\
  exists address s0,
    get_address (clob sample_markets) s0 = (Ok address, false) /\
    lower address = lower "0xSIGNER".
Proof.
  split; [reflexivity|].
  apply (@client_signer_checked sample_home_env_file sample_files sample_int
           bool OrderArgs.t string unit sample_library [] false sample_markets false
           [NewClient default_host (Some "0xdef"%string) (Some 137%Z) None None;
            CreateOrDeriveApiCreds; SetApiCreds; GetAddress] "0xSIGNER");
    [vm_compute; reflexivity|reflexivity|discriminate].
Defined.

Lemma unauthenticated_client_ignores_key_witness :
  get_client sample_home_env_file (fun _ => None) sample_int sample_library false
    [("POLYMARKET_KEY", "0x123"); ("POLYMARKET_CHAIN_ID", "80002")]%string false
  = get_client sample_home_env_file (fun _ => None) sample_int sample_library false
      [("POLYMARKET_CHAIN_ID", "80002")]%string false.
Proof.
  apply (@unauthenticated_client_ignores_key sample_home_env_file (fun _ => None)
           sample_int bool OrderArgs.t string unit sample_library
           [("POLYMARKET_KEY", "0x123"); ("POLYMARKET_CHAIN_ID", "80002")]%string
           [("POLYMARKET_CHAIN_ID", "80002")]%string false).
  intros name Hname. unfold key_setting in Hname.
  apply orb_false_iff in Hname. destruct Hname as [Hname _].
  apply orb_false_iff in Hname. destruct Hname as [Hkey _].
  unfold _load_env_file. cbn [dict_get]. now rewrite Hkey.
Defined.

Lemma chain_id_never_zero_witness :
  (dict_get "POLYMARKET_CHAIN_ID" (_load_env_file sample_home_env_file sample_files [])
     = Some "0"%string /\
   chain_ids (init_events (sample_get_client true []) false) = [Some 137%Z]) /\
  (chain_ids
     (init_events
        (get_client sample_home_env_file (fun _ => None) sample_int sample_library true
           [("POLYMARKET_KEY", "0xabc"); ("POLYMARKET_CHAIN_ID", "80002")]%string)
        false)
     = [Some 80002%Z] /\
   exists k, sample_int "80002" = Some k /\ 80002%Z = (if (k =? 0)%Z then 137%Z else k)).
Proof.
  split.
  - split; [reflexivity|]. unfold sample_get_client.
    destruct (proj2 (@chain_id_never_zero sample_home_env_file sample_files sample_int
                       bool OrderArgs.t string unit sample_library true [] false)
                eq_refl eq_refl
                (ex_intro _ (Some 0%Z) eq_refl) (ex_intro _ None eq_refl))
      as (n & Hn).
    rewrite Hn.
    apply (f_equal (fun l => match l with Some k :: _ => k | _ => 0%Z end)) in Hn.
    vm_compute in Hn. now rewrite <- Hn.
  - split; [vm_compute; reflexivity|].
    apply (proj1 (@chain_id_never_zero sample_home_env_file (fun _ => None) sample_int
                    bool OrderArgs.t string unit sample_library true
                    [("POLYMARKET_KEY", "0xabc"); ("POLYMARKET_CHAIN_ID", "80002")]%string
                    false) 80002%Z).
    vm_compute. left. reflexivity.
Defined.
